(** * Verification of the dashboard data layer (kuro-2/dashi1)

    A shallow embedding of the data-fetching and aggregation code of the
    analytics dashboard:

    - [src/utils/dataFetchers.ts]   (modules [DataFetchers] and
      [DataFetchersRest]),
    - [src/hooks/useAnalytics.ts]   (modules [UseAnalytics] and
      [UseAnalyticsRest]),
    - the [useUserData] hook        (modules [UseUserData] and
      [UseUserDataRest]),
    - the components that lay out what the hooks return (module
      [Components]),

    together with the fragment of JavaScript they rely on (module [Js]) and
    a model of the remote tabular store they query (module [Supabase]).

    Conventions.
    - Rows travel as JavaScript objects: association lists from property
      names to values, so that reading a property the query did not select
      yields [undefined], as it does at run time.
    - Timestamps are represented by their epoch-millisecond value, the
      number [new Date(s).getTime()] of the ISO string the store returns.
    - Counts are natural numbers; ratios are IEEE binary64 numbers, which
      is what a JavaScript [number] is.
    - [await] is sequential composition: every asynchronous function is a
      computation in the monad [M], which threads the remote store, the hook
      state, the console and the log of requests, and which can throw. *)

From Stdlib Require Import ZArith NArith List String Ascii Bool Lia Arith.
From Stdlib Require Import Sorting.Permutation Sorting.Sorted.
From Stdlib Require Import Floats Uint63 DecimalString.
Import ListNotations.

Local Open Scope string_scope.

(* ================================================================== *)
(** * The fragment of JavaScript used by the data layer                *)
(* ================================================================== *)

Module Js.

(** Values.  Numbers that live in rows (counters, timestamps, limits) are
    integers; the only non-integral numbers of the program are the ratios
    handed to [toFixed], which are treated in [Number] below. *)
#[warnings="-register-all"]
Inductive Value : Type :=
| Undefined
| Null
| Bool (b : bool)
| Num (z : Z)
| Str (s : string)
| Obj (fields : list (string * Value))
| Arr (items : list Value).

Definition Object : Type := list (string * Value).

(** ToBoolean. *)
Definition truthy (v : Value) : bool :=
  match v with
  | Undefined | Null => false
  | Bool b => b
  | Num z => negb (z =? 0)%Z
  | Str s => negb (s =? "")
  | Obj _ | Arr _ => true
  end.

(** SameValueZero on primitives.  Two objects are the same only when they
    are the same reference; the objects of this program all come fresh out
    of a response, so no two of them are. *)
Definition same_value_zero (a b : Value) : bool :=
  match a, b with
  | Undefined, Undefined => true
  | Null, Null => true
  | Bool x, Bool y => Bool.eqb x y
  | Num x, Num y => (x =? y)%Z
  | Str x, Str y => (x =? y)
  | _, _ => false
  end.

Definition string_of_Z (z : Z) : string :=
  NilZero.string_of_int (Z.to_int z).

Fixpoint join (sep : string) (l : list string) : string :=
  match l with
  | [] => ""
  | [s] => s
  | s :: rest => s ++ sep ++ join sep rest
  end.

(** ToString (used for template literals and for property keys). *)
Fixpoint to_string (v : Value) : string :=
  match v with
  | Undefined => "undefined"
  | Null => "null"
  | Bool true => "true"
  | Bool false => "false"
  | Num z => string_of_Z z
  | Str s => s
  | Obj _ => "[object Object]"
  | Arr items =>
      join "," (map (fun i => match i with
                              | Undefined | Null => ""
                              | _ => to_string i
                              end) items)
  end.

(** [o.k] on an object: [undefined] when [o] has no property [k]. *)
Fixpoint get (o : Object) (k : string) : Value :=
  match o with
  | [] => Undefined
  | (k', v) :: rest => if k' =? k then v else get rest k
  end.

(** ** [Array.prototype.sort] with a comparator

    The sort is stable.  [before x y] is [compare(x, y) <= 0]: [x] may stay
    in front of [y]. *)
Section Sort.
Context {A : Type} (before : A -> A -> bool).

Fixpoint insert_sorted (x : A) (l : list A) : list A :=
  match l with
  | [] => [x]
  | y :: rest =>
      if before x y then x :: y :: rest else y :: insert_sorted x rest
  end.

Definition sort (l : list A) : list A := fold_right insert_sorted [] l.
End Sort.

(** ** Objects used as dictionaries ([Record<string, T>])

    Own properties in creation order.  [Object.keys], [Object.values] and
    [Object.entries] enumerate array-index keys first, in ascending numeric
    order, and then the other keys in creation order. *)
Section Dict.
Context {T : Type}.

Definition Dict : Type := list (string * T).

Fixpoint dict_get (d : Dict) (k : string) : option T :=
  match d with
  | [] => None
  | (k', v) :: rest => if k' =? k then Some v else dict_get rest k
  end.

(** [d[k] = v]: overwrite in place, or create the property last. *)
Fixpoint dict_set (d : Dict) (k : string) (v : T) : Dict :=
  match d with
  | [] => [(k, v)]
  | (k', v') :: rest =>
      if k' =? k then (k', v) :: rest else (k', v') :: dict_set rest k v
  end.

Definition digit_of (c : ascii) : option N :=
  let n := N_of_ascii c in
  if ((48 <=? n) && (n <=? 57))%N then Some (n - 48)%N else None.

Fixpoint digits_value (s : string) (acc : N) : option N :=
  match s with
  | EmptyString => Some acc
  | String c rest =>
      match digit_of c with
      | Some d => digits_value rest (10 * acc + d)%N
      | None => None
      end
  end.

(** A key is an array index when it is the canonical decimal numeral of
    an integer between 0 and 2^32 - 2. *)
Definition array_index (k : string) : option N :=
  match k with
  | EmptyString => None
  | String c rest =>
      if (c =? "0")%char
      then (if rest =? "" then Some 0%N else None)
      else match digits_value k 0 with
           | Some n => if (n <=? 4294967294)%N then Some n else None
           | None => None
           end
  end.

Definition is_index (e : string * T) : bool :=
  match array_index (fst e) with Some _ => true | None => false end.

Definition index_of (e : string * T) : N :=
  match array_index (fst e) with Some n => n | None => 0%N end.

Definition entries (d : Dict) : list (string * T) :=
  (sort (fun a b => (index_of a <=? index_of b)%N) (filter is_index d)
   ++ filter (fun e => negb (is_index e)) d)%list.

Definition keys (d : Dict) : list string := map fst (entries d).
Definition values (d : Dict) : list T := map snd (entries d).
End Dict.
Arguments Dict : clear implicits.

(** ** [Set]: distinct values in insertion order *)
Definition JsSet : Type := list Value.

Definition set_has (s : JsSet) (v : Value) : bool :=
  existsb (same_value_zero v) s.

Definition set_add (s : JsSet) (v : Value) : JsSet :=
  if set_has s v then s else (s ++ [v])%list.

Definition set_size (s : JsSet) : nat := List.length s.

(** [new Set(array)]. *)
Definition set_of (l : list Value) : JsSet := fold_left set_add l [].


(** ** [Date] *)

(** [new Date(v).getTime()]; [None] is an invalid date (NaN).  A timestamp
    is a number here, so no text is parsed: anything that is neither a
    timestamp nor [null] counts as invalid. *)
Definition date_time (v : Value) : option Z :=
  match v with
  | Num ms => if (Z.abs ms <=? 8640000000000000)%Z then Some ms else None
  | Null => Some 0%Z
  | _ => None
  end.

(** ** Numbers and [toFixed(1)] *)
Module Number.

(** The number a count denotes (exact below 2^53). *)
Definition of_nat (n : nat) : float :=
  PrimFloat.of_uint63 (Uint63.of_Z (Z.of_nat n)).

(** The number an integer denotes (exact below 2^53 in magnitude). *)
Definition of_Z (z : Z) : float :=
  let m := PrimFloat.of_uint63 (Uint63.of_Z (Z.abs z)) in
  if (z <? 0)%Z then PrimFloat.opp m else m.

(** The integer [n] for which [n / 10 - x] is as close to zero as
    possible, the larger one when there are two, for [x = m * 2^e]. *)
Definition nearest_tenths (m : positive) (e : Z) : Z :=
  if (0 <=? e)%Z then (10 * Z.pos m * 2 ^ e)%Z
  else ((20 * Z.pos m + 2 ^ (- e)) / 2 ^ (- e + 1))%Z.

Definition at_least_1e21 (m : positive) (e : Z) : bool :=
  if (0 <=? e)%Z then (10 ^ 21 <=? Z.pos m * 2 ^ e)%Z
  else (10 ^ 21 * 2 ^ (- e) <=? Z.pos m)%Z.

(** [x.toFixed(1)].  From 1e21 on, [toFixed] hands over to the
    exponential notation of [Number::toString], which this model leaves
    out: [None]. *)
Definition toFixed1 (x : float) : option string :=
  match Prim2SF x with
  | S754_nan => Some "NaN"
  | S754_infinity false => Some "Infinity"
  | S754_infinity true => Some "-Infinity"
  | S754_zero _ => Some "0.0"
  | S754_finite sign m e =>
      if at_least_1e21 m e then None
      else
        let n := nearest_tenths m e in
        Some ((if sign then "-" else "")
                ++ string_of_Z (n / 10) ++ "." ++ string_of_Z (n mod 10))
  end.

End Number.

End Js.

(* ================================================================== *)
(** * The remote store                                                 *)
(* ================================================================== *)

(** The query builder of the client library and the answers of the
    service behind it.  Neither is code of this repository: the builder is
    modelled by the request it assembles, the service by what it answers to
    a request. *)
Module Supabase.
Import Js.

Inductive Column : Type :=
| Col (name : string)                         (* [name] *)
| AllCols                                     (* every column *)
| Embed (relation : string) (cols : list string)   (* [relation (cols)] *)
| EmbedAll (relation : string).               (* [relation] with every column *)

Inductive Filter : Type :=
| Eq (column : string) (v : Value)            (* [.eq(column, v)] *)
| Gte (column : string) (v : Value)           (* [.gte(column, v)] *)
| Lte (column : string) (v : Value)           (* [.lte(column, v)] *)
| NotIsNull (column : string).                (* [.not(column, 'is', null)] *)

(** A request: the table, the select list, the filters in the order they
    were added, and the [order], [offset] and [limit] parameters. *)
Record Query : Type := {
  table : string;
  columns : list Column;
  filters : list Filter;
  ordering : option (string * bool);          (* column, ascending *)
  offset : option Z;
  row_limit : option Z
}.

Definition from (t : string) : Query :=
  {| table := t; columns := [AllCols]; filters := [];
     ordering := None; offset := None; row_limit := None |}.

Definition select (cols : list Column) (q : Query) : Query :=
  {| table := table q; columns := cols; filters := filters q;
     ordering := ordering q; offset := offset q; row_limit := row_limit q |}.

Definition add_filter (f : Filter) (q : Query) : Query :=
  {| table := table q; columns := columns q;
     filters := (filters q ++ [f])%list;
     ordering := ordering q; offset := offset q; row_limit := row_limit q |}.

Definition eq (c : string) (v : Value) : Query -> Query := add_filter (Eq c v).
Definition gte (c : string) (v : Value) : Query -> Query := add_filter (Gte c v).
Definition lte (c : string) (v : Value) : Query -> Query := add_filter (Lte c v).
Definition not_is_null (c : string) : Query -> Query := add_filter (NotIsNull c).

Definition order (c : string) (ascending : bool) (q : Query) : Query :=
  {| table := table q; columns := columns q; filters := filters q;
     ordering := Some (c, ascending);
     offset := offset q; row_limit := row_limit q |}.

(** [.limit(n)] sets the [limit] parameter. *)
Definition limit (n : Z) (q : Query) : Query :=
  {| table := table q; columns := columns q; filters := filters q;
     ordering := ordering q; offset := offset q; row_limit := Some n |}.

(** [.range(a, b)] sets [offset] to [a] and [limit] to [b - a + 1]. *)
Definition range (a b : Z) (q : Query) : Query :=
  {| table := table q; columns := columns q; filters := filters q;
     ordering := ordering q;
     offset := Some a; row_limit := Some (b - a + 1)%Z |}.

Record PostgrestError : Type := {
  code : string;
  message : string
}.

(** An answer: [{ data, error: null }] or [{ data: null, error }]. *)
Inductive Response (A : Type) : Type :=
| Success (data : option A)
| Failure (error : PostgrestError).
Arguments Success {A} data.
Arguments Failure {A} error.

Definition data {A} (r : Response A) : option A :=
  match r with Success d => d | Failure _ => None end.

Definition error {A} (r : Response A) : option PostgrestError :=
  match r with Success _ => None | Failure e => Some e end.

(** A remote with state [S]: what it answers to a request for rows, and to
    a request for a single row ([.single()]). *)
Record Remote (S : Type) : Type := {
  rows : S -> Query -> Response (list Object) * S;
  single : S -> Query -> Response Object * S
}.
Arguments rows {S} _ _ _.
Arguments single {S} _ _ _.

(** ** An in-memory database

    The reference remote: tables of rows, each row with its columns and
    with the rows related to it through a foreign key. *)
Module Database.

Inductive Related : Type :=
| ToOne (r : option Object)
| ToMany (rs : list Object).

Record Row : Type := {
  fields : Object;
  related : list (string * Related)
}.

Definition t : Type := string -> list Row.

(** A column a row does not list is NULL. *)
Definition column (o : Object) (c : string) : Value :=
  match get o c with Undefined => Null | v => v end.

Definition is_null (v : Value) : bool :=
  match v with Null => true | _ => false end.

Definition matches (r : Row) (f : Filter) : bool :=
  match f with
  | Eq c v => negb (is_null v) && same_value_zero (column (fields r) c) v
  | Gte c (Num bound) =>
      match column (fields r) c with
      | Num x => (bound <=? x)%Z
      | _ => false
      end
  | Lte c (Num bound) =>
      match column (fields r) c with
      | Num x => (x <=? bound)%Z
      | _ => false
      end
  | Gte _ _ | Lte _ _ => false
  | NotIsNull c => negb (is_null (column (fields r) c))
  end.

(** A comparison against something that is not a number or timestamp
    (the text [null], the empty text) is rejected as a whole. *)
Definition malformed (f : Filter) : bool :=
  match f with
  | Gte _ (Num _) | Lte _ (Num _) => false
  | Gte _ _ | Lte _ _ => true
  | _ => false
  end.

Definition invalid_input : PostgrestError :=
  {| code := "22007"; message := "invalid input syntax for type timestamp with time zone" |}.

Definition bad_range : PostgrestError :=
  {| code := "PGRST103"; message := "Requested range not satisfiable" |}.

Definition no_single_row : PostgrestError :=
  {| code := "PGRST116"; message := "JSON object requested, multiple (or no) rows returned" |}.

(** The sort key of a row; NULL sorts as larger than every value. *)
Definition sort_key (c : string) (r : Row) : option Z :=
  match column (fields r) c with
  | Num x => Some x
  | _ => None
  end.

Definition key_le (a b : option Z) : bool :=
  match a, b with
  | _, None => true
  | None, Some _ => false
  | Some x, Some y => (x <=? y)%Z
  end.

Definition ordered (o : option (string * bool)) (l : list Row) : list Row :=
  match o with
  | None => l
  | Some (c, true) => sort (fun x y => key_le (sort_key c x) (sort_key c y)) l
  | Some (c, false) => sort (fun x y => key_le (sort_key c y) (sort_key c x)) l
  end.

Definition pick (cols : list string) (o : Object) : Object :=
  map (fun c => (c, column o c)) cols.

Definition embed (r : Row) (relation : string) (f : Object -> Object) : Value :=
  match dict_get (related r) relation with
  | Some (ToOne (Some o)) => Obj (f o)
  | Some (ToOne None) => Null
  | Some (ToMany os) => Arr (map (fun o => Obj (f o)) os)
  | None => Null
  end.

Definition project1 (r : Row) (c : Column) : Object :=
  match c with
  | Col name => [(name, column (fields r) name)]
  | AllCols => fields r
  | Embed relation cols => [(relation, embed r relation (pick cols))]
  | EmbedAll relation => [(relation, embed r relation (fun o => o))]
  end.

Definition project (cols : list Column) (r : Row) : Object :=
  flat_map (project1 r) cols.

(** Every row the request matches, in order, as the client receives it. *)
Definition view (db : t) (q : Query) : list Object :=
  map (project (columns q))
      (ordered (ordering q)
               (filter (fun r => forallb (matches r) (filters q)) (db (table q)))).

Definition window (q : Query) (l : list Object) : list Object :=
  let l := match offset q with Some a => skipn (Z.to_nat a) l | None => l end in
  match row_limit q with Some n => firstn (Z.to_nat n) l | None => l end.

Definition negative (o : option Z) : bool :=
  match o with Some z => (z <? 0)%Z | None => false end.

Definition answer (db : t) (q : Query) : PostgrestError + list Object :=
  if existsb malformed (filters q) then inl invalid_input
  else if negative (offset q) || negative (row_limit q) then inl bad_range
  else inr (window q (view db q)).

Definition remote : Remote t :=
  {| rows := fun db q =>
       (match answer db q with
        | inl e => Failure e
        | inr l => Success (Some l)
        end, db);
     single := fun db q =>
       (match answer db q with
        | inl e => Failure e
        | inr [o] => Success (Some o)
        | inr _ => Failure no_single_row
        end, db) |}.

End Database.

End Supabase.

(* ================================================================== *)
(** * Effects: store, hook state, console, exceptions                  *)
(* ================================================================== *)

Module Effects.
Import Js Supabase.

(** What a function can throw: the error object of a response
    ([throw error]), an [Error] with a message, or a built-in exception. *)
Inductive Thrown : Type :=
| ThrownPostgrest (e : PostgrestError)
| ThrownError (msg : string)
| TypeError
| RangeError.

(** One exchange with the remote. *)
Inductive Reply : Type :=
| Rows (r : Response (list Object))
| Single (r : Response Object).

Definition failed (x : Query * Reply) : bool :=
  match snd x with
  | Rows (Failure _) | Single (Failure _) => true
  | _ => false
  end.

Section Monad.
Context {S H : Type}.

Record World : Type := {
  store : S;                              (* the remote *)
  hook : H;                               (* the state the hook holds *)
  console : list string;                  (* console.error, oldest first *)
  requests : list (Query * Reply)         (* exchanges, oldest first *)
}.

(** [Unfinished]: a loop was cut off by its iteration budget. *)
Inductive Outcome (A : Type) : Type :=
| Returned (a : A)
| Threw (e : Thrown)
| Unfinished.

Definition M (A : Type) : Type := World -> Outcome A * World.

Definition ret {A} (a : A) : M A := fun w => (Returned A a, w).

Definition bind {A B} (m : M A) (k : A -> M B) : M B :=
  fun w =>
    match m w with
    | (Returned _ a, w') => k a w'
    | (Threw _ e, w') => (Threw B e, w')
    | (Unfinished _, w') => (Unfinished B, w')
    end.

Definition throw {A} (e : Thrown) : M A := fun w => (Threw A e, w).

Definition unfinished {A} : M A := fun w => (Unfinished A, w).

(** [try { m } catch (err) { handler err }]. *)
Definition try_catch {A} (m : M A) (handler : Thrown -> M A) : M A :=
  fun w =>
    match m w with
    | (Threw _ e, w') => handler e w'
    | r => r
    end.

(** [try { m } finally { f }]. *)
Definition try_finally {A} (m : M A) (f : M unit) : M A :=
  fun w =>
    match m w with
    | (Unfinished _, w') => (Unfinished A, w')
    | (r, w') =>
        match f w' with
        | (Returned _ _, w'') => (r, w'')
        | (Threw _ e, w'') => (Threw A e, w'')
        | (Unfinished _, w'') => (Unfinished A, w'')
        end
    end.

Definition console_error (label : string) : M unit :=
  fun w => (Returned unit tt,
            {| store := store w; hook := hook w;
               console := (console w ++ [label])%list;
               requests := requests w |}).

Definition get_hook : M H := fun w => (Returned H (hook w), w).

Definition modify_hook (f : H -> H) : M unit :=
  fun w => (Returned unit tt,
            {| store := store w; hook := f (hook w);
               console := console w; requests := requests w |}).

Context (remote : Remote S).

(** [await query]. *)
Definition await_rows (q : Query) : M (Response (list Object)) :=
  fun w =>
    let (r, s) := rows remote (store w) q in
    (Returned _ r,
     {| store := s; hook := hook w; console := console w;
        requests := (requests w ++ [(q, Rows r)])%list |}).

(** [await query.single()]. *)
Definition await_single (q : Query) : M (Response Object) :=
  fun w =>
    let (r, s) := single remote (store w) q in
    (Returned _ r,
     {| store := s; hook := hook w; console := console w;
        requests := (requests w ++ [(q, Single r)])%list |}).

End Monad.

Arguments World : clear implicits.
Arguments M : clear implicits.
Arguments Returned {A} a.
Arguments Threw {A} e.
Arguments Unfinished {A}.

Definition start {S H} (s : S) (h : H) : World S H :=
  {| store := s; hook := h; console := []; requests := [] |}.

End Effects.

Declare Scope fetch_scope.
Delimit Scope fetch_scope with fetch.
Notation "x <- m ;; k" := (Effects.bind m (fun x => k))
  (at level 61, m at next level, right associativity) : fetch_scope.
Notation "m ;; k" := (Effects.bind m (fun _ => k))
  (at level 61, right associativity) : fetch_scope.


(* ================================================================== *)
(** * The [useUserData] hook                                           *)
(* ================================================================== *)

Module UseUserData.
Import Js Supabase Effects.
Local Open Scope fetch_scope.

(** [useState]: the three slots of the hook. *)
Record State : Type := {
  users : list Object;
  loading : bool;
  error : option string
}.

Definition initial : State :=
  {| users := []; loading := false; error := None |}.

Section Hook.
Context {S : Type} (remote : Remote S).

Definition setUsers (u : list Object) : M S State unit :=
  modify_hook (fun h => {| users := u; loading := loading h; error := error h |}).

Definition setLoading (b : bool) : M S State unit :=
  modify_hook (fun h => {| users := users h; loading := b; error := error h |}).

Definition setError (e : option string) : M S State unit :=
  modify_hook (fun h => {| users := users h; loading := loading h; error := e |}).

(** [const fetchSize = 1000]. *)
Definition fetchSize : Z := 1000.

(** The request of one page:
    [from('users').select('*, user_sessions (...)')
       .order('created_at', { ascending: false })
       .range(offset, offset + fetchSize - 1)]. *)
Definition users_query : Query :=
  order "created_at" false
    (select [AllCols;
             Embed "user_sessions" ["id"; "is_active"; "created_at"; "updated_at"]]
       (from "users")).

Definition page_query (offset : Z) : Query :=
  range offset (offset + fetchSize - 1) users_query.

(** [data && data.length > 0]. *)
Definition has_rows (data : option (list Object)) : bool :=
  match data with
  | Some l => (0 <? List.length l)%nat
  | None => false
  end.

(** [data?.length === fetchSize]. *)
Definition full_page (data : option (list Object)) : bool :=
  match data with
  | Some l => (Z.of_nat (List.length l) =? fetchSize)%Z
  | None => false
  end.

(** The [while (hasMore)] loop of [fetchAllUsers], entered with [hasMore]
    true; [fuel] bounds the number of iterations. *)
Fixpoint fetchAllUsers_loop (fuel : nat) (allUsers : list Object) (offset : Z)
  : M S State (list Object) :=
  match fuel with
  | O => unfinished
  | Datatypes.S fuel' =>
      r <- await_rows remote (page_query offset) ;;
      match r with
      | Failure e =>
          console_error "Error fetching all users:" ;;
          throw (ThrownPostgrest e)
      | Success data =>
          let allUsers' :=
            if has_rows data
            then (allUsers ++ match data with Some l => l | None => [] end)%list
            else allUsers in
          let offset' :=
            if has_rows data
            then (offset + Z.of_nat (List.length
                     (match data with Some l => l | None => [] end)))%Z
            else offset in
          if full_page data
          then fetchAllUsers_loop fuel' allUsers' offset'
          else ret allUsers'
      end
  end.

Definition fetchAllUsers (fuel : nat) : M S State (list Object) :=
  setLoading true ;;
  setError None ;;
  try_finally
    (try_catch
       (allUsers <- fetchAllUsers_loop fuel [] 0%Z ;;
        setUsers allUsers ;;
        ret allUsers)
       (fun err =>
          console_error "Failed to fetch users" ;;
          setError (Some "Failed to fetch users") ;;
          ret []))
    (setLoading false).

End Hook.

(** The page size as a number of rows. *)
Definition pageSize : nat := Z.to_nat fetchSize.

(** The number of rows a request was answered with. *)
Definition page_rows (x : Query * Reply) : option nat :=
  match snd x with
  | Rows (Success (Some l)) => Some (List.length l)
  | _ => None
  end.

End UseUserData.


(* ================================================================== *)
(** * [src/utils/dataFetchers.ts]                                      *)
(* ================================================================== *)

Module DataFetchers.
Import Js Supabase Effects.
Local Open Scope fetch_scope.

(** [data || []]. *)
Definition or_empty (data : option (list Object)) : list Object :=
  match data with Some l => l | None => [] end.

(** [forEach] with a body that can throw: the first exception ends it. *)
Fixpoint forEach {A St : Type} (body : St -> A -> Thrown + St)
  (l : list A) (st : St) : Thrown + St :=
  match l with
  | [] => inr st
  | x :: rest =>
      match body st x with
      | inl e => inl e
      | inr st' => forEach body rest st'
      end
  end.

(** The ratio fields: [(n / d).toFixed(1)]. *)
Definition ratio (n d : float) : option string :=
  Number.toFixed1 (PrimFloat.div n d).

(** ** View models

    Property names are the source's.  Where two kinds of object share a
    name inside this file, the accumulator built during the loop carries
    the prefix [acc_], the filter descriptor the prefix [filter_], and the
    realtime summary the prefix [realtime_]. *)

Record EventTypeCount : Type := {
  eventType : string;
  count : nat
}.

Record CampaignAcc : Type := {
  acc_campaign : Value;
  acc_source : Value;
  acc_medium : Value;
  acc_events : nat;
  acc_uniqueDays : JsSet
}.

Record CampaignSummary : Type := {
  campaign : Value;
  source : Value;
  medium : Value;
  totalEvents : nat;
  activeDays : nat;
  avgEventsPerDay : option string
}.

Record PageAcc : Type := {
  acc_path : Value;
  acc_visits : nat;
  acc_uniqueUsers : JsSet;
  acc_sections : JsSet
}.

Record PageSummary : Type := {
  path : Value;
  visits : nat;
  uniqueUsers : nat;
  sections : list Value;
  avgVisitsPerUser : option string
}.

Record PageVisitAcc : Type := {
  acc_count : nat;
  acc_lastVisited : Value
}.

Record PageVisit : Type := {
  page_path : string;
  visit_count : nat;
  last_visited : Value
}.

Record Subscription : Type := {
  plan_id : Value;
  status : Value;
  current_period_end : Value;
  plan_type : Value;
  is_trial : Value
}.

Record SessionStats : Type := {
  total_events : nat;
  session_duration : option string;          (* [None]: undefined *)
  unique_pages : nat
}.

Record SessionWithEvents : Type := {
  sessionId : Value;
  user : Value;
  events : list Object;
  createdAt : Value;
  subscription : option Subscription;        (* [None]: undefined *)
  pageVisits : list PageVisit;
  sessionStats : SessionStats
}.

Record RealtimeAnalytics : Type := {
  recentEvents : list Object;
  realtime_totalEvents : nat;
  uniqueActiveUsers : nat;
  eventTypes : list Value;
  timeRange : string;
  eventsPerMinute : option string
}.

(** ** The aggregations, as they stand inside the fetchers *)

(** [fetchEventCountsByType], lines 112-120. *)
Definition count_event (eventCounts : Dict nat) (event : Object) : Dict nat :=
  let key := to_string (get event "event_type") in
  let old := match dict_get eventCounts key with
             | Some n => if (n =? 0)%nat then 0 else n    (* [... || 0] *)
             | None => 0
             end in
  dict_set eventCounts key (old + 1).

Definition eventCounts_of (data : list Object) : list EventTypeCount :=
  map (fun e => {| eventType := fst e; count := snd e |})
      (entries (fold_left count_event data [])).

(** [new Date(v).toISOString().split('T')[0]]: the UTC day of [v],
    represented by the number of that day; it throws on an invalid date. *)
Definition iso_date (v : Value) : Thrown + Value :=
  match date_time v with
  | Some ms => inr (Num (ms / 86400000))
  | None => inl RangeError
  end.

(** [fetchCampaignAnalytics], lines 194-210. *)
Definition add_campaign_event (campaignMap : Dict CampaignAcc) (event : Object)
  : Thrown + Dict CampaignAcc :=
  let key := to_string (get event "utm_campaign") ++ "-"
             ++ to_string (get event "utm_source") ++ "-"
             ++ to_string (get event "utm_medium") in
  match iso_date (get event "created_at") with
  | inl e => inl e
  | inr date =>
      let campaignMap :=
        match dict_get campaignMap key with
        | Some _ => campaignMap
        | None =>
            dict_set campaignMap key
              {| acc_campaign := get event "utm_campaign";
                 acc_source := get event "utm_source";
                 acc_medium := if truthy (get event "utm_medium")
                               then get event "utm_medium" else Str "N/A";
                 acc_events := 0;
                 acc_uniqueDays := [] |}
        end in
      match dict_get campaignMap key with
      | Some c =>
          inr (dict_set campaignMap key
                 {| acc_campaign := acc_campaign c;
                    acc_source := acc_source c;
                    acc_medium := acc_medium c;
                    acc_events := acc_events c + 1;
                    acc_uniqueDays := set_add (acc_uniqueDays c) date |})
      | None => inl TypeError
      end
  end.

(** Lines 212-223. *)
Definition campaign_summary (c : CampaignAcc) : CampaignSummary :=
  {| campaign := acc_campaign c;
     source := acc_source c;
     medium := acc_medium c;
     totalEvents := acc_events c;
     activeDays := set_size (acc_uniqueDays c);
     avgEventsPerDay :=
       if (0 <? set_size (acc_uniqueDays c))%nat
       then ratio (Number.of_nat (acc_events c))
                  (Number.of_nat (set_size (acc_uniqueDays c)))
       else Some "0" |}.

Definition campaign_summaries (campaignMap : Dict CampaignAcc) : list CampaignSummary :=
  sort (fun a b => (totalEvents b <=? totalEvents a)%nat)
       (map campaign_summary (values campaignMap)).

(** [fetchPagePerformance], lines 254-272.  The row is read under
    [event_path]. *)
Definition add_page_event (pageMap : Dict PageAcc) (event : Object)
  : Thrown + Dict PageAcc :=
  let path := get event "event_path" in
  let key := to_string path in
  let pageMap :=
    match dict_get pageMap key with
    | Some _ => pageMap
    | None =>
        dict_set pageMap key
          {| acc_path := path; acc_visits := 0;
             acc_uniqueUsers := []; acc_sections := [] |}
    end in
  match dict_get pageMap key with
  | Some p =>
      inr (dict_set pageMap key
             {| acc_path := acc_path p;
                acc_visits := acc_visits p + 1;
                acc_uniqueUsers := set_add (acc_uniqueUsers p) (get event "user_id");
                acc_sections :=
                  if truthy (get event "page_section")
                  then set_add (acc_sections p) (get event "page_section")
                  else acc_sections p |})
  | None => inl TypeError
  end.

(** Lines 274-284. *)
Definition page_summary (p : PageAcc) : PageSummary :=
  {| path := acc_path p;
     visits := acc_visits p;
     uniqueUsers := set_size (acc_uniqueUsers p);
     sections := acc_sections p;
     avgVisitsPerUser :=
       if (0 <? set_size (acc_uniqueUsers p))%nat
       then ratio (Number.of_nat (acc_visits p))
                  (Number.of_nat (set_size (acc_uniqueUsers p)))
       else Some "0" |}.

Definition page_summaries (pageMap : Dict PageAcc) : list PageSummary :=
  sort (fun a b => (visits b <=? visits a)%nat)
       (map page_summary (values pageMap)).

(** [new Date(a) > new Date(b)]. *)
Definition date_gt (a b : Value) : bool :=
  match date_time a, date_time b with
  | Some x, Some y => (y <? x)%Z
  | _, _ => false
  end.

(** [fetchUserSessionEvents], lines 362-372. *)
Definition add_page_visit (pageVisitMap : Dict PageVisitAcc) (event : Object)
  : Dict PageVisitAcc :=
  if truthy (get event "page_path") then
    let key := to_string (get event "page_path") in
    let pageVisitMap :=
      match dict_get pageVisitMap key with
      | Some _ => pageVisitMap
      | None => dict_set pageVisitMap key
                  {| acc_count := 0; acc_lastVisited := get event "created_at" |}
      end in
    match dict_get pageVisitMap key with
    | Some v =>
        let v := {| acc_count := acc_count v + 1; acc_lastVisited := acc_lastVisited v |} in
        let v := if date_gt (get event "created_at") (acc_lastVisited v)
                 then {| acc_count := acc_count v;
                         acc_lastVisited := get event "created_at" |}
                 else v in
        dict_set pageVisitMap key v
    | None => pageVisitMap
    end
  else pageVisitMap.

(** Lines 380-389; [None] when [ended_at] is falsy.  A difference of
    invalid dates is NaN, and so are the numbers derived from it. *)
Definition sessionDuration_of (data : Object) : option string :=
  if truthy (get data "ended_at") then
    match date_time (get data "started_at"), date_time (get data "ended_at") with
    | Some start, Some finish =>
        let durationMs := (finish - start)%Z in
        let minutes := (durationMs / 60000)%Z in
        let seconds := (Z.rem durationMs 60000 / 1000)%Z in
        Some (string_of_Z minutes ++ "m " ++ string_of_Z seconds ++ "s")
    | _, _ => Some "NaNm NaNs"
    end
  else None.

(** [v.id] for the value [v] of [data.users]. *)
Definition member (v : Value) (k : string) : Thrown + Value :=
  match v with
  | Undefined | Null => inl TypeError
  | Obj o => inr (get o k)
  | _ => inr Undefined
  end.

Section Fetchers.
Context {S H : Type} (remote : Remote S).

Definition handleSupabaseError {A} (error : PostgrestError) (operation : string)
  : M S H A :=
  console_error ("Error in " ++ operation ++ ":") ;;
  throw (ThrownError ("Failed to " ++ operation ++ ": " ++ message error)).

Definition lift {A} (x : Thrown + A) : M S H A :=
  match x with inl e => throw e | inr a => ret a end.

(** [try { body } catch (err) { console.error(label, err); throw err; }]. *)
Definition logged {A} (label : string) (body : M S H A) : M S H A :=
  try_catch body (fun err => console_error label ;; throw err).

(** *** [fetchAnalyticsEvents] *)

Record EventFilters : Type := {
  userId : option string;
  filter_eventType : option string;
  eventCategory : option string;
  eventAction : option string;
  startDate : Value;
  endDate : Value;
  filter_limit : option Z;
  filter_offset : option Z
}.

(** Truthiness of an optional string and of an optional number. *)
Definition given (s : option string) : bool :=
  match s with Some s => negb (s =? "") | None => false end.

Definition nonzero (n : option Z) : bool :=
  match n with Some z => negb (z =? 0)%Z | None => false end.

Definition text (s : option string) : Value :=
  match s with Some s => Str s | None => Undefined end.

Definition number (n : option Z) : Z :=
  match n with Some z => z | None => 0%Z end.

Definition analyticsEvents_query (f : EventFilters) : Query :=
  let query := select [AllCols; Embed "users" ["first_name"; "last_name"; "email"]]
                 (from "user_analytics_events") in
  let query := if given (userId f)
               then eq "user_id" (text (userId f)) query else query in
  let query := if given (filter_eventType f)
               then eq "event_type" (text (filter_eventType f)) query else query in
  let query := if given (eventCategory f)
               then eq "event_category" (text (eventCategory f)) query else query in
  let query := if given (eventAction f)
               then eq "event_action" (text (eventAction f)) query else query in
  let query := if truthy (startDate f)
               then gte "created_at" (startDate f) query else query in
  let query := if truthy (endDate f)
               then lte "created_at" (endDate f) query else query in
  let query := if nonzero (filter_limit f)
               then limit (number (filter_limit f)) query else query in
  let query := if nonzero (filter_offset f)
               then range (number (filter_offset f))
                      (number (filter_offset f)
                       + (if nonzero (filter_limit f)
                          then number (filter_limit f) else 50) - 1)%Z
                      query
               else query in
  order "created_at" false query.

Definition fetchAnalyticsEvents (f : EventFilters) : M S H (list Object) :=
  logged "Error fetching analytics events:"
    (r <- await_rows remote (analyticsEvents_query f) ;;
     match r with
     | Failure e => handleSupabaseError e "fetch analytics events"
     | Success data => ret (or_empty data)
     end).

(** *** [fetchEventCountsByType] *)

Definition eventCounts_query (dateRange : option (Value * Value)) : Query :=
  let query := select [Col "event_type"; Col "created_at"]
                 (from "user_analytics_events") in
  match dateRange with
  | Some (start, finish) =>
      lte "created_at" finish (gte "created_at" start query)
  | None => query
  end.

Definition fetchEventCountsByType (dateRange : option (Value * Value))
  : M S H (list EventTypeCount) :=
  logged "Error fetching event counts by type:"
    (r <- await_rows remote (eventCounts_query dateRange) ;;
     match r with
     | Failure e => handleSupabaseError e "fetch event counts by type"
     | Success data => ret (eventCounts_of (or_empty data))
     end).

(** *** [fetchCampaignAnalytics] *)

Definition campaign_query : Query :=
  not_is_null "utm_campaign"
    (select [Col "utm_campaign"; Col "utm_source"; Col "utm_medium";
             Col "event_type"; Col "created_at"]
       (from "user_analytics_events")).

Definition fetchCampaignAnalytics : M S H (list CampaignSummary) :=
  logged "Error fetching campaign analytics:"
    (r <- await_rows remote campaign_query ;;
     match r with
     | Failure e => handleSupabaseError e "fetch campaign analytics"
     | Success data =>
         campaignMap <- lift (forEach add_campaign_event (or_empty data) []) ;;
         ret (campaign_summaries campaignMap)
     end).

(** *** [fetchPagePerformance] *)

Definition pagePerformance_query : Query :=
  not_is_null "page_path"
    (select [Col "page_path"; Col "page_section"; Col "user_id";
             Col "created_at"; Col "event_data"]
       (from "user_analytics_events")).

Definition fetchPagePerformance : M S H (list PageSummary) :=
  logged "Error fetching page performance:"
    (r <- await_rows remote pagePerformance_query ;;
     match r with
     | Failure e => handleSupabaseError e "fetch page performance"
     | Success data =>
         pageMap <- lift (forEach add_page_event (or_empty data) []) ;;
         ret (page_summaries pageMap)
     end).

(** *** [fetchUserSessionEvents] *)

Definition session_query (sessionId : string) : Query :=
  eq "id" (Str sessionId)
    (select [Col "id"; Col "started_at";
             Embed "users" ["id"; "first_name"; "last_name"; "email"; "phone";
                            "user_type"; "has_active_subscription"; "created_at"]]
       (from "user_sessions")).

Definition session_events_query (sessionId : string) : Query :=
  order "created_at" true
    (eq "session_id" (Str sessionId)
       (select [AllCols] (from "user_analytics_events"))).

Definition subscription_query (user_id : Value) : Query :=
  eq "status" (Str "active")
    (eq "user_id" user_id
       (select [Col "plan_id"; Col "status"; Col "current_period_end";
                Col "plan_type"; Col "is_trial";
                Embed "subscription_plans" ["name"; "price"; "interval"]]
          (from "subscriptions"))).

(** Lines 358-412: the detail object, from the three answers. *)
Definition assemble (data : Object) (eventsData : option (list Object))
  (subscriptionData : option Object) : SessionWithEvents :=
  let events := or_empty eventsData in
  let pageVisitMap := fold_left add_page_visit events [] in
  let pageVisits :=
    map (fun e => {| page_path := fst e;
                     visit_count := acc_count (snd e);
                     last_visited := acc_lastVisited (snd e) |})
        (entries pageVisitMap) in
  {| sessionId := get data "id";
     user := get data "users";
     events := events;
     createdAt := get data "started_at";
     subscription :=
       match subscriptionData with
       | Some s => Some {| plan_id := get s "plan_id";
                           status := get s "status";
                           current_period_end := get s "current_period_end";
                           plan_type := get s "plan_type";
                           is_trial := get s "is_trial" |}
       | None => None
       end;
     pageVisits := sort (fun a b => (visit_count b <=? visit_count a)%nat) pageVisits;
     sessionStats :=
       {| total_events := List.length events;
          session_duration := sessionDuration_of data;
          unique_pages := List.length (keys pageVisitMap) |} |}.

(** [None] is the [null] the function returns. *)
Definition fetchUserSessionEvents (sessionId : string)
  : M S H (option SessionWithEvents) :=
  logged "Error fetching user session events:"
    (r <- await_single remote (session_query sessionId) ;;
     data <- match r with
             | Failure e =>
                 handleSupabaseError e
                   ("fetch user session events for session " ++ sessionId)
             | Success d => ret d
             end ;;
     match data with
     | None => ret None
     | Some data =>
         ev <- await_rows remote (session_events_query sessionId) ;;
         match ev with
         | Failure _ => console_error "Error fetching events:"
         | Success _ => ret tt
         end ;;
         user_id <- lift (member (get data "users") "id") ;;
         sub <- await_single remote (subscription_query user_id) ;;
         match sub with
         | Failure e =>
             if negb (code e =? "PGRST116")
             then console_error "Error fetching subscription:"
             else ret tt
         | Success _ => ret tt
         end ;;
         ret (Some (assemble data (Supabase.data ev) (Supabase.data sub)))
     end).

(** *** [fetchRealtimeAnalytics]

    [minutesBack] is a whole number of minutes; [now] is [Date.now()]. *)

Definition realtime_query (cutoffTime : Value) : Query :=
  order "created_at" false
    (gte "created_at" cutoffTime
       (select [AllCols; Embed "users" ["first_name"; "last_name"; "user_type"]]
          (from "user_analytics_events"))).

(** [new Date(ms).toISOString()]. *)
Definition toISOString (ms : Z) : Thrown + Value :=
  match date_time (Num ms) with
  | Some t => inr (Num t)
  | None => inl RangeError
  end.

Definition realtime_summary (minutesBack : Z) (events : list Object)
  : RealtimeAnalytics :=
  {| recentEvents := events;
     realtime_totalEvents := List.length events;
     uniqueActiveUsers := set_size (set_of (map (fun e => get e "user_id") events));
     eventTypes := set_of (map (fun e => get e "event_type") events);
     timeRange := string_of_Z minutesBack ++ " minutes";
     eventsPerMinute :=
       if (0 <? List.length events)%nat
       then ratio (Number.of_nat (List.length events)) (Number.of_Z minutesBack)
       else Some "0" |}.

Definition fetchRealtimeAnalytics (now : Z) (minutesBack : Z)
  : M S H RealtimeAnalytics :=
  logged "Error fetching realtime analytics:"
    (cutoffTime <- lift (toISOString (now - minutesBack * 60 * 1000)) ;;
     r <- await_rows remote (realtime_query cutoffTime) ;;
     match r with
     | Failure e => handleSupabaseError e "fetch realtime analytics"
     | Success data => ret (realtime_summary minutesBack (or_empty data))
     end).

End Fetchers.

(** [{ ...f, limit: l }] and [{ ...f, offset: o }]; [None] omits the field. *)
Definition with_limit (f : EventFilters) (l : option Z) : EventFilters :=
  {| userId := userId f; filter_eventType := filter_eventType f;
     eventCategory := eventCategory f; eventAction := eventAction f;
     startDate := startDate f; endDate := endDate f;
     filter_limit := l; filter_offset := filter_offset f |}.

Definition with_offset (f : EventFilters) (o : option Z) : EventFilters :=
  {| userId := userId f; filter_eventType := filter_eventType f;
     eventCategory := eventCategory f; eventAction := eventAction f;
     startDate := startDate f; endDate := endDate f;
     filter_limit := filter_limit f; filter_offset := o |}.




End DataFetchers.


(* ================================================================== *)
(** * [src/hooks/useAnalytics.ts]                                      *)
(* ================================================================== *)

Module UseAnalytics.
Import Js Supabase Effects DataFetchers.
Local Open Scope fetch_scope.

Inductive FilterType : Type := Daily | LastMonth | Custom.

(** [{ startDate, endDate }]: a timestamp, a text, or [null]. *)
Record DateRange : Type := {
  range_startDate : Value;
  range_endDate : Value
}.

Record SectionFilter : Type := {
  filterType : FilterType;
  customRange : DateRange
}.

Record TrafficSource : Type := {
  utm_source : Value;
  utm_medium : Value;
  utm_campaign : Value;
  traffic_count : nat
}.

Record PageUsers : Type := {
  page_visits : nat;
  page_users : JsSet
}.

Record PageAnalytics : Type := {
  analytics_page_path : string;
  analytics_visits : nat;
  unique_users : nat
}.

Record Drawer : Type := {
  isDrawerOpen : bool;
  selectedSession : option SessionWithEvents;
  drawerLoading : bool;
  drawerError : option string
}.

(** The [useState] slots of the hook (the overview card, which no filter
    reaches, is left out). *)
Record State : Type := {
  users : list Object;
  eventAnalytics : list EventTypeCount;
  trafficSources : list TrafficSource;
  pageAnalytics : list PageAnalytics;
  loading : bool;
  error : option string;
  eventFilter : SectionFilter;
  trafficFilter : SectionFilter;
  userFilter : SectionFilter;
  pageFilter : SectionFilter;
  drawer : Drawer
}.

Definition no_range : DateRange :=
  {| range_startDate := Null; range_endDate := Null |}.

Definition daily : SectionFilter :=
  {| filterType := Daily; customRange := no_range |}.

Definition initial : State :=
  {| users := []; eventAnalytics := []; trafficSources := []; pageAnalytics := [];
     loading := true; error := None;
     eventFilter := daily; trafficFilter := daily;
     userFilter := daily; pageFilter := daily;
     drawer := {| isDrawerOpen := false; selectedSession := None;
                  drawerLoading := false; drawerError := None |} |}.

(** What the calendar says when [getFilterDates] runs: [new Date()], the
    same time of day one day earlier, and local midnight one calendar month
    earlier, each as the instant its ISO string denotes. *)
Record Clock : Type := {
  today : Z;
  yesterday : Z;
  lastMonth : Z
}.

Definition getFilterDates (clock : Clock) (filterType : FilterType)
  (customRange : DateRange) : DateRange :=
  match filterType with
  | LastMonth =>
      {| range_startDate := Num (lastMonth clock);
         range_endDate := Num (today clock) |}
  | Custom =>
      {| range_startDate := range_startDate customRange;
         range_endDate := range_endDate customRange |}
  | Daily =>
      {| range_startDate := Num (yesterday clock);
         range_endDate := Num (today clock) |}
  end.

(** [if (startDate && endDate) query = query.gte(...).lte(...)]. *)
Definition between (dates : DateRange) (query : Query) : Query :=
  if truthy (range_startDate dates) && truthy (range_endDate dates)
  then lte "created_at" (range_endDate dates)
         (gte "created_at" (range_startDate dates) query)
  else query.

(** [`${a || ''}`]. *)
Definition or_blank (v : Value) : string :=
  if truthy v then to_string v else "".

(** [fetchTrafficSources], lines 160-177. *)
Definition add_source (sourceMap : Dict TrafficSource) (event : Object)
  : Dict TrafficSource :=
  let key := to_string (get event "utm_source") ++ "-"
             ++ or_blank (get event "utm_medium") ++ "-"
             ++ or_blank (get event "utm_campaign") in
  let sourceMap :=
    match dict_get sourceMap key with
    | Some _ => sourceMap
    | None => dict_set sourceMap key
                {| utm_source := get event "utm_source";
                   utm_medium := get event "utm_medium";
                   utm_campaign := get event "utm_campaign";
                   traffic_count := 0 |}
    end in
  match dict_get sourceMap key with
  | Some s => dict_set sourceMap key
                {| utm_source := utm_source s; utm_medium := utm_medium s;
                   utm_campaign := utm_campaign s;
                   traffic_count := traffic_count s + 1 |}
  | None => sourceMap
  end.

Definition trafficSources_of (data : list Object) : list TrafficSource :=
  sort (fun a b => (traffic_count b <=? traffic_count a)%nat)
       (values (fold_left add_source data [])).

(** [fetchPageAnalytics], lines 202-219.  The row is read under
    [page_path]. *)
Definition add_page (pageMap : Dict PageUsers) (event : Object) : Dict PageUsers :=
  let key := to_string (get event "page_path") in
  let pageMap :=
    match dict_get pageMap key with
    | Some _ => pageMap
    | None => dict_set pageMap key {| page_visits := 0; page_users := [] |}
    end in
  match dict_get pageMap key with
  | Some p => dict_set pageMap key
                {| page_visits := page_visits p + 1;
                   page_users := set_add (page_users p) (get event "user_id") |}
  | None => pageMap
  end.

Definition pageAnalytics_of (data : list Object) : list PageAnalytics :=
  sort (fun a b => (analytics_visits b <=? analytics_visits a)%nat)
       (map (fun e => {| analytics_page_path := fst e;
                         analytics_visits := page_visits (snd e);
                         unique_users := set_size (page_users (snd e)) |})
            (entries (fold_left add_page data []))).

Section Hook.
Context {S : Type} (remote : Remote S) (clock : Clock).

Definition setUsers (v : list Object) : M S State unit :=
  modify_hook (fun h =>
    {| users := v; eventAnalytics := eventAnalytics h;
       trafficSources := trafficSources h; pageAnalytics := pageAnalytics h;
       loading := loading h; error := error h;
       eventFilter := eventFilter h; trafficFilter := trafficFilter h;
       userFilter := userFilter h; pageFilter := pageFilter h;
       drawer := drawer h |}).

Definition setEventAnalytics (v : list EventTypeCount) : M S State unit :=
  modify_hook (fun h =>
    {| users := users h; eventAnalytics := v;
       trafficSources := trafficSources h; pageAnalytics := pageAnalytics h;
       loading := loading h; error := error h;
       eventFilter := eventFilter h; trafficFilter := trafficFilter h;
       userFilter := userFilter h; pageFilter := pageFilter h;
       drawer := drawer h |}).

Definition setTrafficSources (v : list TrafficSource) : M S State unit :=
  modify_hook (fun h =>
    {| users := users h; eventAnalytics := eventAnalytics h;
       trafficSources := v; pageAnalytics := pageAnalytics h;
       loading := loading h; error := error h;
       eventFilter := eventFilter h; trafficFilter := trafficFilter h;
       userFilter := userFilter h; pageFilter := pageFilter h;
       drawer := drawer h |}).

Definition setPageAnalytics (v : list PageAnalytics) : M S State unit :=
  modify_hook (fun h =>
    {| users := users h; eventAnalytics := eventAnalytics h;
       trafficSources := trafficSources h; pageAnalytics := v;
       loading := loading h; error := error h;
       eventFilter := eventFilter h; trafficFilter := trafficFilter h;
       userFilter := userFilter h; pageFilter := pageFilter h;
       drawer := drawer h |}).

Definition setLoading (v : bool) : M S State unit :=
  modify_hook (fun h =>
    {| users := users h; eventAnalytics := eventAnalytics h;
       trafficSources := trafficSources h; pageAnalytics := pageAnalytics h;
       loading := v; error := error h;
       eventFilter := eventFilter h; trafficFilter := trafficFilter h;
       userFilter := userFilter h; pageFilter := pageFilter h;
       drawer := drawer h |}).

Definition setError (v : option string) : M S State unit :=
  modify_hook (fun h =>
    {| users := users h; eventAnalytics := eventAnalytics h;
       trafficSources := trafficSources h; pageAnalytics := pageAnalytics h;
       loading := loading h; error := v;
       eventFilter := eventFilter h; trafficFilter := trafficFilter h;
       userFilter := userFilter h; pageFilter := pageFilter h;
       drawer := drawer h |}).

Definition setDrawer (f : Drawer -> Drawer) : M S State unit :=
  modify_hook (fun h =>
    {| users := users h; eventAnalytics := eventAnalytics h;
       trafficSources := trafficSources h; pageAnalytics := pageAnalytics h;
       loading := loading h; error := error h;
       eventFilter := eventFilter h; trafficFilter := trafficFilter h;
       userFilter := userFilter h; pageFilter := pageFilter h;
       drawer := f (drawer h) |}).

(** [setEventDateFilter(filter, customRange?)] and its three siblings
    compute the same slot value. *)
Definition date_filter (filter : FilterType) (customRange : option DateRange)
  : SectionFilter :=
  {| filterType := filter;
     customRange := match filter, customRange with
                    | Custom, Some r => r
                    | _, _ => no_range
                    end |}.

Definition setEventDateFilter (filter : FilterType) (customRange : option DateRange)
  : M S State unit :=
  modify_hook (fun h =>
    {| users := users h; eventAnalytics := eventAnalytics h;
       trafficSources := trafficSources h; pageAnalytics := pageAnalytics h;
       loading := loading h; error := error h;
       eventFilter := date_filter filter customRange;
       trafficFilter := trafficFilter h;
       userFilter := userFilter h; pageFilter := pageFilter h;
       drawer := drawer h |}).

Definition setTrafficDateFilter (filter : FilterType) (customRange : option DateRange)
  : M S State unit :=
  modify_hook (fun h =>
    {| users := users h; eventAnalytics := eventAnalytics h;
       trafficSources := trafficSources h; pageAnalytics := pageAnalytics h;
       loading := loading h; error := error h;
       eventFilter := eventFilter h;
       trafficFilter := date_filter filter customRange;
       userFilter := userFilter h; pageFilter := pageFilter h;
       drawer := drawer h |}).


Definition setPageDateFilter (filter : FilterType) (customRange : option DateRange)
  : M S State unit :=
  modify_hook (fun h =>
    {| users := users h; eventAnalytics := eventAnalytics h;
       trafficSources := trafficSources h; pageAnalytics := pageAnalytics h;
       loading := loading h; error := error h;
       eventFilter := eventFilter h; trafficFilter := trafficFilter h;
       userFilter := userFilter h;
       pageFilter := date_filter filter customRange;
       drawer := drawer h |}).

(** *** [fetchUsers] *)

Definition users_query (dates : DateRange) : Query :=
  between dates (select [AllCols; EmbedAll "user_sessions"] (from "users")).

Definition fetchUsers : M S State unit :=
  try_catch
    (h <- get_hook ;;
     let dates := getFilterDates clock (filterType (userFilter h))
                    (customRange (userFilter h)) in
     r <- await_rows remote (users_query dates) ;;
     match r with
     | Failure e => throw (ThrownPostgrest e)
     | Success data => setUsers (or_empty data)
     end)
    (fun err =>
       console_error "Error fetching users:" ;;
       setError (Some "Failed to fetch users data")).

(** *** [fetchEventAnalytics] *)

(** The argument handed to [fetchEventCountsByType]:
    [{ start: startDate, end: endDate }], an object whatever the dates. *)
Definition event_dateRange (dates : DateRange) : option (Value * Value) :=
  Some (range_startDate dates, range_endDate dates).

Definition fetchEventAnalytics : M S State unit :=
  setLoading true ;;
  setError None ;;
  try_finally
    (try_catch
       (h <- get_hook ;;
        let dates := getFilterDates clock (filterType (eventFilter h))
                       (customRange (eventFilter h)) in
        data <- fetchEventCountsByType remote (event_dateRange dates) ;;
        setEventAnalytics data)
       (fun err =>
          console_error "Error fetching event analytics:" ;;
          setError (Some "Failed to fetch event analytics")))
    (setLoading false).

(** *** [fetchTrafficSources] *)

Definition traffic_query (dates : DateRange) : Query :=
  between dates
    (not_is_null "utm_source"
       (select [Col "utm_source"; Col "utm_medium"; Col "utm_campaign"]
          (from "user_analytics_events"))).

Definition fetchTrafficSources : M S State unit :=
  try_catch
    (h <- get_hook ;;
     let dates := getFilterDates clock (filterType (trafficFilter h))
                    (customRange (trafficFilter h)) in
     r <- await_rows remote (traffic_query dates) ;;
     match r with
     | Failure e => throw (ThrownPostgrest e)
     | Success data => setTrafficSources (trafficSources_of (or_empty data))
     end)
    (fun err =>
       console_error "Error fetching traffic sources:" ;;
       setError (Some "Failed to fetch traffic sources")).

(** *** [fetchPageAnalytics] *)

Definition pages_query (dates : DateRange) : Query :=
  between dates
    (not_is_null "page_path"
       (select [Col "page_path"; Col "user_id"]
          (from "user_analytics_events"))).

Definition fetchPageAnalytics : M S State unit :=
  try_catch
    (h <- get_hook ;;
     let dates := getFilterDates clock (filterType (pageFilter h))
                    (customRange (pageFilter h)) in
     r <- await_rows remote (pages_query dates) ;;
     match r with
     | Failure e => throw (ThrownPostgrest e)
     | Success data => setPageAnalytics (pageAnalytics_of (or_empty data))
     end)
    (fun err =>
       console_error "Error fetching page analytics:" ;;
       setError (Some "Failed to fetch page analytics")).

(** *** [openSessionDrawer] *)

Definition openSessionDrawer (sessionId : string) : M S State unit :=
  setDrawer (fun _ => {| isDrawerOpen := true; selectedSession := None;
                         drawerLoading := true; drawerError := None |}) ;;
  try_finally
    (try_catch
       (sessionData <- fetchUserSessionEvents remote sessionId ;;
        match sessionData with
        | Some s =>
            setDrawer (fun d => {| isDrawerOpen := isDrawerOpen d;
                                   selectedSession := Some s;
                                   drawerLoading := drawerLoading d;
                                   drawerError := drawerError d |})
        | None =>
            setDrawer (fun d => {| isDrawerOpen := isDrawerOpen d;
                                   selectedSession := selectedSession d;
                                   drawerLoading := drawerLoading d;
                                   drawerError := Some "Session data not found." |})
        end)
       (fun err =>
          console_error "Error fetching session details:" ;;
          setDrawer (fun d => {| isDrawerOpen := isDrawerOpen d;
                                 selectedSession := selectedSession d;
                                 drawerLoading := drawerLoading d;
                                 drawerError := Some "Failed to fetch session details" |})))
    (setDrawer (fun d => {| isDrawerOpen := isDrawerOpen d;
                            selectedSession := selectedSession d;
                            drawerLoading := false;
                            drawerError := drawerError d |})).

End Hook.

End UseAnalytics.


(* ================================================================== *)
(** * Remotes and data used to exercise the code                       *)
(* ================================================================== *)

Module Scenarios.
Import Js Supabase Effects.

(** A remote that answers every request for rows with [data]. *)
Definition answering (data : list Object) : Remote unit :=
  {| rows := fun s _ => (Success (Some data), s);
     single := fun s _ =>
       (match data with
        | [o] => Success (Some o)
        | _ => Failure Database.no_single_row
        end, s) |}.

Definition network_error : PostgrestError :=
  {| code := ""; message := "TypeError: Failed to fetch" |}.

(** A database behind a connection that drops some requests: the state
    counts the requests made so far, and request number [i] for [q] fails
    when [drops i q] holds. *)
Definition faulty (drops : nat -> Query -> bool) : Remote (nat * Database.t) :=
  {| rows := fun s q =>
       (if drops (fst s) q then Failure network_error
        else fst (rows Database.remote (snd s) q),
        (Datatypes.S (fst s), snd s));
     single := fun s q =>
       (if drops (fst s) q then Failure network_error
        else fst (single Database.remote (snd s) q),
        (Datatypes.S (fst s), snd s)) |}.

(** [n] users, created one millisecond apart, the newest first. *)
Definition user_row (i : nat) : Database.Row :=
  {| Database.fields := [("id", Num (Z.of_nat i));
                         ("email", Str "user@example.com");
                         ("created_at", Num (1700000000000 - Z.of_nat i))];
     Database.related := [("user_sessions", Database.ToMany [])] |}.

Definition users_db (n : nat) : Database.t :=
  fun t => if t =? "users" then map user_row (seq 0 n) else [].

(** A small store: two users, one ended session, three events. *)
Definition alice : Object :=
  [("id", Str "u1"); ("first_name", Str "Alice"); ("last_name", Str "Jones");
   ("email", Str "alice.jones@example.com"); ("phone", Null);
   ("user_type", Str "premium"); ("has_active_subscription", Bool true);
   ("created_at", Num 100)].

Definition bob : Object :=
  [("id", Str "u2"); ("first_name", Str "Bob"); ("last_name", Str "Williams");
   ("email", Str "bob.williams@example.com"); ("phone", Null);
   ("user_type", Str "standard"); ("has_active_subscription", Bool false);
   ("created_at", Num 200)].

Definition session_s1 : Database.Row :=
  {| Database.fields := [("id", Str "s1"); ("user_id", Str "u1");
                         ("started_at", Num 1000); ("ended_at", Num 126000);
                         ("is_active", Bool false)];
     Database.related := [("users", Database.ToOne (Some alice))] |}.

Definition event_row (id user path type : string) (at_ : Z) (owner : Object)
  : Database.Row :=
  {| Database.fields := [("id", Str id); ("user_id", Str user);
                         ("session_id", Str "s1"); ("event_type", Str type);
                         ("page_path", Str path); ("page_section", Null);
                         ("utm_source", Null); ("utm_medium", Null);
                         ("utm_campaign", Null); ("created_at", Num at_)];
     Database.related := [("users", Database.ToOne (Some owner))] |}.

Definition subscription_u1 : Database.Row :=
  {| Database.fields := [("id", Str "sub1"); ("user_id", Str "u1");
                         ("plan_id", Str "plan_premium_1"); ("status", Str "active");
                         ("current_period_end", Num 900000);
                         ("plan_type", Str "premium"); ("is_trial", Bool false)];
     Database.related := [("subscription_plans",
                           Database.ToOne (Some [("name", Str "Premium Plan");
                                                 ("price", Num 99);
                                                 ("interval", Str "month")]))] |}.

Definition sample : Database.t :=
  fun t =>
    if t =? "users" then
      [ {| Database.fields := alice; Database.related := [("user_sessions", Database.ToMany [])] |};
        {| Database.fields := bob; Database.related := [("user_sessions", Database.ToMany [])] |} ]
    else if t =? "user_sessions" then [session_s1]
    else if t =? "user_analytics_events" then
      [ event_row "e1" "u1" "/dashboard" "button_click" 2000 alice;
        event_row "e2" "u2" "/pricing" "page_view" 3000 bob;
        event_row "e3" "u1" "/pricing" "page_view" 4000 alice ]
    else if t =? "subscriptions" then [subscription_u1]
    else [].

(** The two rows of a page-performance answer with distinct paths. *)
Definition two_pages : list Object :=
  [ [("page_path", Str "/a"); ("page_section", Null); ("user_id", Str "u1");
     ("created_at", Num 1); ("event_data", Null)];
    [("page_path", Str "/b"); ("page_section", Null); ("user_id", Str "u2");
     ("created_at", Num 2); ("event_data", Null)] ].

(** Connections: one that answers the first request only, one that loses
    the subscriptions table, one that is down. *)
Definition only_first_answered : nat -> Query -> bool :=
  fun i _ => (1 <=? i)%nat.

Definition subscriptions_down : nat -> Query -> bool :=
  fun _ q => table q =? "subscriptions".

Definition down : nat -> Query -> bool := fun _ _ => true.

(** The row a request for a single row is answered with, and the object
    held by one of its properties. *)
Definition answer_single {S : Type} (remote : Remote S) (s : S) (q : Query) : Object :=
  match fst (single remote s q) with Success (Some o) => o | _ => [] end.

Definition field_object (o : Object) (k : string) : Object :=
  match get o k with Obj u => u | _ => [] end.

Definition noon : UseAnalytics.Clock :=
  {| UseAnalytics.today := 200000;
     UseAnalytics.yesterday := 200000 - 86400000;
     UseAnalytics.lastMonth := 200000 - 31 * 86400000 |}.

End Scenarios.


(* ================================================================== *)
(** * [src/utils/dataFetchers.ts], the remaining fetchers              *)
(* ================================================================== *)

Module DataFetchersRest.
Import Js Supabase Effects DataFetchers.
Local Open Scope fetch_scope.

Record SessionAnalytics : Type := {
  totalSessions : nat;
  activeSessions : nat;
  inactiveSessions : nat;
  activeSessionRate : option string;
  sessions : list Object
}.

Record Step : Type := {
  step_path : Value;
  action : Value;
  timestamp : Value
}.

Record Journey : Type := {
  userId : string;
  journey : list Step;
  totalSteps : nat;
  uniquePages : nat
}.

Record Health : Type := {
  health_status : string;
  health_timestamp : Value;
  health_message : string
}.

(** [(a / b * 100).toFixed(1)]. *)
Definition percentage (a b : nat) : option string :=
  Number.toFixed1
    (PrimFloat.mul (PrimFloat.div (Number.of_nat a) (Number.of_nat b))
                   (Number.of_nat 100)).

(** [fetchSessionAnalytics], lines 151-163. *)
Definition sessionAnalytics_of (sessions : list Object) : SessionAnalytics :=
  let activeSessions := filter (fun s => truthy (get s "is_active")) sessions in
  let inactiveSessions := filter (fun s => negb (truthy (get s "is_active"))) sessions in
  {| totalSessions := List.length sessions;
     activeSessions := List.length activeSessions;
     inactiveSessions := List.length inactiveSessions;
     activeSessionRate :=
       if (0 <? List.length sessions)%nat
       then percentage (List.length activeSessions) (List.length sessions)
       else Some "0";
     sessions := sessions |}.

(** [fetchUserJourneys], lines 448-458. *)
Definition user_key (event : Object) : string :=
  to_string (get event "user_id").

Definition step_of (event : Object) : Step :=
  {| step_path := get event "event_path";
     action := get event "event_action";
     timestamp := get event "created_at" |}.

Definition add_step (userJourneys : Dict (list Step)) (event : Object)
  : Dict (list Step) :=
  let userJourneys :=
    match dict_get userJourneys (user_key event) with
    | Some _ => userJourneys
    | None => dict_set userJourneys (user_key event) []
    end in
  match dict_get userJourneys (user_key event) with
  | Some steps =>
      dict_set userJourneys (user_key event) (steps ++ [step_of event])%list
  | None => userJourneys
  end.

(** Lines 460-465. *)
Definition journeys_of (data : list Object) : list Journey :=
  map (fun e => {| userId := fst e;
                   journey := snd e;
                   totalSteps := List.length (snd e);
                   uniquePages := set_size (set_of (map step_path (snd e))) |})
      (entries (fold_left add_step data [])).

Section Fetchers.
Context {S H : Type} (remote : Remote S).

(** *** [fetchSessionAnalytics] *)

Definition sessionAnalytics_query : Query :=
  select [Col "is_active"; Col "created_at"; Col "updated_at";
          Embed "users" ["first_name"; "last_name"; "email"; "user_type"]]
    (from "user_sessions").

Definition fetchSessionAnalytics : M S H SessionAnalytics :=
  logged "Error fetching session analytics:"
    (r <- await_rows remote sessionAnalytics_query ;;
     match r with
     | Failure e => handleSupabaseError e "fetch session analytics"
     | Success data => ret (sessionAnalytics_of (or_empty data))
     end).

(** *** [fetchUserJourneys] *)

Definition journeys_query (user : option string) : Query :=
  let query := order "created_at" true
                 (not_is_null "page_path"
                    (select [Col "user_id"; Col "page_path";
                             Col "event_action"; Col "created_at"]
                       (from "user_analytics_events"))) in
  if given user then eq "user_id" (text user) query else query.

Definition fetchUserJourneys (user : option string) : M S H (list Journey) :=
  logged "Error fetching user journeys:"
    (r <- await_rows remote (journeys_query user) ;;
     match r with
     | Failure e => handleSupabaseError e "fetch user journeys"
     | Success data => ret (journeys_of (or_empty data))
     end).

(** *** [checkDatabaseHealth]

    [now] is the instant of [new Date()].  Two things are the
    environment's: whether the error object of a response is an [Error]
    (it depends on the release of the client library), and the message the
    engine gives its own exceptions. *)

Definition health_query : Query :=
  limit 1 (select [Col "count"] (from "users")).

Definition checkDatabaseHealth (error_is_Error : bool) (engine_message : string)
  (now : Z) : M S H Health :=
  try_catch
    (r <- await_rows remote health_query ;;
     match r with
     | Failure e => throw (ThrownPostgrest e)
     | Success _ =>
         ret {| health_status := "healthy";
                health_timestamp := Num now;
                health_message := "Database connection successful" |}
     end)
    (fun err =>
       console_error "Database health check failed:" ;;
       ret {| health_status := "unhealthy";
              health_timestamp := Num now;
              health_message :=
                "Database connection failed: "
                ++ match err with
                   | ThrownError msg => msg
                   | ThrownPostgrest e =>
                       if error_is_Error then message e else "Unknown error"
                   | TypeError | RangeError => engine_message
                   end |}).

End Fetchers.

End DataFetchersRest.


(* ================================================================== *)
(** * The [useUserData] hook, the remaining methods                    *)
(* ================================================================== *)

(** [fetchUsersWithFilters] (its search is an [.or(...)] of pattern
    matches) and [fetchUsersPaginated] (it reads the [count] of the
    response) use parts of the client library that the model of the remote
    does not have; they are left out. *)
Module UseUserDataRest.
Import Js Supabase Effects UseUserData.
Local Open Scope fetch_scope.

Record Statistics : Type := {
  totalUsers : nat;
  activeUsers : nat;
  standardUsers : nat;
  premiumUsers : nat;
  subscribedUsers : nat;
  unsubscribedUsers : nat;
  newUsersThisMonth : nat;
  subscriptionRate : option string;
  activeUserRate : option string
}.

(** [new Date(a) >= new Date(b)], for the instant [b]. *)
Definition date_ge (a : Value) (b : Z) : bool :=
  match date_time a with
  | Some x => (b <=? x)%Z
  | None => false
  end.

(** [fetchUserStatistics], lines 330-353; [monthStart] is local midnight
    on the first day of the current month. *)
Definition statistics_of (monthStart : Z) (users allActiveSessions : list Object)
  : Statistics :=
  let uniqueActiveUsers :=
    set_size (set_of (map (fun s => get s "user_id") allActiveSessions)) in
  let subscribed :=
    List.length (filter (fun u => truthy (get u "has_active_subscription")) users) in
  {| totalUsers := List.length users;
     activeUsers := uniqueActiveUsers;
     standardUsers :=
       List.length (filter (fun u => same_value_zero (get u "user_type") (Str "standard"))
                      users);
     premiumUsers :=
       List.length (filter (fun u => same_value_zero (get u "user_type") (Str "premium"))
                      users);
     subscribedUsers := subscribed;
     unsubscribedUsers :=
       List.length (filter (fun u => negb (truthy (get u "has_active_subscription")))
                      users);
     newUsersThisMonth :=
       List.length (filter (fun u => date_ge (get u "created_at") monthStart) users);
     subscriptionRate :=
       if (0 <? List.length users)%nat
       then DataFetchersRest.percentage subscribed (List.length users)
       else Some "0";
     activeUserRate :=
       if (0 <? List.length users)%nat
       then DataFetchersRest.percentage uniqueActiveUsers (List.length users)
       else Some "0" |}.

Section Hook.
Context {S : Type} (remote : Remote S).

(** The loop
    [[
      while (hasMore) {
        const { data, error } = await <request at offset>;
        if (error) { console.error(label, error); throw error; }
        if (data && data.length > 0) { all.push(...data); offset += data.length; }
        hasMore = data?.length === fetchSize;
      }
    ]]
    which [fetchUsersByDateRange] and [fetchUserStatistics] (twice) spell
    out with their own request and label; [fuel] bounds the iterations. *)
Fixpoint paging_loop (request : Z -> Query) (label : string)
  (fuel : nat) (all : list Object) (offset : Z) : M S State (list Object) :=
  match fuel with
  | O => unfinished
  | Datatypes.S fuel' =>
      r <- await_rows remote (request offset) ;;
      match r with
      | Failure e =>
          console_error label ;;
          throw (ThrownPostgrest e)
      | Success data =>
          let all' :=
            if has_rows data
            then (all ++ match data with Some l => l | None => [] end)%list
            else all in
          let offset' :=
            if has_rows data
            then (offset + Z.of_nat (List.length
                     (match data with Some l => l | None => [] end)))%Z
            else offset in
          if full_page data
          then paging_loop request label fuel' all' offset'
          else ret all'
      end
  end.

(** *** [fetchUserById] *)

Definition userById_query (userId : string) : Query :=
  eq "id" (Str userId)
    (select [AllCols; EmbedAll "user_sessions";
             Embed "user_analytics_events"
               ["id"; "event_type"; "event_category"; "event_action";
                "event_path"; "created_at"]]
       (from "users")).

Definition fetchUserById (userId : string) : M S State (option Object) :=
  setLoading true ;;
  setError None ;;
  try_finally
    (try_catch
       (r <- await_single remote (userById_query userId) ;;
        match r with
        | Failure e =>
            console_error "Error fetching user by ID:" ;;
            throw (ThrownPostgrest e)
        | Success data => ret data
        end)
       (fun err =>
          console_error ("Failed to fetch user with ID: " ++ userId) ;;
          setError (Some ("Failed to fetch user with ID: " ++ userId)) ;;
          ret None))
    (setLoading false).

(** *** [findUserByEmail]

    [toLowerCase] is [String.prototype.toLowerCase]. *)

Context (toLowerCase : string -> string).

Definition userByEmail_query (email : string) : Query :=
  eq "email" (Str (toLowerCase email))
    (select [AllCols; EmbedAll "user_sessions"] (from "users")).

Definition findUserByEmail (email : string) : M S State (option Object) :=
  setLoading true ;;
  setError None ;;
  try_finally
    (try_catch
       (r <- await_single remote (userByEmail_query email) ;;
        match r with
        | Failure e =>
            if code e =? "PGRST116"
            then ret None
            else (console_error "Error finding user by email:" ;;
                  throw (ThrownPostgrest e))
        | Success data => ret data
        end)
       (fun err =>
          console_error ("Failed to find user with email: " ++ email) ;;
          setError (Some ("Failed to find user with email: " ++ email)) ;;
          ret None))
    (setLoading false).

(** *** [fetchUsersByDateRange]

    The builder [query] is made once and reused by every iteration:
    [.order] adds the same ordering again, [.range] overwrites the offset
    and the limit, so each iteration sends the request below. *)

Definition dateRange_query (startDate endDate : Value) : Query :=
  lte "created_at" endDate
    (gte "created_at" startDate
       (select [AllCols; EmbedAll "user_sessions"] (from "users"))).

Definition dateRange_page (startDate endDate : Value) (offset : Z) : Query :=
  range offset (offset + fetchSize - 1)
    (order "created_at" false (dateRange_query startDate endDate)).

Definition dateRange_message (startDate endDate : Value) : string :=
  "Failed to fetch users between " ++ to_string startDate
  ++ " and " ++ to_string endDate.

Definition fetchUsersByDateRange (startDate endDate : Value) (fuel : nat)
  : M S State (list Object) :=
  setLoading true ;;
  setError None ;;
  try_finally
    (try_catch
       (allUsersInRange <-
          paging_loop (dateRange_page startDate endDate)
            "Error fetching users by date range:" fuel [] 0%Z ;;
        setUsers allUsersInRange ;;
        ret allUsersInRange)
       (fun err =>
          console_error (dateRange_message startDate endDate) ;;
          setError (Some (dateRange_message startDate endDate)) ;;
          ret []))
    (setLoading false).

(** *** [fetchUserStatistics] *)

Definition statistics_users_page (offset : Z) : Query :=
  range offset (offset + fetchSize - 1)
    (select [Col "user_type"; Col "has_active_subscription"; Col "created_at"]
       (from "users")).

Definition statistics_sessions_page (offset : Z) : Query :=
  range offset (offset + fetchSize - 1)
    (eq "is_active" (Bool true)
       (select [Col "user_id"] (from "user_sessions"))).

(** [None] is the [null] of the [catch]. *)
Definition fetchUserStatistics (monthStart : Z) (fuel : nat)
  : M S State (option Statistics) :=
  setLoading true ;;
  setError None ;;
  try_finally
    (try_catch
       (allUsersData <-
          paging_loop statistics_users_page "Error fetching user statistics:"
            fuel [] 0%Z ;;
        allActiveSessions <-
          paging_loop statistics_sessions_page "Error fetching active sessions:"
            fuel [] 0%Z ;;
        ret (Some (statistics_of monthStart allUsersData allActiveSessions)))
       (fun err =>
          console_error "Failed to fetch user statistics" ;;
          setError (Some "Failed to fetch user statistics") ;;
          ret None))
    (setLoading false).

(** *** [clearError], [clearUsers] *)

Definition clearError : M S State unit := setError None.
Definition clearUsers : M S State unit := setUsers [].

End Hook.

End UseUserDataRest.


(* ================================================================== *)
(** * [src/hooks/useAnalytics.ts], the overview and the drawer         *)
(* ================================================================== *)

(** [fetchAllData] and [refetch] start the five fetchers at once
    ([Promise.all]); their interleaving is outside this sequential model
    and they are left out. *)
Module UseAnalyticsRest.
Import Js Supabase Effects DataFetchers UseAnalytics.
Local Open Scope fetch_scope.

Record Breakdown : Type := {
  active : nat;
  inactive : nat
}.

Record UserTypes : Type := {
  standard : nat;
  premium : nat
}.

Record AnalyticsOverview : Type := {
  totalUsers : nat;
  activeUsers : nat;
  subscriptionBreakdown : Breakdown;
  userTypeBreakdown : UserTypes
}.

(** The slots of the hook, with the [overview] slot that [UseAnalytics.State]
    leaves out. *)
Record Hook : Type := {
  slots : State;
  overview : option AnalyticsOverview
}.

(** [fetchOverview], lines 79-90. *)
Definition overview_of (usersData activeUsersData : list Object) : AnalyticsOverview :=
  {| totalUsers := List.length usersData;
     activeUsers :=
       set_size (set_of (map (fun session => get session "user_id") activeUsersData));
     subscriptionBreakdown :=
       {| active := List.length
            (filter (fun user => truthy (get user "has_active_subscription")) usersData);
          inactive := List.length
            (filter (fun user => negb (truthy (get user "has_active_subscription")))
               usersData) |};
     userTypeBreakdown :=
       {| standard := List.length
            (filter (fun user => same_value_zero (get user "user_type") (Str "standard"))
               usersData);
          premium := List.length
            (filter (fun user => same_value_zero (get user "user_type") (Str "premium"))
               usersData) |} |}.

Section Hook.
Context {S : Type} (remote : Remote S).

(** A computation on the slots of [State], run inside the whole hook. *)
Definition on_slots {A} (m : M S State A) : M S Hook A :=
  fun w =>
    let (r, w') := m {| store := store w; hook := slots (hook w);
                        console := console w; requests := requests w |} in
    (r, {| store := store w';
           hook := {| slots := hook w'; overview := overview (hook w) |};
           console := console w'; requests := requests w' |}).

Definition setOverview (v : AnalyticsOverview) : M S Hook unit :=
  modify_hook (fun h => {| slots := slots h; overview := Some v |}).

Definition overview_users_query : Query :=
  select [Col "user_type"; Col "has_active_subscription"] (from "users").

Definition overview_sessions_query : Query :=
  eq "is_active" (Bool true) (select [Col "user_id"] (from "user_sessions")).

(** [data.length], [data.map(...)]: a [TypeError] on [null]. *)
Definition array {H} (data : option (list Object)) : M S H (list Object) :=
  match data with
  | Some l => ret l
  | None => throw TypeError
  end.

Definition fetchOverview : M S Hook unit :=
  try_catch
    (users <- await_rows remote overview_users_query ;;
     usersData <- match users with
                  | Failure e => throw (ThrownPostgrest e)
                  | Success d => ret d
                  end ;;
     active <- await_rows remote overview_sessions_query ;;
     activeUsersData <- match active with
                        | Failure e => throw (ThrownPostgrest e)
                        | Success d => ret d
                        end ;;
     usersData <- array usersData ;;
     activeUsersData <- array activeUsersData ;;
     setOverview (overview_of usersData activeUsersData))
    (fun err =>
       console_error "Error fetching overview:" ;;
       on_slots (setError (Some "Failed to fetch overview data"))).


End Hook.

End UseAnalyticsRest.

(* ================================================================== *)
(** * The components that lay out what the hooks return                *)
(* ================================================================== *)

Module Components.
Import Js Supabase Effects DataFetchers.

(** [Array.prototype.slice(start, end)]: a negative index counts from the
    end of the array. *)
Definition slice {A : Type} (l : list A) (start finish : Z) : list A :=
  let len := Z.of_nat (List.length l) in
  let k := if (start <? 0)%Z then Z.max (len + start) 0 else Z.min start len in
  let final := if (finish <? 0)%Z then Z.max (len + finish) 0 else Z.min finish len in
  firstn (Z.to_nat (final - k)) (skipn (Z.to_nat k) l).

(** ** [UserAndSessionTable] *)
Module UserAndSessionTable.

Definition dataLimit : Z := 10.

(** [Math.ceil(users.length / dataLimit)]: the quotient of two counts is
    exact or at least a tenth away from an integer, so rounding it to a
    number does not change its ceiling. *)
Definition totalPages {A : Type} (users : list A) : Z :=
  ((Z.of_nat (List.length users) + dataLimit - 1) / dataLimit)%Z.

Definition getPaginatedData {A : Type} (users : list A) (currentPage : Z) : list A :=
  let startIndex := ((currentPage - 1) * dataLimit)%Z in
  let endIndex := (startIndex + dataLimit)%Z in
  slice users startIndex endIndex.

Definition goToNextPage (page : Z) : Z := (page + 1)%Z.
Definition goToPreviousPage (page : Z) : Z := (page - 1)%Z.

(** What a click can do: the pager is rendered when [totalPages > 1];
    Previous is disabled on page 1 and Next on the last page.  Nothing
    calls [changePage]. *)
Inductive click {A : Type} (users : list A) : Z -> Z -> Prop :=
| click_next (page : Z) :
    (1 < totalPages users)%Z -> page <> totalPages users ->
    click users page (goToNextPage page)
| click_previous (page : Z) :
    (1 < totalPages users)%Z -> page <> 1%Z ->
    click users page (goToPreviousPage page).

(** The pages reachable from the first one, [useState(1)]. *)
Inductive reachable {A : Type} (users : list A) : Z -> Prop :=
| reachable_first : reachable users 1%Z
| reachable_click (page page' : Z) :
    reachable users page -> click users page page' -> reachable users page'.

End UserAndSessionTable.

(** ** [PageAnalyticsTable] *)
Module PageAnalyticsTable.

Record Row : Type := {
  cell_path : string;
  cell_visits : nat;
  cell_users : nat;
  cell_average : option string
}.

Definition rows (data : list UseAnalytics.PageAnalytics) : list Row :=
  map (fun page =>
         {| cell_path := UseAnalytics.analytics_page_path page;
            cell_visits := UseAnalytics.analytics_visits page;
            cell_users := UseAnalytics.unique_users page;
            cell_average :=
              ratio (Number.of_nat (UseAnalytics.analytics_visits page))
                    (Number.of_nat (UseAnalytics.unique_users page)) |})
      (slice data 0 10).

End PageAnalyticsTable.

(** ** [TrafficSourcesChart] *)
Module TrafficSourcesChart.

Record Point : Type := {
  name : Value;
  point_medium : Value;
  point_campaign : Value;
  point_count : nat;
  label : string
}.

Definition chartData (data : list UseAnalytics.TrafficSource) : list Point :=
  map (fun source =>
         {| name := UseAnalytics.utm_source source;
            point_medium := if truthy (UseAnalytics.utm_medium source)
                            then UseAnalytics.utm_medium source else Str "N/A";
            point_campaign := if truthy (UseAnalytics.utm_campaign source)
                              then UseAnalytics.utm_campaign source else Str "N/A";
            point_count := UseAnalytics.traffic_count source;
            label := to_string (UseAnalytics.utm_source source)
                     ++ (if truthy (UseAnalytics.utm_medium source)
                         then " (" ++ to_string (UseAnalytics.utm_medium source) ++ ")"
                         else "") |})
      (slice data 0 10).

End TrafficSourcesChart.

End Components.


(* ================================================================== *)
(** * Observations used to state the further properties               *)
(* ================================================================== *)

Module Observations.
Import Js Supabase Effects DataFetchers.

(** The sum of a measure over the values of a dictionary. *)
Definition dict_sum {T : Type} (f : T -> nat) (d : Dict T) : nat :=
  list_sum (map (fun x => f (snd x)) d).

(** A remote that answers every request with the error [e]. *)
Definition failing (e : PostgrestError) : Remote unit :=
  {| rows := fun s _ => (Failure e, s);
     single := fun s _ => (Failure e, s) |}.

(** The steps of the rows of one user, in the order of the rows. *)
Definition steps_for (user : string) (data : list Object) : list DataFetchersRest.Step :=
  map DataFetchersRest.step_of
      (filter (fun e => DataFetchersRest.user_key e =? user) data).

(** The key under which [fetchCampaignAnalytics] files a row. *)
Definition campaign_key (event : Object) : string :=
  to_string (get event "utm_campaign") ++ "-"
  ++ to_string (get event "utm_source") ++ "-"
  ++ to_string (get event "utm_medium").

(** The distinct days of a campaign are at least one and at most its
    events. *)
Definition days_within_events (c : CampaignAcc) : Prop :=
  (1 <= set_size (acc_uniqueDays c) <= acc_events c)%nat.

(** Rows of a campaign answer: two events of one campaign on two days,
    one event of another. *)
Definition campaign_rows : list Object :=
  [ [("utm_campaign", Str "summer_sale"); ("utm_source", Str "google");
     ("utm_medium", Str "organic"); ("event_type", Str "page_view");
     ("created_at", Num 1000)];
    [("utm_campaign", Str "spring_promo"); ("utm_source", Str "google");
     ("utm_medium", Null); ("event_type", Str "add_to_cart");
     ("created_at", Num 2000)];
    [("utm_campaign", Str "summer_sale"); ("utm_source", Str "google");
     ("utm_medium", Str "organic"); ("event_type", Str "button_click");
     ("created_at", Num 86401000)] ].

(** The filter descriptor [{}]. *)
Definition no_filters : EventFilters :=
  {| userId := None; filter_eventType := None; eventCategory := None;
     eventAction := None; startDate := Undefined; endDate := Undefined;
     filter_limit := None; filter_offset := None |}.

(** The property names every object inherits from [Object.prototype]:
    a lookup in an object used as a dictionary finds them though no row
    created them.  The dictionaries above hold own properties only, so
    the properties of a grouping by a free text (a page path, a user id)
    are stated for keys other than these. *)
Definition inherited : list string :=
  ["constructor"; "__proto__"; "hasOwnProperty"; "isPrototypeOf";
   "propertyIsEnumerable"; "toLocaleString"; "toString"; "valueOf";
   "__defineGetter__"; "__defineSetter__"; "__lookupGetter__";
   "__lookupSetter__"].

Definition own_key (k : string) : bool :=
  negb (existsb (String.eqb k) inherited).

(** Every row is filed under a key of its own. *)
Definition own_keys (key : Object -> string) (data : list Object) : Prop :=
  Forall (fun e => own_key (key e) = true) data.

(** The key under which the page groupings file a row. *)
Definition page_key (event : Object) : string :=
  to_string (get event "page_path").

(** The key under which [fetchTrafficSources] files a row, and the entry
    the row leaves under it. *)
Definition source_key (event : Object) : string :=
  to_string (get event "utm_source") ++ "-"
  ++ UseAnalytics.or_blank (get event "utm_medium") ++ "-"
  ++ UseAnalytics.or_blank (get event "utm_campaign").

Definition count_source (old : option UseAnalytics.TrafficSource) (event : Object)
  : UseAnalytics.TrafficSource :=
  match old with
  | Some s =>
      {| UseAnalytics.utm_source := UseAnalytics.utm_source s;
         UseAnalytics.utm_medium := UseAnalytics.utm_medium s;
         UseAnalytics.utm_campaign := UseAnalytics.utm_campaign s;
         UseAnalytics.traffic_count := UseAnalytics.traffic_count s + 1 |}
  | None =>
      {| UseAnalytics.utm_source := get event "utm_source";
         UseAnalytics.utm_medium := get event "utm_medium";
         UseAnalytics.utm_campaign := get event "utm_campaign";
         UseAnalytics.traffic_count := 1 |}
  end.

(** The key of the rows an entry of the traffic sources stands for. *)
Definition entry_key (s : UseAnalytics.TrafficSource) : string :=
  to_string (UseAnalytics.utm_source s) ++ "-"
  ++ UseAnalytics.or_blank (UseAnalytics.utm_medium s) ++ "-"
  ++ UseAnalytics.or_blank (UseAnalytics.utm_campaign s).

(** The rows filed under the key [k]. *)
Definition rows_of (key : Object -> string) (k : string) (data : list Object)
  : list Object :=
  filter (fun e => key e =? k) data.

(** The entry a row leaves under its page in [fetchPageAnalytics]. *)
Definition count_page (old : option UseAnalytics.PageUsers) (event : Object)
  : UseAnalytics.PageUsers :=
  match old with
  | Some p =>
      {| UseAnalytics.page_visits := UseAnalytics.page_visits p + 1;
         UseAnalytics.page_users :=
           set_add (UseAnalytics.page_users p) (get event "user_id") |}
  | None =>
      {| UseAnalytics.page_visits := 1;
         UseAnalytics.page_users := set_add [] (get event "user_id") |}
  end.

(** The distinct users of a page are at least one and at most its
    visits. *)
Definition users_within_visits (p : UseAnalytics.PageUsers) : Prop :=
  (1 <= set_size (UseAnalytics.page_users p) <= UseAnalytics.page_visits p)%nat.

(** The data slots of [useAnalytics] hold in [h'] what they held in [h]. *)
Definition data_kept (h h' : UseAnalytics.State) : Prop :=
  UseAnalytics.users h' = UseAnalytics.users h
  /\ UseAnalytics.eventAnalytics h' = UseAnalytics.eventAnalytics h
  /\ UseAnalytics.trafficSources h' = UseAnalytics.trafficSources h
  /\ UseAnalytics.pageAnalytics h' = UseAnalytics.pageAnalytics h.

(** A stored user created between the instants [a] and [b]. *)
Definition joined_between (a b : Z) (r : Database.Row) : bool :=
  match Database.column (Database.fields r) "created_at" with
  | Num x => (a <=? x)%Z && (x <=? b)%Z
  | _ => false
  end.

(** The only row of an answer, if it has exactly one. *)
Definition only {A : Type} (l : list A) : option A :=
  match l with
  | [x] => Some x
  | _ => None
  end.

(** The pages [1 .. n]. *)
Definition pages (n : nat) : list Z := map (fun i => Z.of_nat (Datatypes.S i)) (seq 0 n).

End Observations.


(* ================================================================== *)
(** * Properties                                                       *)
(* ================================================================== *)

(** ** Sorting *)

Section SortFacts.
Context {A : Type} (before : A -> A -> bool).

Lemma insert_sorted_perm (x : A) (l : list A) :
  Permutation (Js.insert_sorted before x l) (x :: l).
Proof.
  induction l as [|y l IH]; simpl.
  - apply Permutation_refl.
  - destruct (before x y).
    + apply Permutation_refl.
    + eapply perm_trans; [apply perm_skip, IH | apply perm_swap].
Qed.

Lemma sort_perm (l : list A) : Permutation (Js.sort before l) l.
Proof.
  induction l as [|x l IH]; simpl.
  - constructor.
  - eapply perm_trans; [apply insert_sorted_perm | apply perm_skip, IH].
Qed.

Lemma sort_length (l : list A) : List.length (Js.sort before l) = List.length l.
Proof. apply Permutation_length, sort_perm. Qed.

Hypothesis before_total : forall x y, before x y = false -> before y x = true.

Lemma insert_sorted_hd (x : A) (l : list A) (a : A) :
  before a x = true ->
  HdRel (fun u v => before u v = true) a l ->
  HdRel (fun u v => before u v = true) a (Js.insert_sorted before x l).
Proof.
  intros Hax Hl. destruct l as [|y l]; simpl.
  - constructor. exact Hax.
  - destruct (before x y); constructor.
    + exact Hax.
    + inversion Hl; assumption.
Qed.

Lemma insert_sorted_sorted (x : A) (l : list A) :
  Sorted (fun u v => before u v = true) l ->
  Sorted (fun u v => before u v = true) (Js.insert_sorted before x l).
Proof.
  induction 1 as [|y l Hs IH Hhd]; simpl.
  - repeat constructor.
  - destruct (before x y) eqn:E.
    + constructor; [constructor; assumption | constructor; exact E].
    + constructor; [exact IH |].
      apply insert_sorted_hd; [apply before_total, E | exact Hhd].
Qed.

Lemma sort_sorted (l : list A) :
  Sorted (fun u v => before u v = true) (Js.sort before l).
Proof.
  induction l as [|x l IH]; simpl.
  - constructor.
  - apply insert_sorted_sorted, IH.
Qed.
End SortFacts.

(** ** The paginated fetch of [useUserData] *)

Section Pagination.
Import Js Supabase Effects UseUserData.

Lemma fetchSize_pos : (0 < Z.to_nat fetchSize)%nat.
Proof. unfold fetchSize. lia. Qed.

Lemma page_answer (db : Database.t) (o : nat) :
  rows Database.remote db (page_query (Z.of_nat o))
  = (Success (Some (firstn (Z.to_nat fetchSize)
                      (skipn o (Database.view db users_query)))), db).
Proof.
  unfold Database.remote, rows, Database.answer.
  change (filters (page_query (Z.of_nat o))) with (@nil Filter).
  change (offset (page_query (Z.of_nat o))) with (Some (Z.of_nat o)).
  change (row_limit (page_query (Z.of_nat o)))
    with (Some (Z.of_nat o + fetchSize - 1 - Z.of_nat o + 1)%Z).
  change (existsb Database.malformed []) with false.
  cbv beta iota.
  unfold Database.negative.
  replace (Z.of_nat o <? 0)%Z with false by (symmetry; apply Z.ltb_ge; lia).
  replace (Z.of_nat o + fetchSize - 1 - Z.of_nat o + 1)%Z with fetchSize by lia.
  change (fetchSize <? 0)%Z with false.
  cbv beta iota. unfold orb.
  unfold Database.window.
  change (offset (page_query (Z.of_nat o))) with (Some (Z.of_nat o)).
  change (row_limit (page_query (Z.of_nat o)))
    with (Some (Z.of_nat o + fetchSize - 1 - Z.of_nat o + 1)%Z).
  replace (Z.of_nat o + fetchSize - 1 - Z.of_nat o + 1)%Z with fetchSize by lia.
  rewrite Nat2Z.id.
  reflexivity.
Qed.

Lemma fetchSize_nat : Z.of_nat (Z.to_nat fetchSize) = fetchSize.
Proof. unfold fetchSize. lia. Qed.

Section Paging.
Variable db : Database.t.
Let V := Database.view db users_query.
Let P := Z.to_nat fetchSize.

Lemma loop_complete :
  forall fuel o acc (w : World Database.t State),
    store w = db ->
    (List.length (skipn o V) / P < fuel)%nat ->
    exists tr,
      fetchAllUsers_loop Database.remote fuel acc (Z.of_nat o) w
      = (Returned (acc ++ skipn o V)%list,
         {| store := db; hook := hook w; console := console w;
            requests := (requests w ++ tr)%list |})
      /\ List.length tr = (List.length (skipn o V) / P + 1)%nat
      /\ exists full last n,
           tr = (full ++ [last])%list
           /\ Forall (fun x => page_rows x = Some P) full
           /\ page_rows last = Some n /\ (n < P)%nat.
Proof.
  assert (HP : (0 < P)%nat) by apply fetchSize_pos.
  assert (HPZ : Z.of_nat P = fetchSize) by apply fetchSize_nat.
  induction fuel as [|fuel IH]; intros o acc w Hw Hfuel; [lia|].
  cbn [fetchAllUsers_loop]. unfold bind at 1. unfold await_rows.
  rewrite Hw, page_answer. fold V. fold P.
  set (rest := skipn o V) in *.
  set (page := firstn P rest).
  cbv beta iota.
  destruct (Nat.le_gt_cases P (List.length rest)) as [Hfull | Hshort].
  - (* a full page: the loop goes on *)
    assert (Hlen : List.length page = P).
    { unfold page. rewrite length_firstn. lia. }
    assert (Hrows : has_rows (Some page) = true).
    { unfold has_rows. rewrite Hlen. apply Nat.ltb_lt, HP. }
    assert (Hpage : full_page (Some page) = true).
    { unfold full_page. rewrite Hlen, HPZ. apply Z.eqb_refl. }
    rewrite Hrows, Hpage, Hlen.
    replace (Z.of_nat o + Z.of_nat P)%Z with (Z.of_nat (P + o)) by lia.
    assert (Hrest : skipn (P + o) V = skipn P rest).
    { unfold rest. symmetry. apply skipn_skipn. }
    assert (Hdiv : (List.length rest / P
                    = List.length (skipn P rest) / P + 1)%nat).
    { rewrite length_skipn.
      replace (List.length rest) with ((List.length rest - P) + 1 * P)%nat at 1 by lia.
      apply Nat.div_add. lia. }
    edestruct (IH (P + o)%nat (acc ++ page)%list
                 {| store := db; hook := hook w; console := console w;
                    requests := (requests w
                                 ++ [(page_query (Z.of_nat o),
                                      Rows (Success (Some page)))])%list |})
      as (tr & Hrun & Htr & full & last & n & Hsplit & Hall & Hlast & Hn).
    { reflexivity. }
    { rewrite Hrest. lia. }
    exists ((page_query (Z.of_nat o), Rows (Success (Some page))) :: tr).
    split; [|split].
    + rewrite Hrun. cbn [hook console requests].
      rewrite Hrest, <- !app_assoc.
      unfold page. rewrite firstn_skipn. reflexivity.
    + cbn [List.length]. rewrite Htr, Hrest. lia.
    + exists ((page_query (Z.of_nat o), Rows (Success (Some page))) :: full), last, n.
      repeat split; try assumption.
      * rewrite Hsplit. reflexivity.
      * constructor; [|exact Hall]. unfold page_rows. cbn [snd]. now rewrite Hlen.
  - (* a short page: the loop ends *)
    assert (Hpage_eq : page = rest).
    { unfold page. apply firstn_all2. lia. }
    assert (Hpage : full_page (Some page) = false).
    { unfold full_page. rewrite Hpage_eq. apply Z.eqb_neq. lia. }
    rewrite Hpage.
    exists [(page_query (Z.of_nat o), Rows (Success (Some page)))].
    split; [|split].
    + unfold ret. f_equal. f_equal.
      unfold has_rows. rewrite Hpage_eq.
      destruct rest as [|r rest']; [now rewrite app_nil_r | reflexivity].
    + cbn [List.length]. rewrite Nat.div_small by lia. reflexivity.
    + exists [], (page_query (Z.of_nat o), Rows (Success (Some page))), (List.length rest).
      repeat split.
      * constructor.
      * unfold page_rows. cbn [snd]. now rewrite Hpage_eq.
      * exact Hshort.
Qed.
End Paging.

Lemma key_le_total (a b : option Z) :
  Database.key_le a b = false -> Database.key_le b a = true.
Proof.
  destruct a as [x|], b as [y|]; simpl; try congruence.
  intros H. apply Z.leb_gt in H. apply Z.leb_le. lia.
Qed.

Lemma filter_all {A} (f : A -> bool) (l : list A) :
  (forall x, f x = true) -> filter f l = l.
Proof.
  intros Hf. induction l as [|x l IH]; simpl; [reflexivity|].
  now rewrite Hf, IH.
Qed.

(** C1.  Against a table of [N] users, and with room for [N / 1000 + 1]
    iterations or more, [fetchAllUsers] returns: its result is the [N] rows
    of the table in the requested order (newest first), which it also
    stores in [users]; it issues exactly [N / 1000 + 1] page requests, at
    most [ceil(N / 1000) + 1]; every page but the last one held 1000 rows
    and the last one fewer, the short page being what ends the loop.  This
    covers [N = 0], [N = 1000] and [N = 1001]. *)
Theorem fetchAllUsers_returns_all_rows (db : Database.t) (h : State) (extra : nat) :
  let N := List.length (db "users") in
  let view := Database.view db users_query in
  exists w,
    fetchAllUsers Database.remote (Datatypes.S (N / pageSize) + extra) (start db h)
    = (Returned view, w)
    /\ pageSize = 1000%nat
    /\ (exists sorted,
          view = map (Database.project (columns users_query)) sorted
          /\ Permutation sorted (db "users")
          /\ Sorted (fun x y =>
                       Database.key_le (Database.sort_key "created_at" y)
                                       (Database.sort_key "created_at" x) = true)
                    sorted)
    /\ List.length view = N
    /\ users (hook w) = view /\ loading (hook w) = false /\ error (hook w) = None
    /\ store w = db
    /\ List.length (requests w) = (N / pageSize + 1)%nat
    /\ (List.length (requests w) <= (N + pageSize - 1) / pageSize + 1)%nat
    /\ exists full last n,
         requests w = (full ++ [last])%list
         /\ Forall (fun x => page_rows x = Some pageSize) full
         /\ page_rows last = Some n /\ (n < pageSize)%nat.
Proof.
  intros N view.
  assert (Hsorted :
            view = map (Database.project (columns users_query))
                       (Database.ordered (Some ("created_at", false)) (db "users"))).
  { unfold view, Database.view. f_equal.
    change (ordering users_query) with (Some ("created_at", false)).
    f_equal. apply filter_all. reflexivity. }
  assert (Hlen : List.length view = N).
  { rewrite Hsorted, length_map. unfold Database.ordered. apply sort_length. }
  destruct (loop_complete db (Datatypes.S (N / pageSize) + extra) 0 []
              {| store := db;
                 hook := {| users := users h; loading := true; error := None |};
                 console := []; requests := [] |})
    as (tr & Hrun & Htr & Hshape).
  { reflexivity. }
  { cbn [skipn]. fold view. rewrite Hlen. unfold pageSize. lia. }
  cbn [skipn app hook console requests] in Hrun, Htr. fold view in Hrun, Htr.
  rewrite Hlen in Htr.
  eexists. split.
  { unfold fetchAllUsers, bind, setLoading, setError, setUsers, modify_hook,
      try_finally, try_catch, start, ret.
    cbn [hook store console requests users loading error].
    change (Z.of_nat 0) with 0%Z in Hrun. rewrite Hrun. reflexivity. }
  cbn [hook store requests users loading error].
  split; [reflexivity|].
  split.
  { eexists. split; [exact Hsorted|]. split.
    - apply sort_perm.
    - apply (sort_sorted (fun x y =>
               Database.key_le (Database.sort_key "created_at" y)
                               (Database.sort_key "created_at" x))).
      intros x y. apply key_le_total. }
  repeat (split; [first [exact Hlen | reflexivity | exact Htr]|]).
  split.
  { rewrite Htr. apply Nat.add_le_mono_r, Nat.Div0.div_le_mono.
    pose proof fetchSize_pos. unfold pageSize. lia. }
  exact Hshape.
Qed.

(** The three sizes the loop is most sensitive to. *)
Example fetchAllUsers_empty_table :
  let run := fetchAllUsers Database.remote 1 (start (Scenarios.users_db 0) initial) in
  fst run = Returned [] /\ map page_rows (requests (snd run)) = [Some 0%nat].
Proof. split; vm_compute; reflexivity. Qed.

Example fetchAllUsers_exactly_one_page :
  let run := fetchAllUsers Database.remote 2 (start (Scenarios.users_db 1000) initial) in
  List.length (users (hook (snd run))) = 1000%nat
  /\ map page_rows (requests (snd run)) = [Some 1000%nat; Some 0%nat].
Proof. split; vm_compute; reflexivity. Qed.

Example fetchAllUsers_one_page_and_one_row :
  let run := fetchAllUsers Database.remote 2 (start (Scenarios.users_db 1001) initial) in
  List.length (users (hook (snd run))) = 1001%nat
  /\ map page_rows (requests (snd run)) = [Some 1000%nat; Some 1%nat].
Proof. split; vm_compute; reflexivity. Qed.

Lemma existsb_failed_last (tr : list (Query * Reply)) (x : Query * Reply) :
  existsb failed (tr ++ [x]) = existsb failed tr || failed x.
Proof. rewrite existsb_app. simpl. now rewrite orb_false_r. Qed.

Section AnyRemote.
Context {S : Type} (remote : Remote S).

(** A run of the loop leaves the hook state alone, only adds to the log of
    requests, and a failed page request ends it with an exception. *)
Lemma loop_failure :
  forall fuel acc offset (w : World S State) out w',
    fetchAllUsers_loop remote fuel acc offset w = (out, w') ->
    hook w' = hook w
    /\ exists tr,
         requests w' = (requests w ++ tr)%list
         /\ (existsb failed tr = true -> exists e, out = Threw e).
Proof.
  induction fuel as [|fuel IH]; intros acc offset w out w' Hrun.
  - inversion Hrun; subst. split; [reflexivity|].
    exists []. rewrite app_nil_r. split; [reflexivity | discriminate].
  - cbn [fetchAllUsers_loop] in Hrun. unfold bind at 1, await_rows in Hrun.
    destruct (rows remote (store w) (page_query offset)) as [r s] eqn:Hreq.
    destruct r as [data | e].
    + destruct (full_page data).
      * apply IH in Hrun. cbn [hook requests] in Hrun.
        destruct Hrun as (Hhook & tr & Hreqs & Hfail).
        split; [exact Hhook|].
        exists ((page_query offset, Rows (Success data)) :: tr).
        split; [now rewrite Hreqs, <- app_assoc|].
        exact Hfail.
      * inversion Hrun; subst. cbn [hook requests]. split; [reflexivity|].
        eexists. split; [reflexivity | discriminate].
    + inversion Hrun; subst. cbn [hook requests]. split; [reflexivity|].
      eexists. split; [reflexivity|]. intros _. eexists. reflexivity.
Qed.

(** C9.  Whatever the remote, whenever a page request of a run of
    [fetchAllUsers] was answered with an error, the run has ended, its
    result is the empty array, the error flag is set, [loading] is back to
    false, and [users] is left as it was: none of the rows collected from
    earlier pages is returned or stored. *)
Theorem fetchAllUsers_error_discards (fuel : nat) (s : S) (h : State) :
  let run := fetchAllUsers remote fuel (start s h) in
  existsb failed (requests (snd run)) = true ->
  fst run = Returned []
  /\ error (hook (snd run)) = Some "Failed to fetch users"
  /\ loading (hook (snd run)) = false
  /\ users (hook (snd run)) = users h.
Proof.
  unfold fetchAllUsers, bind, setLoading, setError, setUsers, modify_hook,
    try_finally, try_catch, console_error, start, ret.
  cbn [hook store console requests users loading error].
  match goal with
  | |- context [fetchAllUsers_loop remote fuel [] 0%Z ?w0] =>
      destruct (fetchAllUsers_loop remote fuel [] 0%Z w0) as [out w'] eqn:Hrun
  end.
  apply loop_failure in Hrun. cbn [hook requests app] in Hrun.
  destruct Hrun as (Hhook & tr & Hreqs & Hfail).
  destruct out as [l | e |]; cbn [fst snd hook requests users loading error].
  - intros Hex. rewrite Hreqs in Hex. destruct (Hfail Hex) as [e He]. discriminate.
  - intros _. rewrite Hhook. cbn [users]. repeat split.
  - intros Hex. rewrite Hreqs in Hex. destruct (Hfail Hex) as [e He]. discriminate.
Qed.
End AnyRemote.

(** A connection that answers the first page of 1001 users and fails the
    second: the 1000 rows already collected are dropped. *)
Lemma fetchAllUsers_error_discards_witness :
  let run := fetchAllUsers (Scenarios.faulty Scenarios.only_first_answered) 3
               (start (0%nat, Scenarios.users_db 1001) initial) in
  List.length (requests (snd run)) = 2%nat
  /\ map page_rows (requests (snd run)) = [Some 1000%nat; None]
  /\ fst run = Returned []
  /\ error (hook (snd run)) = Some "Failed to fetch users"
  /\ loading (hook (snd run)) = false
  /\ users (hook (snd run)) = [].
Proof.
  split; [vm_compute; reflexivity|].
  split; [vm_compute; reflexivity|].
  apply (fetchAllUsers_error_discards (Scenarios.faulty Scenarios.only_first_answered) 3
           (0%nat, Scenarios.users_db 1001) initial).
  vm_compute. reflexivity.
Defined.

End Pagination.

(** ** The aggregations and the session detail of [dataFetchers] *)

Section Aggregation.
Import Js Supabase Effects DataFetchers.

Section DictFacts.
Context {T : Type}.
Implicit Types (d : Dict T) (k : string) (v : T).

Lemma dict_get_set_same d k v : dict_get (dict_set d k v) k = Some v.
Proof.
  induction d as [|[k' v'] d IH]; simpl.
  - now rewrite String.eqb_refl.
  - destruct (k' =? k) eqn:E; simpl; rewrite E; [reflexivity | exact IH].
Qed.

Lemma dict_get_set_other d k k' v :
  k <> k' -> dict_get (dict_set d k v) k' = dict_get d k'.
Proof.
  intros Hne. induction d as [|[k0 v0] d IH]; simpl.
  - apply String.eqb_neq in Hne. now rewrite Hne.
  - destruct (k0 =? k) eqn:E; simpl.
    + apply String.eqb_eq in E. subst k0.
      apply String.eqb_neq in Hne. now rewrite Hne.
    + destruct (k0 =? k'); [reflexivity | exact IH].
Qed.

Lemma dict_set_keys d k v x :
  In x (map fst (dict_set d k v)) <-> x = k \/ In x (map fst d).
Proof.
  induction d as [|[k' v'] d IH]; simpl.
  - intuition.
  - destruct (k' =? k) eqn:E; simpl.
    + apply String.eqb_eq in E. subst k'. intuition.
    + rewrite IH. intuition.
Qed.

Lemma dict_set_nodup d k v :
  NoDup (map fst d) -> NoDup (map fst (dict_set d k v)).
Proof.
  induction d as [|[k' v'] d IH]; simpl; intros Hnd.
  - repeat constructor. intros [].
  - inversion Hnd as [|? ? Hnotin Hnd']; subst.
    destruct (k' =? k) eqn:E; simpl.
    + constructor; assumption.
    + constructor; [|apply IH, Hnd'].
      rewrite dict_set_keys. intros [->|Hin]; [|contradiction].
      now rewrite String.eqb_refl in E.
Qed.

Lemma dict_in_get d k v :
  NoDup (map fst d) -> In (k, v) d -> dict_get d k = Some v.
Proof.
  induction d as [|[k' v'] d IH]; simpl; intros Hnd Hin; [contradiction|].
  inversion Hnd as [|? ? Hnotin Hnd']; subst.
  destruct Hin as [Heq | Hin].
  - inversion Heq; subst. now rewrite String.eqb_refl.
  - destruct (k' =? k) eqn:E.
    + apply String.eqb_eq in E. subst k'.
      exfalso. apply Hnotin. change k with (fst (k, v)). now apply in_map.
    + now apply IH.
Qed.

Lemma filter_split (f : string * T -> bool) d :
  Permutation (filter f d ++ filter (fun e => negb (f e)) d) d.
Proof.
  induction d as [|x d IH]; simpl; [constructor|].
  destruct (f x); simpl.
  - now constructor.
  - eapply perm_trans; [apply Permutation_sym, Permutation_middle|].
    now constructor.
Qed.

Lemma entries_perm d : Permutation (entries d) d.
Proof.
  unfold entries.
  eapply perm_trans; [|apply (filter_split is_index)].
  apply Permutation_app_tail, sort_perm.
Qed.
End DictFacts.

Lemma list_sum_perm (l l' : list nat) :
  Permutation l l' -> list_sum l = list_sum l'.
Proof. induction 1; simpl; lia. Qed.












(** C10.  For every filter descriptor, [limit: 0] builds the same request
    as no [limit], and [offset: 0] the same request as no [offset]; so the
    fetch is the same function of the store.  With [offset: 0] the request
    carries no offset, and with both at zero it carries no limit. *)
Theorem zero_limit_and_offset_are_absent (f : EventFilters) :
  analyticsEvents_query (with_limit f (Some 0%Z))
  = analyticsEvents_query (with_limit f None)
  /\ analyticsEvents_query (with_offset f (Some 0%Z))
     = analyticsEvents_query (with_offset f None)
  /\ offset (analyticsEvents_query (with_offset f (Some 0%Z))) = None
  /\ row_limit (analyticsEvents_query (with_offset (with_limit f (Some 0%Z)) (Some 0%Z)))
     = None
  /\ (forall (S H : Type) (remote : Remote S) (w : World S H),
        fetchAnalyticsEvents remote (with_limit f (Some 0%Z)) w
        = fetchAnalyticsEvents remote (with_limit f None) w
        /\ fetchAnalyticsEvents remote (with_offset f (Some 0%Z)) w
           = fetchAnalyticsEvents remote (with_offset f None) w).
Proof.
  assert (Hl : analyticsEvents_query (with_limit f (Some 0%Z))
               = analyticsEvents_query (with_limit f None)) by reflexivity.
  assert (Ho : analyticsEvents_query (with_offset f (Some 0%Z))
               = analyticsEvents_query (with_offset f None)) by reflexivity.
  split; [exact Hl|]. split; [exact Ho|].
  split; [|split].
  - unfold analyticsEvents_query.
    cbn [with_offset filter_offset filter_limit nonzero Z.eqb negb].
    repeat match goal with
           | |- context [if ?b then _ else _] => destruct b
           end; reflexivity.
  - unfold analyticsEvents_query.
    cbn [with_offset with_limit filter_offset filter_limit nonzero Z.eqb negb].
    repeat match goal with
           | |- context [if ?b then _ else _] => destruct b
           end; reflexivity.
  - intros S H remote w. unfold fetchAnalyticsEvents. now rewrite Hl, Ho.
Qed.

(** C8.  When the session query answers with a row that has its user,
    [fetchUserSessionEvents] returns the assembled detail whatever the two
    later queries answer: the event list is the answer's rows, empty when
    the event query failed; the subscription is absent when the
    subscription query failed; a subscription that is merely missing
    (PGRST116) is not even logged; and nothing is thrown. *)
Theorem fetchUserSessionEvents_degrades {S H : Type} (remote : Remote S) (h : H)
  (sid : string) (s s1 s2 s3 : S) (row u : Object)
  (ev : Response (list Object)) (sub : Response Object) :
  single remote s (session_query sid) = (Success (Some row), s1) ->
  get row "users" = Obj u ->
  rows remote s1 (session_events_query sid) = (ev, s2) ->
  single remote s2 (subscription_query (get u "id")) = (sub, s3) ->
  let run := fetchUserSessionEvents remote sid (start s h) in
  exists detail,
    fst run = Returned (Some detail)
    /\ detail = assemble row (data ev) (data sub)
    /\ events detail = or_empty (data ev)
    /\ (error ev <> None -> events detail = [])
    /\ (error sub <> None -> subscription detail = None)
    /\ (forall e, error sub = Some e -> code e = "PGRST116" ->
                  ~ In "Error fetching subscription:" (console (snd run)))
    /\ ~ In "Error fetching user session events:" (console (snd run)).
Proof.
  intros Hsession Husers Hevents Hsub run.
  exists (assemble row (data ev) (data sub)).
  assert (Hrun : run = (Returned (Some (assemble row (data ev) (data sub))),
                        {| store := s3; hook := h;
                           console :=
                             ((match ev with
                               | Failure _ => ["Error fetching events:"]
                               | Success _ => []
                               end)
                              ++ (match sub with
                                  | Failure e =>
                                      if negb (code e =? "PGRST116")
                                      then ["Error fetching subscription:"] else []
                                  | Success _ => []
                                  end))%list;
                           requests :=
                             [(session_query sid, Single (Success (Some row)));
                              (session_events_query sid, Rows ev);
                              (subscription_query (get u "id"), Single sub)] |})).
  { unfold run, fetchUserSessionEvents, logged, try_catch, bind, await_single,
      await_rows, start, ret, lift, member.
    cbn [store hook console requests].
    rewrite Hsession. cbn [store hook console requests app].
    rewrite Hevents.
    destruct ev as [evd | eve]; unfold console_error, ret;
      cbn [store hook console requests app]; rewrite Husers;
      cbn [store hook console requests app]; rewrite Hsub;
      destruct sub as [subd | sube]; cbn [store hook console requests app];
      try destruct (negb (code sube =? "PGRST116"));
      cbn [store hook console requests app]; reflexivity. }
  rewrite Hrun. cbn [fst snd console].
  split; [reflexivity|]. split; [reflexivity|]. split; [reflexivity|].
  split; [|split; [|split]].
  - destruct ev; [intros Hne; now contradiction Hne | reflexivity].
  - destruct sub; [intros Hne; now contradiction Hne | reflexivity].
  - intros e He Hcode. destruct sub as [|e']; [discriminate|].
    inversion He; subst e'. rewrite Hcode. cbn [String.eqb].
    destruct ev; cbn; intuition congruence.
  - destruct ev, sub as [|e']; try destruct (negb (code e' =? "PGRST116"));
      cbn; intuition congruence.
Qed.

(** Two connections over the sample store: one loses the subscriptions
    table (three events, no subscription), one answers the session query
    only (no events, no subscription). *)
Lemma fetchUserSessionEvents_degrades_witness :
  (let run := fetchUserSessionEvents (Scenarios.faulty Scenarios.subscriptions_down) "s1"
                (start (0%nat, Scenarios.sample) tt) in
   exists detail,
     fst run = Returned (Some detail)
     /\ List.length (events detail) = 3%nat
     /\ subscription detail = None)
  /\
  (let run := fetchUserSessionEvents (Scenarios.faulty Scenarios.only_first_answered) "s1"
                (start (0%nat, Scenarios.sample) tt) in
   exists detail,
     fst run = Returned (Some detail)
     /\ events detail = []
     /\ subscription detail = None).
Proof.
  split.
  - pose (remote := Scenarios.faulty Scenarios.subscriptions_down).
    pose (row := Scenarios.answer_single remote (0%nat, Scenarios.sample) (session_query "s1")).
    pose (u := Scenarios.field_object row "users").
    destruct (fetchUserSessionEvents_degrades remote tt "s1"
                (0%nat, Scenarios.sample) (1%nat, Scenarios.sample)
                (2%nat, Scenarios.sample) (3%nat, Scenarios.sample)
                row u
                (fst (rows remote (1%nat, Scenarios.sample) (session_events_query "s1")))
                (fst (single remote (2%nat, Scenarios.sample)
                        (subscription_query (get u "id")))))
      as (detail & Hrun & _ & Hev & _ & Hsub & _).
    + vm_compute. reflexivity.
    + vm_compute. reflexivity.
    + vm_compute. reflexivity.
    + vm_compute. reflexivity.
    + exists detail. split; [exact Hrun|]. split.
      * rewrite Hev. vm_compute. reflexivity.
      * apply Hsub. vm_compute. discriminate.
  - pose (remote := Scenarios.faulty Scenarios.only_first_answered).
    pose (row := Scenarios.answer_single remote (0%nat, Scenarios.sample) (session_query "s1")).
    pose (u := Scenarios.field_object row "users").
    destruct (fetchUserSessionEvents_degrades remote tt "s1"
                (0%nat, Scenarios.sample) (1%nat, Scenarios.sample)
                (2%nat, Scenarios.sample) (3%nat, Scenarios.sample)
                row u
                (fst (rows remote (1%nat, Scenarios.sample) (session_events_query "s1")))
                (fst (single remote (2%nat, Scenarios.sample)
                        (subscription_query (get u "id")))))
      as (detail & Hrun & _ & _ & Hev & Hsub & _).
    + vm_compute. reflexivity.
    + vm_compute. reflexivity.
    + vm_compute. reflexivity.
    + vm_compute. reflexivity.
    + exists detail. split; [exact Hrun|]. split.
      * apply Hev. vm_compute. discriminate.
      * apply Hsub. vm_compute. discriminate.
Defined.

(** C4, at a session id the store does not hold.  [.single()] reports the
    empty match as an error, which [fetchUserSessionEvents] throws as a
    failed fetch; the [return null] behind it is not reached.  The drawer
    then shows the message of a failed request, the same it shows when the
    connection is down, and not "Session data not found.". *)
Theorem missing_session_throws :
  let run := fetchUserSessionEvents Database.remote "s404"
               (start Scenarios.sample tt) in
  fst run
  = Threw (ThrownError
             "Failed to fetch user session events for session s404: JSON object requested, multiple (or no) rows returned")
  /\ map failed (requests (snd run)) = [true]
  /\ (let ui := UseAnalytics.openSessionDrawer Database.remote "s404"
                  (start Scenarios.sample UseAnalytics.initial) in
      UseAnalytics.drawerError (UseAnalytics.drawer (hook (snd ui)))
      = Some "Failed to fetch session details")
  /\ (let ui := UseAnalytics.openSessionDrawer
                  (Scenarios.faulty Scenarios.down) "s1"
                  (start (0%nat, Scenarios.sample) UseAnalytics.initial) in
      UseAnalytics.drawerError (UseAnalytics.drawer (hook (snd ui)))
      = Some "Failed to fetch session details").
Proof. repeat split; vm_compute; reflexivity. Qed.

(** C6, at a session that has ended.  The stored session lasted 2m 5s,
    but the session query does not select [ended_at], so the detail that
    comes back has no duration. *)
Theorem ended_session_has_no_duration :
  let run := fetchUserSessionEvents Database.remote "s1"
               (start Scenarios.sample tt) in
  get (Database.fields Scenarios.session_s1) "started_at" = Num 1000
  /\ get (Database.fields Scenarios.session_s1) "ended_at" = Num 126000
  /\ sessionDuration_of (Database.fields Scenarios.session_s1) = Some "2m 5s"
  /\ exists detail,
       fst run = Returned (Some detail)
       /\ sessionId detail = Str "s1"
       /\ session_duration (sessionStats detail) = None.
Proof.
  split; [reflexivity|]. split; [reflexivity|]. split; [vm_compute; reflexivity|].
  eexists. split; [vm_compute; reflexivity|]. split; reflexivity.
Qed.

(** C7, at a window of zero minutes holding one event.  The guard of
    [eventsPerMinute] tests the number of events, not the divisor: the
    field is the text "Infinity". *)
Theorem eventsPerMinute_of_zero_window :
  let run := fetchRealtimeAnalytics Database.remote 4000 0
               (start Scenarios.sample tt) in
  exists r,
    fst run = Returned r
    /\ realtime_totalEvents r = 1%nat
    /\ timeRange r = "0 minutes"
    /\ eventsPerMinute r = Some "Infinity".
Proof. eexists. split; [vm_compute; reflexivity|]. repeat split. Qed.

(** C2, at two rows with the paths "/a" and "/b" (and at the sample
    store, which has two distinct paths over three events).  The rows are
    grouped under [event.event_path], a property the request does not
    select: every row lands in one group whose path is [undefined]. *)
Theorem fetchPagePerformance_merges_paths :
  fst (fetchPagePerformance (Scenarios.answering Scenarios.two_pages) (start tt tt))
  = Returned [ {| path := Undefined; visits := 2; uniqueUsers := 2;
                  sections := []; avgVisitsPerUser := Some "1.0" |} ]
  /\ map (fun e => get e "page_path") Scenarios.two_pages = [Str "/a"; Str "/b"]
  /\ fst (fetchPagePerformance Database.remote (start Scenarios.sample tt))
     = Returned [ {| path := Undefined; visits := 3; uniqueUsers := 2;
                     sections := []; avgVisitsPerUser := Some "1.5" |} ].
Proof. repeat split; vm_compute; reflexivity. Qed.

(** C3, at the events section switched to [custom] with no range.  The
    range is [{ null, null }], and [fetchEventAnalytics] still hands an
    object to [fetchEventCountsByType], which therefore adds both
    comparisons on [created_at]; the store rejects the request and the
    section shows an error, where the unfiltered fetch returns counts. *)
Theorem custom_event_filter_without_bounds_restricts :
  let run := Effects.bind (UseAnalytics.setEventDateFilter UseAnalytics.Custom None)
               (fun _ => UseAnalytics.fetchEventAnalytics Database.remote Scenarios.noon)
               (start Scenarios.sample UseAnalytics.initial) in
  UseAnalytics.customRange (UseAnalytics.eventFilter (hook (snd run)))
  = UseAnalytics.no_range
  /\ map fst (requests (snd run)) = [eventCounts_query (Some (Null, Null))]
  /\ filters (eventCounts_query (Some (Null, Null)))
     = [Gte "created_at" Null; Lte "created_at" Null]
  /\ filters (eventCounts_query None) = []
  /\ UseAnalytics.error (hook (snd run)) = Some "Failed to fetch event analytics"
  /\ UseAnalytics.eventAnalytics (hook (snd run)) = []
  /\ fst (fetchEventCountsByType Database.remote None (start Scenarios.sample tt))
     = Returned [ {| eventType := "button_click"; count := 1 |};
                  {| eventType := "page_view"; count := 2 |} ].
Proof. repeat split; vm_compute; reflexivity. Qed.

(** ** The date filter of the sections *)
Lemma between_missing (dates : UseAnalytics.DateRange) (q : Query) :
  truthy (UseAnalytics.range_startDate dates)
  && truthy (UseAnalytics.range_endDate dates) = false ->
  UseAnalytics.between dates q = q.
Proof. intros Hm. unfold UseAnalytics.between. now rewrite Hm. Qed.

(** In [custom] mode with a bound missing, the users, traffic and pages
    sections add no date restriction; the events section adds both. *)
Lemma custom_missing_bound (clock : UseAnalytics.Clock) (r : UseAnalytics.DateRange) :
  truthy (UseAnalytics.range_startDate r)
  && truthy (UseAnalytics.range_endDate r) = false ->
  let dates := UseAnalytics.getFilterDates clock UseAnalytics.Custom r in
  filters (UseAnalytics.users_query dates) = []
  /\ filters (UseAnalytics.traffic_query dates) = [NotIsNull "utm_source"]
  /\ filters (UseAnalytics.pages_query dates) = [NotIsNull "page_path"]
  /\ filters (eventCounts_query (UseAnalytics.event_dateRange dates))
     = [Gte "created_at" (UseAnalytics.range_startDate r);
        Lte "created_at" (UseAnalytics.range_endDate r)].
Proof.
  intros Hm dates.
  unfold UseAnalytics.users_query, UseAnalytics.traffic_query, UseAnalytics.pages_query.
  rewrite !between_missing by exact Hm.
  repeat split.
Qed.

(** ** The session row never carries [ended_at] *)
Lemma selected_session_has_no_end (sid : string) (row : Database.Row) :
  sessionDuration_of (Database.project (columns (session_query sid)) row) = None.
Proof. reflexivity. Qed.

Lemma single_answer_shape (db : Database.t) (q : Query) (o : Object) (s : Database.t) :
  single Database.remote db q = (Success (Some o), s) ->
  offset q = None -> row_limit q = None ->
  exists row, o = Database.project (columns q) row.
Proof.
  unfold Database.remote, single, Database.answer.
  intros Hs Ho Hl.
  destruct (existsb Database.malformed (filters q)); [discriminate|].
  destruct (Database.negative (offset q) || Database.negative (row_limit q));
    [discriminate|].
  unfold Database.window in Hs. rewrite Ho, Hl in Hs.
  unfold Database.view in Hs.
  destruct (Database.ordered (ordering q)
              (filter (fun r => forallb (Database.matches r) (filters q))
                 (db (table q)))) as [|row [|row' rest]];
    cbn [map] in Hs; try discriminate.
  exists row. now inversion Hs.
Qed.

Lemma stored_session_duration_is_never_reported {H : Type}
  (db : Database.t) (h : H) (sid : string) (detail : SessionWithEvents) :
  fst (fetchUserSessionEvents Database.remote sid (start db h))
  = Returned (Some detail) ->
  session_duration (sessionStats detail) = None.
Proof.
  unfold fetchUserSessionEvents, logged, try_catch, bind, await_single, start.
  cbn [store hook console requests].
  destruct (single Database.remote db (session_query sid)) as [r s] eqn:Hsingle.
  destruct r as [[o|] | e]; cbn [fst snd].
  - apply single_answer_shape in Hsingle; try reflexivity.
    destruct Hsingle as [row ->].
    unfold handleSupabaseError, ret, bind, await_rows, lift, member, throw,
      console_error.
    cbn [store hook console requests].
    destruct (rows Database.remote s (session_events_query sid)) as [ev s2].
    destruct ev as [evd | eve]; cbn [store hook console requests];
      destruct (get (Database.project (columns (session_query sid)) row) "users");
      unfold ret, throw; cbn [store hook console requests fst];
      try discriminate;
      match goal with
      | |- context [single Database.remote ?s ?q] =>
          destruct (single Database.remote s q) as [sub s3]
      end;
      destruct sub as [subd | sube]; cbn [fst];
      try destruct (negb (code sube =? "PGRST116")); cbn [fst];
      intros Hd; inversion Hd; reflexivity.
  - unfold ret. cbn. discriminate.
  - unfold handleSupabaseError, bind, console_error, throw. cbn. discriminate.
Qed.

(** ** An unknown session id *)
Lemma same_value_zero_Str (v : Value) (s : string) :
  same_value_zero v (Str s) = true -> v = Str s.
Proof.
  destruct v; simpl; try discriminate.
  intros E. apply String.eqb_eq in E. now subst.
Qed.

Lemma fetchUserSessionEvents_unknown_session {H : Type}
  (db : Database.t) (h : H) (sid : string) :
  (forall r, In r (db "user_sessions") ->
             Database.column (Database.fields r) "id" <> Str sid) ->
  fst (fetchUserSessionEvents Database.remote sid (start db h))
  = Threw (ThrownError
             ("Failed to fetch user session events for session " ++ sid ++ ": "
              ++ message Database.no_single_row)).
Proof.
  intros Hnone.
  assert (Hfilter :
            filter (fun r => forallb (Database.matches r) (filters (session_query sid)))
                   (db (table (session_query sid))) = []).
  { change (table (session_query sid)) with "user_sessions".
    change (filters (session_query sid)) with [Eq "id" (Str sid)].
    induction (db "user_sessions") as [|r l IH]; [reflexivity|].
    cbn [filter forallb Database.matches Database.is_null negb andb].
    destruct (same_value_zero (Database.column (Database.fields r) "id") (Str sid)) eqn:E.
    - apply same_value_zero_Str in E. exfalso. apply (Hnone r); [now left | exact E].
    - apply IH. intros r' Hin. apply Hnone. now right. }
  unfold fetchUserSessionEvents, logged, try_catch, bind, await_single, start.
  cbn [store hook console requests].
  unfold Database.remote at 1. cbn [single].
  unfold Database.answer.
  change (existsb Database.malformed (filters (session_query sid))) with false.
  change (Database.negative (offset (session_query sid))
          || Database.negative (row_limit (session_query sid))) with false.
  cbv beta iota.
  unfold Database.window, Database.view.
  change (offset (session_query sid)) with (@None Z).
  change (row_limit (session_query sid)) with (@None Z).
  change (ordering (session_query sid)) with (@None (string * bool)).
  cbv beta iota. rewrite Hfilter. reflexivity.
Qed.

(** ** Page performance: one group whatever the paths *)
Lemma add_page_event_first (e : Object) :
  get e "event_path" = Undefined ->
  exists p, add_page_event [] e = inr [("undefined", p)]
            /\ acc_path p = Undefined /\ acc_visits p = 1%nat.
Proof.
  intros He. unfold add_page_event. rewrite He.
  eexists. split; [reflexivity|]. split; reflexivity.
Qed.

Lemma add_page_event_next (e : Object) (p : PageAcc) :
  get e "event_path" = Undefined ->
  exists p', add_page_event [("undefined", p)] e = inr [("undefined", p')]
             /\ acc_path p' = acc_path p
             /\ acc_visits p' = (acc_visits p + 1)%nat.
Proof.
  intros He. unfold add_page_event. rewrite He.
  eexists. split; [reflexivity|]. split; reflexivity.
Qed.

Lemma forEach_page_events (data : list Object) :
  (forall e, In e data -> get e "event_path" = Undefined) ->
  forall p,
  exists p', forEach add_page_event data [("undefined", p)] = inr [("undefined", p')]
             /\ acc_path p' = acc_path p
             /\ acc_visits p' = (acc_visits p + List.length data)%nat.
Proof.
  induction data as [|e data IH]; intros Hall p.
  - exists p. simpl. repeat split. lia.
  - destruct (add_page_event_next e p) as (p1 & H1 & Hpath1 & Hvis1).
    { apply Hall. now left. }
    destruct (IH (fun e' Hin => Hall e' (or_intror Hin)) p1)
      as (p' & H' & Hpath' & Hvis').
    exists p'. cbn [forEach]. rewrite H1. split; [exact H'|].
    split; [congruence|]. cbn [List.length]. lia.
Qed.

Lemma page_performance_single_group (data : list Object) :
  (forall e, In e data -> get e "event_path" = Undefined) ->
  data <> [] ->
  exists p, forEach add_page_event data [] = inr [("undefined", p)]
            /\ acc_path p = Undefined
            /\ acc_visits p = List.length data.
Proof.
  destruct data as [|e data]; [congruence|]. intros Hall _.
  destruct (add_page_event_first e) as (p1 & H1 & Hpath1 & Hvis1).
  { apply Hall. now left. }
  destruct (forEach_page_events data (fun e' Hin => Hall e' (or_intror Hin)) p1)
    as (p' & H' & Hpath' & Hvis').
  exists p'. cbn [forEach]. rewrite H1. split; [exact H'|].
  split; [congruence|]. cbn [List.length]. lia.
Qed.

Lemma fetchPagePerformance_one_group {H : Type} (db : Database.t) (h : H) :
  exists l,
    fst (fetchPagePerformance Database.remote (start db h)) = Returned l
    /\ (l = []
        \/ exists p, l = [p] /\ path p = Undefined
                     /\ visits p = List.length (Database.view db pagePerformance_query)).
Proof.
  unfold fetchPagePerformance, logged, try_catch, bind, await_rows, start.
  cbn [store hook console requests].
  unfold Database.remote at 1. cbn [rows].
  unfold Database.answer.
  change (existsb Database.malformed (filters pagePerformance_query)) with false.
  change (Database.negative (offset pagePerformance_query)
          || Database.negative (row_limit pagePerformance_query)) with false.
  cbv beta iota.
  change (Database.window pagePerformance_query (Database.view db pagePerformance_query))
    with (Database.view db pagePerformance_query).
  unfold or_empty.
  assert (Hall : forall e, In e (Database.view db pagePerformance_query) ->
                           get e "event_path" = Undefined).
  { intros e Hin. unfold Database.view in Hin. apply in_map_iff in Hin.
    destruct Hin as (row & <- & _). reflexivity. }
  destruct (Database.view db pagePerformance_query) as [|e data] eqn:Hview.
  - exists []. split; [reflexivity | now left].
  - destruct (page_performance_single_group (e :: data) Hall) as (p & Hp & Hpath & Hvis).
    { discriminate. }
    rewrite Hp. unfold lift, ret. cbn [fst].
    exists [page_summary p]. split; [reflexivity|]. right.
    exists (page_summary p). repeat split; assumption.
Qed.

(** ** The grouped ratios never divide by zero *)
Section DictMore.
Context {T : Type}.

Lemma dict_set_in (d : Dict T) (k : string) (v : T) (x : string * T) :
  In x (dict_set d k v) -> snd x = v \/ In x d.
Proof.
  induction d as [|[k' v'] d IH]; simpl.
  - intros [<-|[]]. now left.
  - destruct (k' =? k); simpl.
    + intros [<-|Hin]; [now left | now right; right].
    + intros [<-|Hin]; [now right; left|].
      destruct (IH Hin); [now left | now right; right].
Qed.

Lemma dict_set_twice (d : Dict T) (k : string) (a b : T) :
  dict_set (dict_set d k a) k b = dict_set d k b.
Proof.
  induction d as [|[k' v'] d IH]; simpl.
  - now rewrite String.eqb_refl.
  - destruct (k' =? k) eqn:E; simpl; rewrite E; [reflexivity | now rewrite IH].
Qed.

Lemma values_in (d : Dict T) (v : T) :
  In v (values d) -> exists k, In (k, v) d.
Proof.
  unfold values. intros Hin. apply in_map_iff in Hin.
  destruct Hin as ([k v'] & <- & Hin). exists k.
  eapply Permutation_in; [apply entries_perm | exact Hin].
Qed.
End DictMore.

Lemma set_add_nonempty (s : JsSet) (v : Value) : (0 < set_size (set_add s v))%nat.
Proof.
  unfold set_add, set_size, set_has.
  destruct (existsb (same_value_zero v) s) eqn:E.
  - destruct s; [discriminate | simpl; lia].
  - rewrite length_app. simpl. lia.
Qed.

Lemma add_campaign_event_days d e d' :
  add_campaign_event d e = inr d' ->
  (forall x, In x d -> (0 < set_size (acc_uniqueDays (snd x)))%nat) ->
  forall x, In x d' -> (0 < set_size (acc_uniqueDays (snd x)))%nat.
Proof.
  unfold add_campaign_event.
  set (key := to_string (get e "utm_campaign") ++ "-"
              ++ to_string (get e "utm_source") ++ "-"
              ++ to_string (get e "utm_medium")).
  destruct (iso_date (get e "created_at")) as [err | date]; [discriminate|].
  intros Hstep Hinv x Hin.
  destruct (dict_get d key) as [c|] eqn:Hget.
  - rewrite Hget in Hstep. inversion Hstep; subst d'.
    apply dict_set_in in Hin. destruct Hin as [-> | Hin]; [|now apply Hinv].
    apply set_add_nonempty.
  - rewrite dict_get_set_same in Hstep. inversion Hstep; subst d'.
    rewrite dict_set_twice in Hin.
    apply dict_set_in in Hin. destruct Hin as [-> | Hin]; [|now apply Hinv].
    apply set_add_nonempty.
Qed.

Lemma forEach_campaign_days data : forall d d',
  forEach add_campaign_event data d = inr d' ->
  (forall x, In x d -> (0 < set_size (acc_uniqueDays (snd x)))%nat) ->
  forall x, In x d' -> (0 < set_size (acc_uniqueDays (snd x)))%nat.
Proof.
  induction data as [|e data IH]; intros d d' Hrun Hinv; cbn [forEach] in Hrun.
  - now inversion Hrun; subst.
  - destruct (add_campaign_event d e) as [err | d1] eqn:Hstep; [discriminate|].
    eapply IH; [exact Hrun|]. eapply add_campaign_event_days; eassumption.
Qed.

Lemma add_page_event_users d e d' :
  add_page_event d e = inr d' ->
  (forall x, In x d -> (0 < set_size (acc_uniqueUsers (snd x)))%nat) ->
  forall x, In x d' -> (0 < set_size (acc_uniqueUsers (snd x)))%nat.
Proof.
  unfold add_page_event.
  set (key := to_string (get e "event_path")).
  intros Hstep Hinv x Hin.
  destruct (dict_get d key) as [c|] eqn:Hget.
  - rewrite Hget in Hstep. inversion Hstep; subst d'.
    apply dict_set_in in Hin. destruct Hin as [-> | Hin]; [|now apply Hinv].
    apply set_add_nonempty.
  - rewrite dict_get_set_same in Hstep. inversion Hstep; subst d'.
    rewrite dict_set_twice in Hin.
    apply dict_set_in in Hin. destruct Hin as [-> | Hin]; [|now apply Hinv].
    apply set_add_nonempty.
Qed.

Lemma forEach_page_users data : forall d d',
  forEach add_page_event data d = inr d' ->
  (forall x, In x d -> (0 < set_size (acc_uniqueUsers (snd x)))%nat) ->
  forall x, In x d' -> (0 < set_size (acc_uniqueUsers (snd x)))%nat.
Proof.
  induction data as [|e data IH]; intros d d' Hrun Hinv; cbn [forEach] in Hrun.
  - now inversion Hrun; subst.
  - destruct (add_page_event d e) as [err | d1] eqn:Hstep; [discriminate|].
    eapply IH; [exact Hrun|]. eapply add_page_event_users; eassumption.
Qed.

(** In every campaign and page summary the denominator of the ratio is at
    least one, and the ratio field is the quotient through [toFixed(1)]. *)
Lemma grouped_ratios_have_nonzero_denominators (data : list Object) :
  (forall campaignMap s,
      forEach add_campaign_event data [] = inr campaignMap ->
      In s (campaign_summaries campaignMap) ->
      (1 <= activeDays s)%nat
      /\ avgEventsPerDay s
         = ratio (Number.of_nat (totalEvents s)) (Number.of_nat (activeDays s)))
  /\ (forall pageMap s,
      forEach add_page_event data [] = inr pageMap ->
      In s (page_summaries pageMap) ->
      (1 <= uniqueUsers s)%nat
      /\ avgVisitsPerUser s
         = ratio (Number.of_nat (visits s)) (Number.of_nat (uniqueUsers s))).
Proof.
  split.
  - intros campaignMap s Hrun Hin.
    unfold campaign_summaries in Hin.
    eapply Permutation_in in Hin; [|apply sort_perm].
    apply in_map_iff in Hin. destruct Hin as (c & <- & Hin).
    apply values_in in Hin. destruct Hin as [k Hin].
    assert (Hpos : (0 < set_size (acc_uniqueDays c))%nat).
    { apply (forEach_campaign_days data [] campaignMap Hrun
               (fun x (F : In x []) => match F with end) (k, c) Hin). }
    unfold campaign_summary. cbn [activeDays avgEventsPerDay totalEvents].
    split; [lia|]. apply Nat.ltb_lt in Hpos. now rewrite Hpos.
  - intros pageMap s Hrun Hin.
    unfold page_summaries in Hin.
    eapply Permutation_in in Hin; [|apply sort_perm].
    apply in_map_iff in Hin. destruct Hin as (c & <- & Hin).
    apply values_in in Hin. destruct Hin as [k Hin].
    assert (Hpos : (0 < set_size (acc_uniqueUsers c))%nat).
    { apply (forEach_page_users data [] pageMap Hrun
               (fun x (F : In x []) => match F with end) (k, c) Hin). }
    unfold page_summary. cbn [uniqueUsers avgVisitsPerUser visits].
    split; [lia|]. apply Nat.ltb_lt in Hpos. now rewrite Hpos.
Qed.

(** With no event in the window the realtime ratio is the literal "0",
    whatever the length of the window. *)
Lemma eventsPerMinute_of_no_events (minutesBack : Z) :
  eventsPerMinute (realtime_summary minutesBack []) = Some "0".
Proof. reflexivity. Qed.

End Aggregation.

(** ** More facts about sorting, sets and dictionaries *)

Section MoreFacts.
Import Js Observations.

Lemma sort_strongly_sorted {A : Type} (before : A -> A -> bool) (l : list A) :
  (forall x y, before x y = false -> before y x = true) ->
  (forall x y z, before x y = true -> before y z = true -> before x z = true) ->
  StronglySorted (fun u v => before u v = true) (sort before l).
Proof.
  intros Htotal Htrans. apply Sorted_StronglySorted.
  - intros x y z. apply Htrans.
  - apply sort_sorted, Htotal.
Qed.

Lemma leb_desc_total {A : Type} (f : A -> nat) (x y : A) :
  (f y <=? f x)%nat = false -> (f x <=? f y)%nat = true.
Proof. intros E. apply Nat.leb_gt in E. apply Nat.leb_le. lia. Qed.

Lemma leb_desc_trans {A : Type} (f : A -> nat) (x y z : A) :
  (f y <=? f x)%nat = true -> (f z <=? f y)%nat = true -> (f z <=? f x)%nat = true.
Proof. rewrite !Nat.leb_le. lia. Qed.

(** A list sorted by [sort] on a count, largest first. *)
Lemma sort_desc {A : Type} (f : A -> nat) (l : list A) :
  StronglySorted (fun u v => (f v <= f u)%nat)
    (sort (fun a b => (f b <=? f a)%nat) l).
Proof.
  pose proof (sort_strongly_sorted (fun a b => (f b <=? f a)%nat) l
                (leb_desc_total f) (leb_desc_trans f)) as Hs.
  induction Hs as [|x l' Hs IH Hall]; constructor; [exact IH|].
  eapply Forall_impl; [|exact Hall]. intros y Hy. now apply Nat.leb_le.
Qed.

Lemma set_add_size (s : JsSet) (v : Value) :
  (set_size s <= set_size (set_add s v) <= set_size s + 1)%nat.
Proof.
  unfold set_add, set_size. destruct (set_has s v).
  - lia.
  - rewrite length_app. simpl. lia.
Qed.

Lemma set_fold_size (l : list Value) : forall s,
  (set_size s <= set_size (fold_left set_add l s) <= set_size s + List.length l)%nat.
Proof.
  induction l as [|v l IH]; intros s; simpl; [lia|].
  pose proof (IH (set_add s v)). pose proof (set_add_size s v). lia.
Qed.

Lemma set_of_size (l : list Value) :
  (set_size (set_of l) <= List.length l)%nat
  /\ (l <> [] -> 1 <= set_size (set_of l))%nat.
Proof.
  unfold set_of. split.
  - pose proof (set_fold_size l []). simpl in *. lia.
  - destruct l as [|v l]; [congruence|]. intros _. simpl.
    pose proof (set_fold_size l (set_add [] v)).
    pose proof (set_add_nonempty [] v). lia.
Qed.

Lemma filter_partition_length {A : Type} (f : A -> bool) (l : list A) :
  (List.length (filter f l) + List.length (filter (fun x => negb (f x)) l)
   = List.length l)%nat.
Proof.
  induction l as [|x l IH]; simpl; [reflexivity|].
  destruct (f x); simpl; lia.
Qed.

Lemma filter_disjoint_length {A : Type} (f g : A -> bool) (l : list A) :
  (forall x, f x = true -> g x = false) ->
  (List.length (filter f l) + List.length (filter g l) <= List.length l)%nat.
Proof.
  intros Hd. induction l as [|x l IH]; simpl; [lia|].
  destruct (f x) eqn:Ef.
  - rewrite (Hd x Ef). simpl. lia.
  - destruct (g x); simpl; lia.
Qed.

Section DictSums.
Context {T : Type} (f : T -> nat).

Lemma dict_set_sum_new (d : Dict T) (k : string) (v : T) :
  dict_get d k = None -> dict_sum f (dict_set d k v) = (dict_sum f d + f v)%nat.
Proof.
  unfold dict_sum. induction d as [|[k' v'] d IH]; simpl; intros Hget.
  - lia.
  - destruct (k' =? k); [discriminate|]. simpl. rewrite IH by exact Hget. lia.
Qed.

Lemma dict_set_sum_old (d : Dict T) (k : string) (v old : T) :
  dict_get d k = Some old ->
  (dict_sum f (dict_set d k v) + f old = dict_sum f d + f v)%nat.
Proof.
  unfold dict_sum. induction d as [|[k' v'] d IH]; simpl; intros Hget.
  - discriminate.
  - destruct (k' =? k); simpl.
    + inversion Hget; subst. lia.
    + specialize (IH Hget). lia.
Qed.

Lemma dict_sum_entries (d : Dict T) :
  list_sum (map f (values d)) = dict_sum f d.
Proof.
  unfold values, dict_sum. rewrite map_map.
  apply list_sum_perm, Permutation_map, entries_perm.
Qed.
End DictSums.


Lemma dict_get_none_keys {T : Type} (d : Dict T) (k : string) :
  dict_get d k = None <-> ~ In k (map fst d).
Proof.
  induction d as [|[k' v'] d IH]; simpl.
  - intuition.
  - destruct (k' =? k) eqn:E.
    + apply String.eqb_eq in E. subst. split; [discriminate | intros H; exfalso; apply H; now left].
    + apply String.eqb_neq in E. rewrite IH. intuition.
Qed.

Lemma dict_get_in {T : Type} (d : Dict T) (k : string) (v : T) :
  dict_get d k = Some v -> In (k, v) d.
Proof.
  induction d as [|[k' v'] d IH]; simpl; [discriminate|].
  destruct (k' =? k) eqn:E.
  - apply String.eqb_eq in E. subst. intros H; inversion H; subst. now left.
  - intros H. right. now apply IH.
Qed.

End MoreFacts.


Section CampaignFacts.
Import Js Supabase Effects DataFetchers Observations.

Lemma add_campaign_event_step d e d' :
  add_campaign_event d e = inr d' ->
  exists date c1,
    iso_date (get e "created_at") = inr date
    /\ d' = dict_set d (campaign_key e) c1
    /\ acc_events c1
       = (match dict_get d (campaign_key e) with
          | Some c => acc_events c | None => 0 end + 1)%nat
    /\ acc_uniqueDays c1
       = set_add (match dict_get d (campaign_key e) with
                  | Some c => acc_uniqueDays c | None => [] end) date.
Proof.
  unfold add_campaign_event. fold (campaign_key e).
  destruct (iso_date (get e "created_at")) as [err | date]; [discriminate|].
  intros Hstep. exists date.
  destruct (dict_get d (campaign_key e)) as [c|] eqn:Hget.
  - rewrite Hget in Hstep. inversion Hstep; subst d'.
    eexists. split; [reflexivity|]. split; [reflexivity|]. split; reflexivity.
  - rewrite dict_get_set_same in Hstep. inversion Hstep; subst d'.
    rewrite dict_set_twice.
    eexists. split; [reflexivity|]. split; [reflexivity|]. split; reflexivity.
Qed.

Lemma add_campaign_event_sum d e d' :
  add_campaign_event d e = inr d' ->
  dict_sum acc_events d' = (dict_sum acc_events d + 1)%nat.
Proof.
  intros Hstep.
  destruct (add_campaign_event_step d e d' Hstep) as (date & c1 & _ & -> & Hev & _).
  destruct (dict_get d (campaign_key e)) as [c|] eqn:Hget.
  - pose proof (dict_set_sum_old acc_events d (campaign_key e) c1 c Hget). lia.
  - rewrite (dict_set_sum_new acc_events d (campaign_key e) c1 Hget). lia.
Qed.

Lemma add_campaign_event_bounds d e d' :
  add_campaign_event d e = inr d' ->
  (forall x, In x d -> days_within_events (snd x)) ->
  forall x, In x d' -> days_within_events (snd x).
Proof.
  intros Hstep Hinv x Hin.
  destruct (add_campaign_event_step d e d' Hstep) as (date & c1 & _ & -> & Hev & Hdays).
  apply dict_set_in in Hin. destruct Hin as [-> | Hin]; [|now apply Hinv].
  unfold days_within_events. rewrite Hev, Hdays.
  destruct (dict_get d (campaign_key e)) as [c|] eqn:Hget.
  - apply dict_get_in in Hget.
    pose proof (Hinv _ Hget) as Hc. unfold days_within_events in Hc. cbn [snd] in Hc.
    pose proof (set_add_size (acc_uniqueDays c) date).
    pose proof (set_add_nonempty (acc_uniqueDays c) date). lia.
  - pose proof (set_add_size [] date). pose proof (set_add_nonempty [] date).
    unfold set_size in *. simpl in *. lia.
Qed.

Lemma forEach_campaign data : forall d d',
  forEach add_campaign_event data d = inr d' ->
  dict_sum acc_events d' = (dict_sum acc_events d + List.length data)%nat
  /\ ((forall x, In x d -> days_within_events (snd x)) ->
      forall x, In x d' -> days_within_events (snd x)).
Proof.
  induction data as [|e data IH]; intros d d' Hrun; cbn [forEach] in Hrun.
  - inversion Hrun; subst. split; [simpl; lia | auto].
  - destruct (add_campaign_event d e) as [err | d1] eqn:Hstep; [discriminate|].
    destruct (IH d1 d' Hrun) as [Hsum Hinv].
    split.
    + rewrite Hsum, (add_campaign_event_sum d e d1 Hstep). simpl. lia.
    + intros Hd. apply Hinv. eapply add_campaign_event_bounds; eassumption.
Qed.

Lemma forEach_campaign_runs data : forall d,
  Forall (fun e => date_time (get e "created_at") <> None) data ->
  exists d', forEach add_campaign_event data d = inr d'.
Proof.
  induction data as [|e data IH]; intros d Hall; cbn [forEach].
  - now exists d.
  - inversion Hall as [|? ? He Hrest]; subst.
    unfold add_campaign_event at 1. unfold iso_date.
    destruct (date_time (get e "created_at")) as [ms|]; [|congruence].
    match goal with
    | |- context [match dict_get ?m ?k with Some c => inr (@?f c) | None => inl _ end] =>
        destruct (dict_get m k) as [c|] eqn:Hget
    end.
    + apply IH, Hrest.
    + exfalso. revert Hget.
      match goal with
      | |- dict_get (match dict_get d ?k with Some _ => d | None => dict_set d ?k ?v end) ?k = None -> _ =>
          destruct (dict_get d k) eqn:Hd; [congruence | rewrite dict_get_set_same; discriminate]
      end.
Qed.
End CampaignFacts.

Section CampaignTheorem.
Import Js Supabase Effects DataFetchers Observations.

(** X1.  When every row of the answer carries a valid date,
    [fetchCampaignAnalytics] returns summaries whose event totals add up
    to the number of rows, each with at least one active day and no more
    active days than events, with [avgEventsPerDay] the quotient of the
    two through [toFixed(1)], largest total first. *)
Theorem fetchCampaignAnalytics_summaries {H : Type} (data : list Object) (h : H) :
  Forall (fun e => date_time (get e "created_at") <> None) data ->
  let run := fetchCampaignAnalytics (Scenarios.answering data) (start tt h) in
  exists l,
    fst run = Returned l
    /\ list_sum (map totalEvents l) = List.length data
    /\ Forall (fun s => (1 <= activeDays s <= totalEvents s)%nat
                        /\ avgEventsPerDay s
                           = ratio (Number.of_nat (totalEvents s))
                                   (Number.of_nat (activeDays s))) l
    /\ StronglySorted (fun a b => (totalEvents b <= totalEvents a)%nat) l.
Proof.
  intros Hdates run.
  destruct (forEach_campaign_runs data [] Hdates) as [d Hrun].
  destruct (forEach_campaign data [] d Hrun) as [Hsum Hinv].
  exists (campaign_summaries d). split.
  { unfold run, fetchCampaignAnalytics, logged, try_catch, bind, await_rows, start.
    cbn [store hook console requests rows Scenarios.answering or_empty].
    rewrite Hrun. reflexivity. }
  split; [|split].
  - unfold campaign_summaries.
    rewrite (list_sum_perm _ _ (Permutation_map totalEvents (sort_perm _ _))).
    rewrite map_map.
    change (fun x => totalEvents (campaign_summary x)) with acc_events.
    rewrite dict_sum_entries, Hsum. simpl. lia.
  - apply Forall_forall. intros s Hin. unfold campaign_summaries in Hin.
    eapply Permutation_in in Hin; [|apply sort_perm].
    apply in_map_iff in Hin. destruct Hin as (c & <- & Hin).
    apply values_in in Hin. destruct Hin as [k Hin].
    assert (Hc : days_within_events c).
    { apply (Hinv (fun x (F : In x []) => match F with end) (k, c) Hin). }
    unfold days_within_events in Hc.
    unfold campaign_summary. cbn [activeDays avgEventsPerDay totalEvents].
    split; [exact Hc|].
    assert (Hpos : (0 <? set_size (acc_uniqueDays c))%nat = true)
      by (apply Nat.ltb_lt; lia).
    now rewrite Hpos.
  - apply sort_desc.
Qed.

(** Three rows, two for one campaign on two days. *)
Lemma fetchCampaignAnalytics_summaries_witness :
  let run := fetchCampaignAnalytics (Scenarios.answering campaign_rows) (start tt tt) in
  exists l,
    fst run = Returned l
    /\ map totalEvents l = [2; 1]%nat
    /\ map activeDays l = [2; 1]%nat
    /\ map avgEventsPerDay l = [Some "1.0"; Some "1.0"].
Proof.
  destruct (fetchCampaignAnalytics_summaries (H := unit) campaign_rows tt)
    as (l & Hrun & _).
  { repeat constructor; discriminate. }
  exists l. split; [exact Hrun|].
  assert (Hl : Returned l
               = fst (fetchCampaignAnalytics (Scenarios.answering campaign_rows)
                        (start tt tt))) by (symmetry; exact Hrun).
  vm_compute in Hl. inversion Hl; subst l. repeat split.
Defined.
End CampaignTheorem.

Section SessionDetailFacts.
Import Js Supabase Effects DataFetchers Observations.




End SessionDetailFacts.


Section RealtimeFacts.
Import Js Supabase Effects DataFetchers Observations.

(** X3.  When the cutoff is a valid date, [fetchRealtimeAnalytics] returns
    the answered events as they are, with their number as [totalEvents];
    the distinct users are at most the events and at least one when there
    is an event; with no event in the window the summary is
    [uniqueActiveUsers: 0], [eventTypes: []] and [eventsPerMinute: "0"]. *)
Theorem fetchRealtimeAnalytics_summary {H : Type} (data : list Object) (h : H)
  (now minutesBack : Z) :
  (Z.abs (now - minutesBack * 60 * 1000) <= 8640000000000000)%Z ->
  let run := fetchRealtimeAnalytics (Scenarios.answering data) now minutesBack
               (start tt h) in
  exists r,
    fst run = Returned r
    /\ map fst (requests (snd run))
       = [realtime_query (Num (now - minutesBack * 60 * 1000))]
    /\ recentEvents r = data
    /\ realtime_totalEvents r = List.length data
    /\ (uniqueActiveUsers r <= realtime_totalEvents r)%nat
    /\ (List.length (eventTypes r) <= realtime_totalEvents r)%nat
    /\ (data <> [] -> (1 <= uniqueActiveUsers r)%nat /\ eventTypes r <> [])
    /\ (data = [] -> uniqueActiveUsers r = 0%nat /\ eventTypes r = []
                     /\ eventsPerMinute r = Some "0").
Proof.
  intros Hcut run.
  exists (realtime_summary minutesBack data).
  assert (Hiso : toISOString (now - minutesBack * 60 * 1000)
                 = inr (Num (now - minutesBack * 60 * 1000))).
  { unfold toISOString, date_time.
    apply Z.leb_le in Hcut. now rewrite Hcut. }
  assert (Hrun : run = (Returned (realtime_summary minutesBack data),
                        {| store := tt; hook := h; console := [];
                           requests :=
                             [(realtime_query (Num (now - minutesBack * 60 * 1000)),
                               Rows (Success (Some data)))] |})).
  { unfold run, fetchRealtimeAnalytics, logged, try_catch, bind, lift.
    rewrite Hiso. reflexivity. }
  rewrite Hrun. cbn [fst snd requests map].
  split; [reflexivity|]. split; [reflexivity|]. split; [reflexivity|].
  split; [reflexivity|].
  unfold realtime_summary.
  cbn [uniqueActiveUsers realtime_totalEvents eventTypes eventsPerMinute].
  pose proof (set_of_size (map (fun e => get e "user_id") data)) as [Hu1 Hu2].
  pose proof (set_of_size (map (fun e => get e "event_type") data)) as [Ht1 Ht2].
  rewrite length_map in Hu1, Ht1.
  split; [exact Hu1|]. split; [exact Ht1|]. split.
  - intros Hne. split.
    + apply Hu2. destruct data; [congruence | discriminate].
    + intros Hnil.
      assert (Hm : map (fun e => get e "event_type") data <> [])
        by (destruct data; [congruence | discriminate]).
      specialize (Ht2 Hm). unfold set_size in Ht2. rewrite Hnil in Ht2.
      simpl in Ht2. lia.
  - intros ->. repeat split.
Qed.

(** A window of thirty minutes over the three events of the sample rows. *)
Lemma fetchRealtimeAnalytics_summary_witness :
  let run := fetchRealtimeAnalytics (Scenarios.answering Scenarios.two_pages)
               1800000 30 (start tt tt) in
  exists r,
    fst run = Returned r
    /\ realtime_totalEvents r = 2%nat
    /\ uniqueActiveUsers r = 2%nat
    /\ eventsPerMinute r = Some "0.1".
Proof.
  destruct (fetchRealtimeAnalytics_summary (H := unit) Scenarios.two_pages tt
              1800000 30) as (r & Hrun & _).
  { vm_compute. discriminate. }
  exists r. split; [exact Hrun|].
  assert (Hr : Returned r
               = fst (fetchRealtimeAnalytics (Scenarios.answering Scenarios.two_pages)
                        1800000 30 (start tt tt))) by (symmetry; exact Hrun).
  vm_compute in Hr. inversion Hr; subst r. repeat split.
Defined.
End RealtimeFacts.

Section FailureFacts.
Import Js Supabase Effects DataFetchers DataFetchersRest Observations.


End FailureFacts.


Section SessionAnalyticsFacts.
Import Js Supabase Effects DataFetchers DataFetchersRest Observations.

(** X5.  [fetchSessionAnalytics] returns the answered sessions as they
    are; every session counts as active or as inactive, never both, so the
    two counts add up to the total; the rate is the literal "0" when there
    is no session and the percentage of active ones otherwise. *)
Theorem fetchSessionAnalytics_counts {H : Type} (data : list Object) (h : H) :
  let run := fetchSessionAnalytics (Scenarios.answering data) (start tt h) in
  exists a,
    fst run = Returned a
    /\ sessions a = data
    /\ totalSessions a = List.length data
    /\ (activeSessions a + inactiveSessions a = totalSessions a)%nat
    /\ (data = [] -> activeSessionRate a = Some "0")
    /\ (data <> [] ->
        activeSessionRate a = percentage (activeSessions a) (totalSessions a)).
Proof.
  intros run. exists (sessionAnalytics_of data).
  split; [reflexivity|]. split; [reflexivity|]. split; [reflexivity|].
  unfold sessionAnalytics_of.
  cbn [activeSessions inactiveSessions totalSessions activeSessionRate].
  split; [apply filter_partition_length|]. split.
  - intros ->. reflexivity.
  - intros Hne. destruct data as [|x data]; [congruence | reflexivity].
Qed.
End SessionAnalyticsFacts.

Section JourneyFacts.
Import Js Supabase Effects DataFetchers DataFetchersRest Observations.

Lemma add_step_eq d e :
  add_step d e
  = dict_set d (user_key e)
      (match dict_get d (user_key e) with Some s => s | None => [] end
       ++ [step_of e])%list.
Proof.
  unfold add_step.
  destruct (dict_get d (user_key e)) as [s|] eqn:Hget.
  - now rewrite Hget.
  - now rewrite dict_get_set_same, dict_set_twice.
Qed.

Lemma steps_for_cons k e data :
  steps_for k (e :: data)
  = if user_key e =? k then step_of e :: steps_for k data else steps_for k data.
Proof. unfold steps_for. simpl. now destruct (user_key e =? k). Qed.

Lemma journeys_fold data : forall d k,
  dict_get (fold_left add_step data d) k
  = match dict_get d k with
    | Some s => Some (s ++ steps_for k data)%list
    | None => if existsb (fun e => user_key e =? k) data
              then Some (steps_for k data) else None
    end.
Proof.
  induction data as [|e data IH]; intros d k; cbn [fold_left existsb].
  - destruct (dict_get d k); [now rewrite app_nil_r | reflexivity].
  - rewrite IH, add_step_eq, steps_for_cons.
    destruct (user_key e =? k) eqn:E.
    + apply String.eqb_eq in E. subst k. rewrite dict_get_set_same.
      destruct (dict_get d (user_key e)); cbn [orb]; now rewrite <- app_assoc.
    + apply String.eqb_neq in E. rewrite dict_get_set_other by exact E.
      reflexivity.
Qed.

Lemma journeys_nodup data : forall d,
  NoDup (map fst d) -> NoDup (map fst (fold_left add_step data d)).
Proof.
  induction data as [|e data IH]; intros d Hnd; simpl; [exact Hnd|].
  apply IH. rewrite add_step_eq. now apply dict_set_nodup.
Qed.

Lemma journeys_sum data : forall d,
  dict_sum (@List.length Step) (fold_left add_step data d)
  = (dict_sum (@List.length Step) d + List.length data)%nat.
Proof.
  induction data as [|e data IH]; intros d; simpl; [lia|].
  rewrite IH, add_step_eq.
  destruct (dict_get d (user_key e)) as [s|] eqn:Hget.
  - pose proof (dict_set_sum_old (@List.length Step) d (user_key e)
                  (s ++ [step_of e])%list s Hget) as Hs.
    rewrite length_app in Hs. simpl in Hs. lia.
  - rewrite (dict_set_sum_new (@List.length Step) d (user_key e) _ Hget).
    simpl. lia.
Qed.

Lemma steps_for_nonempty k data :
  existsb (fun e => user_key e =? k) data = true -> steps_for k data <> [].
Proof.
  induction data as [|e data IH]; simpl; [discriminate|].
  rewrite steps_for_cons. destruct (user_key e =? k); [discriminate | exact IH].
Qed.

Lemma journeys_of_groups (data : list Object) :
  NoDup (map userId (journeys_of data))
  /\ (forall e, In e data -> In (user_key e) (map userId (journeys_of data)))
  /\ Forall (fun j => journey j = steps_for (userId j) data
                      /\ journey j <> []
                      /\ totalSteps j = List.length (journey j)
                      /\ uniquePages j
                         = set_size (set_of (map step_path (journey j))))
            (journeys_of data)
  /\ list_sum (map totalSteps (journeys_of data)) = List.length data.
Proof.
  set (d := fold_left add_step data []).
  assert (Hnd : NoDup (map fst d)) by (apply journeys_nodup; constructor).
  assert (Hperm : Permutation (entries d) d) by apply entries_perm.
  split; [|split; [|split]].
  - unfold journeys_of. fold d. rewrite map_map. cbn [userId].
    eapply Permutation_NoDup; [apply Permutation_sym, Permutation_map, Hperm|].
    exact Hnd.
  - intros e Hin. unfold journeys_of. fold d. rewrite map_map. cbn [userId].
    eapply Permutation_in; [apply Permutation_sym, Permutation_map, Hperm|].
    destruct (dict_get d (user_key e)) as [s|] eqn:Hget.
    + apply dict_get_in in Hget. change (user_key e) with (fst (user_key e, s)).
      now apply in_map.
    + exfalso. unfold d in Hget. rewrite journeys_fold in Hget. cbn in Hget.
      assert (Hex : existsb (fun e0 => user_key e0 =? user_key e) data = true).
      { apply existsb_exists. exists e. split; [exact Hin | apply String.eqb_refl]. }
      rewrite Hex in Hget. discriminate.
  - apply Forall_forall. intros j Hin. unfold journeys_of in Hin. fold d in Hin.
    apply in_map_iff in Hin. destruct Hin as ([k s] & <- & Hin).
    cbn [userId journey totalSteps uniquePages fst snd].
    eapply Permutation_in in Hin; [|exact Hperm].
    apply (dict_in_get d k s Hnd) in Hin.
    unfold d in Hin. rewrite journeys_fold in Hin. cbn in Hin.
    destruct (existsb (fun e => user_key e =? k) data) eqn:Hex; [|discriminate].
    inversion Hin; subst s.
    split; [reflexivity|]. split; [now apply steps_for_nonempty|].
    split; reflexivity.
  - unfold journeys_of. fold d. rewrite map_map. cbn [totalSteps].
    rewrite (list_sum_perm _ _ (Permutation_map (fun x => List.length (snd x)) Hperm)).
    change (list_sum (map (fun x => List.length (snd x)) d))
      with (dict_sum (@List.length Step) d).
    unfold d. rewrite journeys_sum. reflexivity.
Qed.

(** X6.  [fetchUserJourneys] returns one journey per distinct user of
    the answered rows (user ids that are not names inherited from
    [Object.prototype]); the journey of a user holds a step for each of
    that user's rows, in the order of the answer (which the request asks
    to be chronological), [totalSteps] is their number, so the steps of all
    journeys add up to the number of rows, and the distinct pages of a
    journey are at least one and at most its steps. *)
Theorem fetchUserJourneys_partitions {H : Type} (data : list Object)
  (user : option string) (h : H) (Hown : own_keys user_key data) :
  let run := fetchUserJourneys (Scenarios.answering data) user (start tt h) in
  exists js,
    fst run = Returned js
    /\ ordering (journeys_query user) = Some ("created_at", true)
    /\ NoDup (map userId js)
    /\ (forall e, In e data -> In (user_key e) (map userId js))
    /\ Forall (fun j => journey j = steps_for (userId j) data
                        /\ totalSteps j = List.length (journey j)
                        /\ (1 <= uniquePages j <= totalSteps j)%nat) js
    /\ list_sum (map totalSteps js) = List.length data.
Proof.
  intros run. exists (journeys_of data).
  destruct (journeys_of_groups data) as (Hnd & Hin & Hall & Hsum).
  split; [reflexivity|].
  split; [unfold journeys_query; destruct (given user); reflexivity|].
  split; [exact Hnd|]. split; [exact Hin|]. split; [|exact Hsum].
  eapply Forall_impl; [|exact Hall].
  intros j (Hj & Hne & Hsteps & Hpages).
  split; [exact Hj|]. split; [exact Hsteps|].
  rewrite Hpages, Hsteps.
  pose proof (set_of_size (map step_path (journey j))) as [Hle Hge].
  rewrite length_map in Hle. split; [|exact Hle].
  apply Hge. destruct (journey j); [congruence | discriminate].
Qed.

(** Three rows of two users. *)
Lemma fetchUserJourneys_partitions_witness :
  let data := [ [("user_id", Str "u1"); ("event_action", Str "open")];
                [("user_id", Str "u2"); ("event_action", Str "open")];
                [("user_id", Str "u1"); ("event_action", Str "close")] ] in
  let run := fetchUserJourneys (H := unit) (Scenarios.answering data) None (start tt tt) in
  exists js,
    fst run = Returned js
    /\ map (fun j => (userId j, totalSteps j)) js = [("u1", 2%nat); ("u2", 1%nat)]
    /\ list_sum (map totalSteps js) = 3%nat.
Proof.
  intros data run.
  assert (Hown : own_keys user_key data) by (repeat constructor).
  destruct (fetchUserJourneys_partitions (H := unit) data None tt Hown)
    as (js & Hrun & _ & _ & _ & _ & Hsum).
  exists js. split; [exact Hrun|].
  split; [|exact Hsum].
  assert (Hjs : Returned js = Returned (journeys_of data))
    by (rewrite <- Hrun; reflexivity).
  inversion Hjs; subst js. vm_compute. reflexivity.
Defined.

Lemma set_of_undefined (l : list Value) :
  l <> [] -> Forall (fun v => v = Undefined) l -> set_size (set_of l) = 1%nat.
Proof.
  destruct l as [|v l]; [congruence|]. intros _ Hall.
  inversion Hall as [|? ? Hv Hl]; subst. unfold set_of. cbn [fold_left].
  change (set_add [] Undefined) with [Undefined].
  clear Hall. induction Hl as [|v l Hv Hl IH]; [reflexivity|].
  subst v. cbn [fold_left]. exact IH.
Qed.

Lemma journeys_answer (db : Database.t) (user : option string) :
  rows Database.remote db (journeys_query user)
  = (Success (Some (Database.view db (journeys_query user))), db).
Proof.
  unfold journeys_query. destruct (given user); reflexivity.
Qed.

Lemma journeys_view_paths (db : Database.t) (user : option string) :
  Forall (fun e => get e "event_path" = Undefined)
         (Database.view db (journeys_query user)).
Proof.
  unfold Database.view. apply Forall_forall. intros e Hin.
  apply in_map_iff in Hin. destruct Hin as (r & <- & _).
  unfold journeys_query. destruct (given user); reflexivity.
Qed.

(** X7.  Against a store that answers with the columns the request
    selects, every step of every journey has an undefined path and every
    journey reports exactly one distinct page: the request selects
    [page_path] and the steps read [event_path]. *)
Theorem fetchUserJourneys_loses_pages {H : Type} (db : Database.t)
  (user : option string) (h : H)
  (Hown : own_keys user_key (Database.view db (journeys_query user))) :
  exists js,
    fst (fetchUserJourneys Database.remote user (start db h)) = Returned js
    /\ list_sum (map totalSteps js)
       = List.length (Database.view db (journeys_query user))
    /\ Forall (fun j => uniquePages j = 1%nat
                        /\ Forall (fun st => step_path st = Undefined) (journey j))
              js.
Proof.
  set (data := Database.view db (journeys_query user)) in *.
  exists (journeys_of data).
  destruct (journeys_of_groups data) as (_ & _ & Hall & Hsum).
  split.
  { unfold fetchUserJourneys, logged, try_catch, bind, await_rows, start.
    cbn [store hook console requests]. rewrite journeys_answer. reflexivity. }
  split; [exact Hsum|].
  eapply Forall_impl; [|exact Hall].
  intros j (Hj & Hne & _ & Hpages).
  assert (Hpaths : Forall (fun st => step_path st = Undefined) (journey j)).
  { rewrite Hj. unfold steps_for. apply Forall_forall. intros st Hst.
    apply in_map_iff in Hst. destruct Hst as (e & <- & He).
    apply filter_In in He. destruct He as [He _].
    pose proof (journeys_view_paths db user) as Hv. fold data in Hv.
    rewrite Forall_forall in Hv. exact (Hv e He). }
  split; [|exact Hpaths].
  rewrite Hpages. apply set_of_undefined.
  - destruct (journey j); [congruence | discriminate].
  - apply Forall_forall. intros v Hv. apply in_map_iff in Hv.
    destruct Hv as (st & <- & Hst). rewrite Forall_forall in Hpaths. now apply Hpaths.
Qed.

(** The sample store: the three events of two users on two pages. *)
Lemma fetchUserJourneys_loses_pages_witness :
  exists js,
    fst (fetchUserJourneys (H := unit) Database.remote None (start Scenarios.sample tt))
    = Returned js
    /\ map (fun j => (userId j, totalSteps j, uniquePages j)) js
       = [("u1", 2%nat, 1%nat); ("u2", 1%nat, 1%nat)].
Proof.
  assert (Hown : own_keys user_key
                   (Database.view Scenarios.sample (journeys_query None)))
    by (vm_compute; repeat constructor).
  destruct (fetchUserJourneys_loses_pages (H := unit) Scenarios.sample None tt Hown)
    as (js & Hrun & _ & _).
  exists js. split; [exact Hrun|].
  assert (Hjs : Returned js
                = fst (fetchUserJourneys (H := unit) Database.remote None
                         (start Scenarios.sample tt)))
    by (now rewrite Hrun).
  vm_compute in Hjs. inversion Hjs; subst js. vm_compute. reflexivity.
Defined.

End JourneyFacts.

Section HealthFacts.
Import Js Supabase Effects DataFetchers DataFetchersRest Observations.

(** X8.  [checkDatabaseHealth] never throws: whatever the remote answers
    to its one request, it returns a report, "healthy" exactly when the
    answer carries no error, and it logs only the unhealthy case. *)
Theorem checkDatabaseHealth_reports {S H : Type} (remote : Remote S) (s : S) (h : H)
  (error_is_Error : bool) (engine_message : string) (now : Z) :
  let run := checkDatabaseHealth remote error_is_Error engine_message now (start s h) in
  let answer := fst (rows remote s health_query) in
  exists report,
    fst run = Returned report
    /\ map fst (requests (snd run)) = [health_query]
    /\ health_timestamp report = Num now
    /\ (error answer = None ->
        health_status report = "healthy" /\ console (snd run) = [])
    /\ (error answer <> None ->
        health_status report = "unhealthy"
        /\ console (snd run) = ["Database health check failed:"]).
Proof.
  unfold checkDatabaseHealth, try_catch, bind, await_rows, start.
  cbn [store hook console requests].
  destruct (rows remote s health_query) as [r s'].
  destruct r as [d | e]; cbn [fst snd error].
  - eexists. split; [reflexivity|]. repeat split; try reflexivity; congruence.
  - eexists. split; [reflexivity|]. repeat split; try reflexivity; discriminate.
Qed.
End HealthFacts.


(** ** Groupings of rows under a key *)

Section Grouping.
Import Js Observations.
Context {A T : Type} (key : A -> string) (upd : option T -> A -> T).
Context (add : Dict T -> A -> Dict T).
Hypothesis add_eq :
  forall d e, add d e = dict_set d (key e) (upd (dict_get d (key e)) e).

Lemma group_nodup (data : list A) : forall d,
  NoDup (map fst d) -> NoDup (map fst (fold_left add data d)).
Proof.
  induction data as [|e data IH]; intros d Hnd; simpl; [exact Hnd|].
  apply IH. rewrite add_eq. now apply dict_set_nodup.
Qed.

Lemma group_sum (f : T -> nat) (data : list A) :
  (forall e, f (upd None e) = 1%nat) ->
  (forall t e, f (upd (Some t) e) = (f t + 1)%nat) ->
  forall d,
    dict_sum f (fold_left add data d) = (dict_sum f d + List.length data)%nat.
Proof.
  intros Hnew Hold.
  induction data as [|e data IH]; intros d; simpl; [lia|].
  rewrite IH, add_eq.
  destruct (dict_get d (key e)) as [t|] eqn:Hget.
  - pose proof (dict_set_sum_old f d (key e) (upd (Some t) e) t Hget) as Hs.
    rewrite Hold in Hs. lia.
  - rewrite (dict_set_sum_new f d (key e) _ Hget), Hnew. lia.
Qed.

Lemma group_all (P : T -> Prop) (data : list A) :
  (forall e, P (upd None e)) ->
  (forall t e, P t -> P (upd (Some t) e)) ->
  forall d,
    (forall x, In x d -> P (snd x)) ->
    forall x, In x (fold_left add data d) -> P (snd x).
Proof.
  intros Hnew Hold.
  induction data as [|e data IH]; intros d Hd x Hin; simpl in Hin; [now apply Hd|].
  apply IH in Hin; [exact Hin|].
  intros y Hy. rewrite add_eq in Hy. apply dict_set_in in Hy.
  destruct Hy as [Hy | Hy]; [|now apply Hd].
  rewrite Hy. destruct (dict_get d (key e)) as [t|] eqn:Hget.
  - apply Hold. apply dict_get_in in Hget. exact (Hd _ Hget).
  - apply Hnew.
Qed.
Lemma group_get (data : list A) : forall d k,
  dict_get (fold_left add data d) k
  = fold_left (fun o e => Some (upd o e))
      (filter (fun e => key e =? k) data) (dict_get d k).
Proof.
  induction data as [|e data IH]; intros d k; cbn [fold_left filter]; [reflexivity|].
  rewrite IH, add_eq. destruct (key e =? k) eqn:E; cbn [fold_left].
  - apply String.eqb_eq in E. subst k. now rewrite dict_get_set_same.
  - apply String.eqb_neq in E. now rewrite dict_get_set_other.
Qed.

Lemma fold_some (l : list A) : forall o,
  (o <> None \/ l <> []) ->
  fold_left (fun o e => Some (upd o e)) l o <> None.
Proof.
  induction l as [|e l IH]; intros o [Ho | Hl]; cbn [fold_left];
    try assumption; try congruence.
  all: apply IH; left; discriminate.
Qed.

(** What the grouping of [data] holds under each of its keys. *)
Lemma group_entries (data : list A) (k : string) (t : T) :
  In (k, t) (fold_left add data []) ->
  exists e rest,
    filter (fun e => key e =? k) data = e :: rest
    /\ key e = k
    /\ Some t = fold_left (fun o e => Some (upd o e)) rest (Some (upd None e)).
Proof.
  intros Hin.
  apply dict_in_get in Hin; [|apply group_nodup; constructor].
  rewrite group_get in Hin. cbn [dict_get] in Hin.
  destruct (filter (fun e => key e =? k) data) as [|e rest] eqn:Hf.
  - discriminate.
  - exists e, rest. split; [reflexivity|]. split.
    + assert (He : In e (filter (fun e => key e =? k) data))
        by (rewrite Hf; now left).
      apply filter_In in He. now apply String.eqb_eq.
    + now rewrite <- Hin.
Qed.

Lemma group_covers (data : list A) (e : A) :
  In e data -> In (key e) (map fst (fold_left add data [])).
Proof.
  intros Hin.
  destruct (dict_get (fold_left add data []) (key e)) as [t|] eqn:Hget.
  - apply dict_get_in in Hget. change (key e) with (fst (key e, t)).
    now apply in_map.
  - exfalso. rewrite group_get in Hget. revert Hget. apply fold_some. right.
    intros Hnil.
    assert (He : In e (filter (fun e0 => key e0 =? key e) data)).
    { apply filter_In. split; [exact Hin | apply String.eqb_refl]. }
    now rewrite Hnil in He.
Qed.
End Grouping.

(** ** The sections of [useAnalytics] *)

Section TrafficFacts.
Import Js Supabase Effects DataFetchers UseAnalytics Observations.

Lemma add_source_eq d e :
  add_source d e
  = dict_set d (source_key e) (count_source (dict_get d (source_key e)) e).
Proof.
  unfold add_source, source_key, count_source. cbv beta zeta.
  destruct (dict_get d _) as [s|] eqn:Hget.
  - now rewrite Hget.
  - now rewrite dict_get_set_same, dict_set_twice.
Qed.

Lemma count_source_fold (rest : list Object) : forall s,
  exists s',
    fold_left (fun o e => Some (count_source o e)) rest (Some s) = Some s'
    /\ traffic_count s' = (traffic_count s + List.length rest)%nat
    /\ entry_key s' = entry_key s.
Proof.
  induction rest as [|e rest IH]; intros s; cbn [fold_left].
  - exists s. repeat split. simpl. lia.
  - destruct (IH (count_source (Some s) e)) as (s' & Hs' & Hcount & Hkey).
    exists s'. split; [exact Hs'|]. split; [|exact Hkey].
    rewrite Hcount. simpl. lia.
Qed.

Lemma trafficSources_of_tallies (data : list Object) :
  NoDup (map entry_key (trafficSources_of data))
  /\ (forall e, In e data ->
                In (source_key e) (map entry_key (trafficSources_of data)))
  /\ Forall (fun s => traffic_count s
                      = List.length (rows_of source_key (entry_key s) data)
                      /\ (1 <= traffic_count s)%nat)
            (trafficSources_of data)
  /\ list_sum (map traffic_count (trafficSources_of data)) = List.length data
  /\ StronglySorted (fun a b => (traffic_count b <= traffic_count a)%nat)
       (trafficSources_of data).
Proof.
  unfold trafficSources_of. set (d := fold_left add_source data []).
  assert (Hentry : forall k s, In (k, s) d ->
            entry_key s = k
            /\ traffic_count s = List.length (rows_of source_key k data)
            /\ (1 <= traffic_count s)%nat).
  { intros k s Hin.
    destruct (group_entries source_key count_source add_source add_source_eq
                data k s Hin) as (e & rest & Hf & Hk & Hs).
    destruct (count_source_fold rest (count_source None e))
      as (s' & Hs' & Hcount & Hkey).
    rewrite Hs' in Hs. inversion Hs; subst s'.
    unfold rows_of. rewrite Hf, Hcount. cbn [List.length count_source traffic_count].
    split; [|split; lia].
    rewrite Hkey. exact Hk. }
  assert (Hperm : Permutation (values d) (map snd d)).
  { unfold values. apply Permutation_map, entries_perm. }
  assert (Hkeys : map entry_key (map snd d) = map fst d).
  { rewrite map_map. apply map_ext_in. intros [k s] Hin. apply Hentry, Hin. }
  assert (Hpk : Permutation
                  (map entry_key
                     (sort (fun a b => (traffic_count b <=? traffic_count a)%nat)
                        (values d)))
                  (map fst d)).
  { rewrite <- Hkeys. apply Permutation_map.
    eapply perm_trans; [apply sort_perm | exact Hperm]. }
  split; [|split; [|split; [|split]]].
  - eapply Permutation_NoDup; [apply Permutation_sym, Hpk|].
    apply (group_nodup source_key count_source add_source add_source_eq).
    constructor.
  - intros e Hin. eapply Permutation_in; [apply Permutation_sym, Hpk|].
    now apply (group_covers source_key count_source add_source add_source_eq).
  - apply Forall_forall. intros s Hin.
    eapply Permutation_in in Hin; [|apply sort_perm].
    apply values_in in Hin. destruct Hin as (k & Hin).
    destruct (Hentry k s Hin) as (Hk & Hc & Hpos). rewrite Hk. now split.
  - rewrite (list_sum_perm _ _ (Permutation_map traffic_count (sort_perm _ _))).
    rewrite dict_sum_entries. unfold d.
    rewrite (group_sum source_key count_source add_source add_source_eq
               traffic_count data); [reflexivity | reflexivity |].
    intros t e. reflexivity.
  - apply sort_desc.
Qed.

(** X9.  When the request of the traffic section is answered with rows,
    [fetchTrafficSources] stores one entry per distinct key of the rows
    (source, medium and campaign, a missing medium or campaign counting as
    blank); the count of an entry is the number of rows of its key, so the
    counts add up to the number of rows, and the entries come largest
    first; nothing is logged and the error slot is left alone. *)
Theorem fetchTrafficSources_tallies (clock : Clock) (data : list Object) (h : State) :
  let run := fetchTrafficSources (Scenarios.answering data) clock (start tt h) in
  let out := trafficSources (hook (snd run)) in
  fst run = Returned tt
  /\ console (snd run) = []
  /\ error (hook (snd run)) = error h
  /\ NoDup (map entry_key out)
  /\ (forall e, In e data -> In (source_key e) (map entry_key out))
  /\ Forall (fun s => traffic_count s
                      = List.length (rows_of source_key (entry_key s) data)
                      /\ (1 <= traffic_count s)%nat) out
  /\ list_sum (map traffic_count out) = List.length data
  /\ StronglySorted (fun a b => (traffic_count b <= traffic_count a)%nat) out.
Proof.
  intros run out.
  assert (Hout : out = trafficSources_of data) by reflexivity.
  split; [reflexivity|]. split; [reflexivity|]. split; [reflexivity|].
  rewrite Hout. apply trafficSources_of_tallies.
Qed.
End TrafficFacts.

Section PageFacts.
Import Js Supabase Effects DataFetchers UseAnalytics Observations.

Lemma add_page_eq d e :
  add_page d e = dict_set d (page_key e) (count_page (dict_get d (page_key e)) e).
Proof.
  unfold add_page, page_key, count_page. cbv beta zeta.
  destruct (dict_get d _) as [p|] eqn:Hget.
  - now rewrite Hget.
  - now rewrite dict_get_set_same, dict_set_twice.
Qed.

Lemma count_page_fold (rest : list Object) : forall p,
  exists p',
    fold_left (fun o e => Some (count_page o e)) rest (Some p) = Some p'
    /\ page_visits p' = (page_visits p + List.length rest)%nat
    /\ page_users p'
       = fold_left set_add (map (fun e => get e "user_id") rest) (page_users p).
Proof.
  induction rest as [|e rest IH]; intros p; cbn [fold_left map].
  - exists p. repeat split. simpl. lia.
  - destruct (IH (count_page (Some p) e)) as (p' & Hp' & Hvisits & Husers).
    exists p'. split; [exact Hp'|]. split; [|exact Husers].
    rewrite Hvisits. simpl. lia.
Qed.

Lemma pageAnalytics_of_tallies (data : list Object) :
  NoDup (map analytics_page_path (pageAnalytics_of data))
  /\ (forall e, In e data ->
                In (page_key e) (map analytics_page_path (pageAnalytics_of data)))
  /\ Forall (fun p =>
               analytics_visits p
               = List.length (rows_of page_key (analytics_page_path p) data)
               /\ unique_users p
                  = set_size (set_of (map (fun e => get e "user_id")
                                        (rows_of page_key (analytics_page_path p) data)))
               /\ (1 <= unique_users p <= analytics_visits p)%nat)
            (pageAnalytics_of data)
  /\ list_sum (map analytics_visits (pageAnalytics_of data)) = List.length data
  /\ StronglySorted (fun a b => (analytics_visits b <= analytics_visits a)%nat)
       (pageAnalytics_of data).
Proof.
  unfold pageAnalytics_of. set (d := fold_left add_page data []).
  set (mk := fun e : string * PageUsers =>
               {| analytics_page_path := fst e;
                  analytics_visits := page_visits (snd e);
                  unique_users := set_size (page_users (snd e)) |}).
  assert (Hentry : forall k p, In (k, p) d ->
            page_visits p = List.length (rows_of page_key k data)
            /\ page_users p
               = set_of (map (fun e => get e "user_id") (rows_of page_key k data))).
  { intros k p Hin.
    destruct (group_entries page_key count_page add_page add_page_eq
                data k p Hin) as (e & rest & Hf & Hk & Hp).
    destruct (count_page_fold rest (count_page None e))
      as (p' & Hp' & Hvisits & Husers).
    rewrite Hp' in Hp. inversion Hp; subst p'.
    unfold rows_of. rewrite Hf, Hvisits, Husers. split; reflexivity. }
  assert (Hperm : Permutation
                    (sort (fun a b => (analytics_visits b <=? analytics_visits a)%nat)
                       (map mk (entries d)))
                    (map mk d)).
  { eapply perm_trans; [apply sort_perm|]. apply Permutation_map, entries_perm. }
  assert (Hpk : Permutation
                  (map analytics_page_path
                     (sort (fun a b => (analytics_visits b <=? analytics_visits a)%nat)
                        (map mk (entries d))))
                  (map fst d)).
  { eapply perm_trans; [apply Permutation_map, Hperm|].
    rewrite map_map. apply Permutation_refl. }
  split; [|split; [|split; [|split]]].
  - eapply Permutation_NoDup; [apply Permutation_sym, Hpk|].
    apply (group_nodup page_key count_page add_page add_page_eq). constructor.
  - intros e Hin. eapply Permutation_in; [apply Permutation_sym, Hpk|].
    now apply (group_covers page_key count_page add_page add_page_eq).
  - apply Forall_forall. intros p Hin.
    eapply Permutation_in in Hin; [|exact Hperm].
    apply in_map_iff in Hin. destruct Hin as ([k q] & <- & Hin).
    destruct (Hentry k q Hin) as (Hv & Hu).
    cbn [mk analytics_page_path analytics_visits unique_users fst snd].
    rewrite Hv, Hu. split; [reflexivity|]. split; [reflexivity|].
    destruct (group_entries page_key count_page add_page add_page_eq
                data k q Hin) as (e & rest & Hf & _ & _).
    pose proof (set_of_size (map (fun e => get e "user_id") (rows_of page_key k data)))
      as [Hle Hge].
    rewrite length_map in Hle. split; [|exact Hle].
    apply Hge. unfold rows_of. rewrite Hf. discriminate.
  - rewrite (list_sum_perm _ _ (Permutation_map analytics_visits Hperm)).
    rewrite map_map.
    change (list_sum (map (fun x => analytics_visits (mk x)) d))
      with (dict_sum page_visits d).
    unfold d.
    rewrite (group_sum page_key count_page add_page add_page_eq page_visits data);
      [reflexivity | reflexivity |].
    intros t e. reflexivity.
  - apply sort_desc.
Qed.

(** X10.  When the request of the pages section is answered with rows
    (page paths that are not names inherited from [Object.prototype]),
    [fetchPageAnalytics] stores one entry per distinct page path; its
    [visits] is the number of rows of that path and its [unique_users] the
    number of distinct user ids among them, at least one and at most the
    visits; the visits add up to the number of rows and the entries come
    most visited first. *)
Theorem fetchPageAnalytics_tallies (clock : Clock) (data : list Object) (h : State)
  (Hown : own_keys page_key data) :
  let run := fetchPageAnalytics (Scenarios.answering data) clock (start tt h) in
  let out := pageAnalytics (hook (snd run)) in
  fst run = Returned tt
  /\ console (snd run) = []
  /\ error (hook (snd run)) = error h
  /\ NoDup (map analytics_page_path out)
  /\ (forall e, In e data -> In (page_key e) (map analytics_page_path out))
  /\ Forall (fun p =>
               analytics_visits p
               = List.length (rows_of page_key (analytics_page_path p) data)
               /\ unique_users p
                  = set_size (set_of (map (fun e => get e "user_id")
                                        (rows_of page_key (analytics_page_path p) data)))
               /\ (1 <= unique_users p <= analytics_visits p)%nat) out
  /\ list_sum (map analytics_visits out) = List.length data
  /\ StronglySorted (fun a b => (analytics_visits b <= analytics_visits a)%nat) out.
Proof.
  intros run out.
  assert (Hout : out = pageAnalytics_of data) by reflexivity.
  split; [reflexivity|]. split; [reflexivity|]. split; [reflexivity|].
  rewrite Hout. apply pageAnalytics_of_tallies.
Qed.

(** Three visits of two users to two pages. *)
Lemma fetchPageAnalytics_tallies_witness :
  let data := [ [("page_path", Str "/pricing"); ("user_id", Str "u1")];
                [("page_path", Str "/dashboard"); ("user_id", Str "u1")];
                [("page_path", Str "/dashboard"); ("user_id", Str "u2")] ] in
  let run := fetchPageAnalytics (Scenarios.answering data) Scenarios.noon
               (start tt initial) in
  let out := pageAnalytics (hook (snd run)) in
  map (fun p => (analytics_page_path p, analytics_visits p, unique_users p)) out
  = [("/dashboard", 2%nat, 2%nat); ("/pricing", 1%nat, 1%nat)]
  /\ list_sum (map analytics_visits out) = 3%nat.
Proof.
  intros data run out.
  split; [vm_compute; reflexivity|].
  assert (Hown : own_keys page_key data) by (repeat constructor).
  destruct (fetchPageAnalytics_tallies Scenarios.noon data initial Hown)
    as (_ & _ & _ & _ & _ & _ & Hsum & _).
  exact Hsum.
Defined.
End PageFacts.

(** ** The components *)

Section ComponentFacts.
Import Js Supabase Effects DataFetchers UseAnalytics Observations Components.

Lemma slice_top {A : Type} (l : list A) : slice l 0 10 = firstn 10 l.
Proof.
  unfold slice.
  change (0 <? 0)%Z with false. change (10 <? 0)%Z with false. cbv iota.
  rewrite (Z.min_l 0) by lia. rewrite Z.sub_0_r. cbn [Z.to_nat skipn].
  destruct (Z.le_gt_cases 10 (Z.of_nat (List.length l))) as [Hle | Hgt].
  - rewrite Z.min_l by lia. reflexivity.
  - rewrite Z.min_r by lia. rewrite Nat2Z.id.
    rewrite !firstn_all2; [reflexivity | lia | lia].
Qed.

Lemma in_firstn {A : Type} (n : nat) (l : list A) (x : A) :
  In x (firstn n l) -> In x l.
Proof.
  intros Hin. rewrite <- (firstn_skipn n l). apply in_or_app. now left.
Qed.

Lemma in_skipn {A : Type} (n : nat) (l : list A) (x : A) :
  In x (skipn n l) -> In x l.
Proof.
  intros Hin. rewrite <- (firstn_skipn n l). apply in_or_app. now right.
Qed.

Lemma sorted_top {A : Type} (f : A -> nat) (n : nat) (l : list A) :
  StronglySorted (fun a b => (f b <= f a)%nat) l ->
  forall r p, In r (firstn n l) -> In p (skipn n l) -> (f p <= f r)%nat.
Proof.
  intros Hs. revert n. induction Hs as [|x l Hs IH Hall]; intros n r p Hr Hp.
  - rewrite firstn_nil in Hr. destruct Hr.
  - destruct n as [|n]; [destruct Hr|]. cbn [firstn skipn] in Hr, Hp.
    destruct Hr as [<- | Hr].
    + rewrite Forall_forall in Hall. apply Hall.
      exact (in_skipn n l p Hp).
    + eapply IH; eassumption.
Qed.

(** X11.  Of the pages [fetchPageAnalytics] stores, [PageAnalyticsTable]
    shows the first ten, which are ten of the most visited: no page left
    out has more visits than a page shown.  The average of every row
    divides by a number of users that is at least one. *)
Theorem PageAnalyticsTable_shows_top_pages (data : list Object)
  (Hown : own_keys page_key data) :
  let all := pageAnalytics_of data in
  let shown := PageAnalyticsTable.rows all in
  List.length shown = Nat.min 10 (List.length all)
  /\ map PageAnalyticsTable.cell_path shown
     = firstn 10 (map analytics_page_path all)
  /\ Forall (fun r =>
               (1 <= PageAnalyticsTable.cell_users r
                <= PageAnalyticsTable.cell_visits r)%nat
               /\ PageAnalyticsTable.cell_average r
                  = ratio (Number.of_nat (PageAnalyticsTable.cell_visits r))
                          (Number.of_nat (PageAnalyticsTable.cell_users r)))
            shown
  /\ (forall r p, In r shown -> In p (skipn 10 all) ->
                  (analytics_visits p <= PageAnalyticsTable.cell_visits r)%nat).
Proof.
  intros all shown.
  destruct (pageAnalytics_of_tallies data) as (_ & _ & Hall & _ & Hsorted).
  fold all in Hall, Hsorted.
  assert (Hshown : shown = map (fun page =>
            {| PageAnalyticsTable.cell_path := analytics_page_path page;
               PageAnalyticsTable.cell_visits := analytics_visits page;
               PageAnalyticsTable.cell_users := unique_users page;
               PageAnalyticsTable.cell_average :=
                 ratio (Number.of_nat (analytics_visits page))
                       (Number.of_nat (unique_users page)) |}) (firstn 10 all)).
  { unfold shown, PageAnalyticsTable.rows. now rewrite slice_top. }
  split; [|split; [|split]].
  - rewrite Hshown, length_map, length_firstn. reflexivity.
  - rewrite Hshown, map_map, firstn_map. reflexivity.
  - rewrite Hshown. apply Forall_forall. intros r Hr.
    apply in_map_iff in Hr. destruct Hr as (p & <- & Hp).
    cbn [PageAnalyticsTable.cell_users PageAnalyticsTable.cell_visits
         PageAnalyticsTable.cell_average].
    split; [|reflexivity].
    rewrite Forall_forall in Hall.
    apply (Hall p). exact (in_firstn 10 all p Hp).
  - intros r p Hr Hp. rewrite Hshown in Hr.
    apply in_map_iff in Hr. destruct Hr as (q & <- & Hq).
    cbn [PageAnalyticsTable.cell_visits].
    exact (sorted_top analytics_visits 10 all Hsorted q p Hq Hp).
Qed.

(** Twelve pages, page [i] visited once: ten rows are shown. *)
Lemma PageAnalyticsTable_shows_top_pages_witness :
  let data := map (fun i => [("page_path", Str (string_of_Z (Z.of_nat i)));
                             ("user_id", Str "u1")]) (seq 0 12) in
  List.length (PageAnalyticsTable.rows (pageAnalytics_of data)) = 10%nat.
Proof.
  intros data.
  assert (Hown : own_keys page_key data) by (vm_compute; repeat constructor).
  destruct (PageAnalyticsTable_shows_top_pages data Hown) as (Hlen & _).
  rewrite Hlen. vm_compute. reflexivity.
Defined.

(** X12.  Of the sources [fetchTrafficSources] stores,
    [TrafficSourcesChart] plots the first ten, which are ten of the
    largest; every point has a count of at least one, and its medium and
    campaign are never blank: a missing one reads "N/A". *)
Theorem TrafficSourcesChart_plots_top_sources (data : list Object) :
  let all := trafficSources_of data in
  let points := TrafficSourcesChart.chartData all in
  List.length points = Nat.min 10 (List.length all)
  /\ map TrafficSourcesChart.point_count points
     = firstn 10 (map traffic_count all)
  /\ Forall (fun pt =>
               (1 <= TrafficSourcesChart.point_count pt)%nat
               /\ truthy (TrafficSourcesChart.point_medium pt) = true
               /\ truthy (TrafficSourcesChart.point_campaign pt) = true)
            points
  /\ (forall pt s, In pt points -> In s (skipn 10 all) ->
                   (traffic_count s <= TrafficSourcesChart.point_count pt)%nat).
Proof.
  intros all points.
  destruct (trafficSources_of_tallies data) as (_ & _ & Hall & _ & Hsorted).
  fold all in Hall, Hsorted.
  unfold points, TrafficSourcesChart.chartData. rewrite slice_top.
  split; [|split; [|split]].
  - rewrite length_map, length_firstn. reflexivity.
  - rewrite map_map, firstn_map. reflexivity.
  - apply Forall_forall. intros pt Hpt.
    apply in_map_iff in Hpt. destruct Hpt as (s & <- & Hs).
    cbn [TrafficSourcesChart.point_count TrafficSourcesChart.point_medium
         TrafficSourcesChart.point_campaign].
    rewrite Forall_forall in Hall.
    split; [apply (Hall s), (in_firstn 10 all s Hs)|].
    split.
    + destruct (truthy (utm_medium s)) eqn:E; [exact E | reflexivity].
    + destruct (truthy (utm_campaign s)) eqn:E; [exact E | reflexivity].
  - intros pt s Hpt Hs.
    apply in_map_iff in Hpt. destruct Hpt as (q & <- & Hq).
    cbn [TrafficSourcesChart.point_count].
    exact (sorted_top traffic_count 10 all Hsorted q s Hq Hs).
Qed.
End ComponentFacts.


Section SectionFetcherFacts.
Import Js Supabase Effects DataFetchers UseAnalytics Observations.

(** X13.  The four section fetchers of [useAnalytics] never throw,
    whatever the remote answers.  When the request fails, each leaves the
    data of all four sections as it was and stores its own message in the
    error slot; [fetchEventAnalytics] ends with [loading] false. *)
Theorem section_fetchers_settle {S : Type} (remote : Remote S) (clock : Clock)
  (s : S) (h : State) :
  let users_run := fetchUsers remote clock (start s h) in
  let events_run := fetchEventAnalytics remote clock (start s h) in
  let traffic_run := fetchTrafficSources remote clock (start s h) in
  let pages_run := fetchPageAnalytics remote clock (start s h) in
  (fst users_run = Returned tt /\ fst events_run = Returned tt
   /\ fst traffic_run = Returned tt /\ fst pages_run = Returned tt
   /\ loading (hook (snd events_run)) = false)
  /\ forall e, (forall q, fst (rows remote s q) = Failure e) ->
       (data_kept h (hook (snd users_run))
        /\ error (hook (snd users_run)) = Some "Failed to fetch users data")
       /\ (data_kept h (hook (snd events_run))
           /\ error (hook (snd events_run)) = Some "Failed to fetch event analytics")
       /\ (data_kept h (hook (snd traffic_run))
           /\ error (hook (snd traffic_run)) = Some "Failed to fetch traffic sources")
       /\ (data_kept h (hook (snd pages_run))
           /\ error (hook (snd pages_run)) = Some "Failed to fetch page analytics").
Proof.
  intros users_run events_run traffic_run pages_run.
  unfold users_run, events_run, traffic_run, pages_run,
    fetchUsers, fetchEventAnalytics, fetchTrafficSources, fetchPageAnalytics,
    fetchEventCountsByType, logged, handleSupabaseError,
    try_finally, try_catch, bind, get_hook, await_rows, start,
    setUsers, setEventAnalytics, setTrafficSources, setPageAnalytics,
    setLoading, setError, modify_hook, console_error, throw, ret, data_kept.
  cbn [store hook console requests users eventAnalytics trafficSources
       pageAnalytics loading error eventFilter trafficFilter userFilter pageFilter].
  split.
  - repeat split.
    all: match goal with
         | |- context [rows ?r ?x ?q] => destruct (rows r x q) as [[d | e] s']
         end; reflexivity.
  - intros e Hfail.
    repeat split.
    all: match goal with
         | |- context [rows ?r ?x ?q] =>
             pose proof (Hfail q) as Hq;
             destruct (rows r x q) as [a s']; cbn [fst] in Hq; subst a
         end; reflexivity.
Qed.

(** A connection that is down. *)
Lemma section_fetchers_settle_witness :
  let run := fetchTrafficSources (failing Scenarios.network_error) Scenarios.noon
               (start tt initial) in
  fst run = Returned tt
  /\ trafficSources (hook (snd run)) = []
  /\ error (hook (snd run)) = Some "Failed to fetch traffic sources".
Proof.
  destruct (section_fetchers_settle (failing Scenarios.network_error) Scenarios.noon
              tt initial) as ((_ & _ & Hret & _) & Hfail).
  destruct (Hfail Scenarios.network_error (fun q => eq_refl))
    as (_ & _ & ((_ & _ & Hkept & _) & Herr) & _).
  split; [exact Hret|]. split; [exact Hkept | exact Herr].
Defined.
End SectionFetcherFacts.

Section DrawerFacts.
Import Js Supabase Effects DataFetchers UseAnalytics UseAnalyticsRest Observations.


End DrawerFacts.

Section OverviewFacts.
Import Js Supabase Effects DataFetchers UseAnalytics UseAnalyticsRest Observations.

Lemma overview_of_breakdowns (usersData activeUsersData : list Object) :
  let o := overview_of usersData activeUsersData in
  totalUsers o = List.length usersData
  /\ (active (subscriptionBreakdown o) + inactive (subscriptionBreakdown o)
      = totalUsers o)%nat
  /\ (standard (userTypeBreakdown o) + premium (userTypeBreakdown o)
      <= totalUsers o)%nat
  /\ (activeUsers o <= List.length activeUsersData)%nat.
Proof.
  unfold overview_of.
  cbn [totalUsers activeUsers subscriptionBreakdown userTypeBreakdown
       active inactive standard premium].
  split; [reflexivity|]. split; [apply filter_partition_length|]. split.
  - apply filter_disjoint_length. intros x Hx.
    apply same_value_zero_Str in Hx. rewrite Hx. reflexivity.
  - pose proof (set_of_size (map (fun session => get session "user_id")
                               activeUsersData)) as [Hle _].
    now rewrite length_map in Hle.
Qed.

(** X15.  [fetchOverview] never throws, whatever the remote answers.
    Either both requests were answered with rows, it stores an overview
    and touches nothing else, and then the subscribed and unsubscribed
    users add up to the total, the standard and premium users are at most
    the total, and the active users are at most the active sessions
    answered; or it leaves the overview as it was and stores its message in
    the error slot.  When the first request fails the second is not
    sent. *)
Theorem fetchOverview_settles {S : Type} (remote : Remote S) (s : S) (h : Hook) :
  let run := fetchOverview remote (start s h) in
  fst run = Returned tt
  /\ ((overview (hook (snd run)) = overview h
       /\ UseAnalytics.error (slots (hook (snd run)))
          = Some "Failed to fetch overview data"
       /\ console (snd run) = ["Error fetching overview:"])
      \/ (exists o usersData sessionsData,
            overview (hook (snd run)) = Some o
            /\ slots (hook (snd run)) = slots h
            /\ console (snd run) = []
            /\ map snd (requests (snd run))
               = [Rows (Success (Some usersData)); Rows (Success (Some sessionsData))]
            /\ totalUsers o = List.length usersData
            /\ (active (subscriptionBreakdown o) + inactive (subscriptionBreakdown o)
                = totalUsers o)%nat
            /\ (standard (userTypeBreakdown o) + premium (userTypeBreakdown o)
                <= totalUsers o)%nat
            /\ (activeUsers o <= List.length sessionsData)%nat))
  /\ (Supabase.error (fst (rows remote s overview_users_query)) <> None ->
      map fst (requests (snd run)) = [overview_users_query]).
Proof.
  intros run. unfold run, fetchOverview, try_catch, bind, await_rows, array,
    setOverview, on_slots, UseAnalytics.setError, modify_hook, console_error,
    throw, ret, start.
  cbn [store hook console requests].
  destruct (rows remote s overview_users_query) as [[usersData | e1] s1];
    cbn [fst snd store hook console requests Supabase.error].
  2: { split; [reflexivity|]. split; [left; repeat split|]. reflexivity. }
  destruct (rows remote s1 overview_sessions_query) as [[sessionsData | e2] s2];
    cbn [fst snd store hook console requests].
  2: { split; [reflexivity|]. split; [left; repeat split|].
       intros Hne. now contradiction Hne. }
  destruct usersData as [usersData|]; cbn [fst snd store hook console requests].
  2: { split; [reflexivity|]. split; [left; repeat split|].
       intros Hne. now contradiction Hne. }
  destruct sessionsData as [sessionsData|]; cbn [fst snd store hook console requests].
  2: { split; [reflexivity|]. split; [left; repeat split|].
       intros Hne. now contradiction Hne. }
  split; [reflexivity|]. split.
  - right. exists (overview_of usersData sessionsData), usersData, sessionsData.
    cbn [overview slots].
    split; [reflexivity|]. split; [reflexivity|]. split; [reflexivity|].
    split; [reflexivity|]. apply overview_of_breakdowns.
  - intros Hne. now contradiction Hne.
Qed.
End OverviewFacts.

Section FilterFacts.
Import Js Supabase Effects DataFetchers UseAnalytics Observations.
Local Open Scope fetch_scope.


End FilterFacts.


(** ** The remaining methods of [useUserData] *)

Section PagingFacts.
Import Js Supabase Effects UseUserData UseUserDataRest Observations.

(** A page of a request without malformed comparisons. *)
Lemma range_answer (db : Database.t) (q : Query) (o : nat) :
  existsb Database.malformed (filters q) = false ->
  rows Database.remote db (range (Z.of_nat o) (Z.of_nat o + fetchSize - 1) q)
  = (Success (Some (firstn (Z.to_nat fetchSize) (skipn o (Database.view db q)))), db).
Proof.
  intros Hok.
  unfold Database.remote, rows, Database.answer.
  cbn [range filters offset row_limit]. rewrite Hok.
  unfold Database.negative.
  replace (Z.of_nat o <? 0)%Z with false by (symmetry; apply Z.ltb_ge; lia).
  replace (Z.of_nat o + fetchSize - 1 - Z.of_nat o + 1)%Z with fetchSize by lia.
  change (fetchSize <? 0)%Z with false.
  cbv beta iota. unfold orb.
  unfold Database.window. cbn [range offset row_limit].
  replace (Z.of_nat o + fetchSize - 1 - Z.of_nat o + 1)%Z with fetchSize by lia.
  rewrite Nat2Z.id.
  reflexivity.
Qed.

Section Complete.
Variable db : Database.t.
Variable request : Z -> Query.
Variable label : string.
Variable V : list Object.
Let P := Z.to_nat fetchSize.
Hypothesis request_answer :
  forall o, rows Database.remote db (request (Z.of_nat o))
            = (Success (Some (firstn P (skipn o V))), db).

Lemma paging_complete :
  forall fuel o acc (w : World Database.t State),
    store w = db ->
    (List.length (skipn o V) / P < fuel)%nat ->
    exists tr,
      paging_loop Database.remote request label fuel acc (Z.of_nat o) w
      = (Returned (acc ++ skipn o V)%list,
         {| store := db; hook := hook w; console := console w;
            requests := (requests w ++ tr)%list |})
      /\ List.length tr = (List.length (skipn o V) / P + 1)%nat.
Proof.
  assert (HP : (0 < P)%nat) by apply fetchSize_pos.
  assert (HPZ : Z.of_nat P = fetchSize) by apply fetchSize_nat.
  induction fuel as [|fuel IH]; intros o acc w Hw Hfuel; [lia|].
  cbn [paging_loop]. unfold bind at 1. unfold await_rows.
  rewrite Hw, request_answer.
  set (rest := skipn o V) in *.
  set (page := firstn P rest).
  cbv beta iota.
  destruct (Nat.le_gt_cases P (List.length rest)) as [Hfull | Hshort].
  - assert (Hlen : List.length page = P).
    { unfold page. rewrite length_firstn. lia. }
    assert (Hrows : has_rows (Some page) = true).
    { unfold has_rows. rewrite Hlen. apply Nat.ltb_lt, HP. }
    assert (Hpage : full_page (Some page) = true).
    { unfold full_page. rewrite Hlen, HPZ. apply Z.eqb_refl. }
    rewrite Hrows, Hpage, Hlen.
    replace (Z.of_nat o + Z.of_nat P)%Z with (Z.of_nat (P + o)) by lia.
    assert (Hrest : skipn (P + o) V = skipn P rest).
    { unfold rest. symmetry. apply skipn_skipn. }
    assert (Hdiv : (List.length rest / P
                    = List.length (skipn P rest) / P + 1)%nat).
    { rewrite length_skipn.
      replace (List.length rest) with ((List.length rest - P) + 1 * P)%nat at 1 by lia.
      apply Nat.div_add. lia. }
    edestruct (IH (P + o)%nat (acc ++ page)%list
                 {| store := db; hook := hook w; console := console w;
                    requests := (requests w
                                 ++ [(request (Z.of_nat o),
                                      Rows (Success (Some page)))])%list |})
      as (tr & Hrun & Htr).
    { reflexivity. }
    { rewrite Hrest. lia. }
    exists ((request (Z.of_nat o), Rows (Success (Some page))) :: tr).
    split.
    + rewrite Hrun. cbn [hook console requests].
      rewrite Hrest, <- !app_assoc.
      unfold page. rewrite firstn_skipn. reflexivity.
    + cbn [List.length]. rewrite Htr, Hrest. lia.
  - assert (Hpage_eq : page = rest).
    { unfold page. apply firstn_all2. lia. }
    assert (Hpage : full_page (Some page) = false).
    { unfold full_page. rewrite Hpage_eq. apply Z.eqb_neq. lia. }
    rewrite Hpage.
    exists [(request (Z.of_nat o), Rows (Success (Some page)))].
    split.
    + unfold ret. f_equal. f_equal.
      unfold has_rows. rewrite Hpage_eq.
      destruct rest as [|r rest']; [now rewrite app_nil_r | reflexivity].
    + cbn [List.length]. rewrite Nat.div_small by lia. reflexivity.
Qed.
End Complete.

Section AnyRemote.
Context {S : Type} (remote : Remote S).

(** A run of the loop leaves the hook state alone, only adds to the log of
    requests, and a failed request ends it with an exception. *)
Lemma paging_failure (request : Z -> Query) (label : string) :
  forall fuel acc offset (w : World S State) out w',
    paging_loop remote request label fuel acc offset w = (out, w') ->
    hook w' = hook w
    /\ exists tr,
         requests w' = (requests w ++ tr)%list
         /\ (existsb failed tr = true -> exists e, out = Threw e)
         /\ (existsb failed tr = false -> forall e, out <> Threw e).
Proof.
  induction fuel as [|fuel IH]; intros acc offset w out w' Hrun.
  - inversion Hrun; subst. split; [reflexivity|].
    exists []. rewrite app_nil_r. split; [reflexivity|].
    split; [discriminate | intros _ e; discriminate].
  - cbn [paging_loop] in Hrun. unfold bind at 1, await_rows in Hrun.
    destruct (rows remote (store w) (request offset)) as [r s] eqn:Hreq.
    destruct r as [data | e].
    + destruct (full_page data).
      * apply IH in Hrun. cbn [hook requests] in Hrun.
        destruct Hrun as (Hhook & tr & Hreqs & Hfail & Hok).
        split; [exact Hhook|].
        exists ((request offset, Rows (Success data)) :: tr).
        split; [now rewrite Hreqs, <- app_assoc|].
        split; [exact Hfail | exact Hok].
      * inversion Hrun; subst. cbn [hook requests]. split; [reflexivity|].
        eexists. split; [reflexivity|].
        split; [discriminate | intros _ e; discriminate].
    + inversion Hrun; subst. cbn [hook requests]. split; [reflexivity|].
      eexists. split; [reflexivity|].
      split; [intros _; eexists; reflexivity | discriminate].
Qed.
End AnyRemote.

End PagingFacts.

Section LookupFacts.
Import Js Supabase Effects UseUserData UseUserDataRest Observations.

Lemma single_answer (db : Database.t) (q : Query) :
  existsb Database.malformed (filters q) = false ->
  offset q = None -> row_limit q = None ->
  single Database.remote db q
  = (match only (Database.view db q) with
     | Some o => Success (Some o)
     | None => Failure Database.no_single_row
     end, db).
Proof.
  intros Hok Hoff Hlim.
  unfold Database.remote, single, Database.answer, Database.window.
  rewrite Hok, Hoff, Hlim. cbn [Database.negative orb].
  destruct (Database.view db q) as [|o [|o' l]]; reflexivity.
Qed.

(** X16.  Against a store, [fetchUserById] returns the user when exactly
    one stored user has the id and stores no error; otherwise it returns
    null and reports the missing user as an error.  Either way [loading]
    ends false and [users] is untouched. *)
Theorem fetchUserById_finds (db : Database.t) (userId : string) (h : State) :
  let found := only (Database.view db (userById_query userId)) in
  let run := fetchUserById Database.remote userId (start db h) in
  fst run = Returned found
  /\ error (hook (snd run))
     = match found with
       | Some _ => None
       | None => Some ("Failed to fetch user with ID: " ++ userId)
       end
  /\ loading (hook (snd run)) = false
  /\ users (hook (snd run)) = users h.
Proof.
  intros found run.
  unfold run, fetchUserById, try_finally, try_catch, bind, await_single,
    setLoading, setError, modify_hook, console_error, throw, ret, start.
  cbn [store hook console requests users loading error].
  rewrite (single_answer db (userById_query userId)) by reflexivity.
  fold found. destruct found as [o|]; repeat split.
Qed.

(** X17.  Against a store, [findUserByEmail] looks the lower-cased
    address up and returns the user when exactly one stored user has it;
    otherwise it returns null, and a missing user is not an error: the
    error slot stays empty and nothing is logged. *)
Theorem findUserByEmail_finds (toLowerCase : string -> string)
  (db : Database.t) (email : string) (h : State) :
  let found := only (Database.view db (userByEmail_query toLowerCase email)) in
  let run := findUserByEmail Database.remote toLowerCase email (start db h) in
  filters (userByEmail_query toLowerCase email) = [Eq "email" (Str (toLowerCase email))]
  /\ fst run = Returned found
  /\ error (hook (snd run)) = None
  /\ console (snd run) = []
  /\ loading (hook (snd run)) = false
  /\ users (hook (snd run)) = users h.
Proof.
  intros found run.
  unfold run, findUserByEmail, try_finally, try_catch, bind, await_single,
    setLoading, setError, modify_hook, console_error, throw, ret, start.
  cbn [store hook console requests users loading error].
  rewrite (single_answer db (userByEmail_query toLowerCase email)) by reflexivity.
  fold found. destruct found as [o|]; repeat split.
Qed.

(** X18.  Whatever the remote, when the lookup fails with an error other
    than "no single row", both [fetchUserById] and [findUserByEmail] return
    null, store their message in the error slot, end with [loading] false
    and leave [users] alone. *)
Theorem lookups_report_failures {S : Type} (remote : Remote S)
  (toLowerCase : string -> string) (s : S) (h : State) (key : string)
  (e : PostgrestError) :
  (forall q, fst (single remote s q) = Failure e) ->
  code e <> "PGRST116" ->
  let by_id := fetchUserById remote key (start s h) in
  let by_email := findUserByEmail remote toLowerCase key (start s h) in
  (fst by_id = Returned None
   /\ error (hook (snd by_id)) = Some ("Failed to fetch user with ID: " ++ key)
   /\ loading (hook (snd by_id)) = false
   /\ users (hook (snd by_id)) = users h)
  /\ (fst by_email = Returned None
      /\ error (hook (snd by_email)) = Some ("Failed to find user with email: " ++ key)
      /\ loading (hook (snd by_email)) = false
      /\ users (hook (snd by_email)) = users h).
Proof.
  intros Hfail Hcode by_id by_email.
  apply String.eqb_neq in Hcode.
  unfold by_id, by_email, fetchUserById, findUserByEmail, try_finally, try_catch,
    bind, await_single, setLoading, setError, modify_hook, console_error, throw,
    ret, start.
  cbn [store hook console requests users loading error].
  split.
  - pose proof (Hfail (userById_query key)) as Hq.
    destruct (single remote s (userById_query key)) as [r s'].
    cbn [fst] in Hq. subst r. repeat split.
  - pose proof (Hfail (userByEmail_query toLowerCase key)) as Hq.
    destruct (single remote s (userByEmail_query toLowerCase key)) as [r s'].
    cbn [fst] in Hq. subst r. rewrite Hcode. repeat split.
Qed.

(** A connection that is down. *)
Lemma lookups_report_failures_witness :
  let by_email := findUserByEmail (failing Scenarios.network_error) (fun s => s)
                    "alice.jones@example.com" (start tt initial) in
  fst by_email = Returned None
  /\ error (hook (snd by_email))
     = Some "Failed to find user with email: alice.jones@example.com".
Proof.
  destruct (lookups_report_failures (failing Scenarios.network_error) (fun s => s)
              tt initial "alice.jones@example.com" Scenarios.network_error
              (fun q => eq_refl))
    as (_ & Hret & Herr & _).
  - discriminate.
  - split; [exact Hret | exact Herr].
Defined.
End LookupFacts.

Section DateRangeFacts.
Import Js Supabase Effects UseUserData UseUserDataRest Observations.

Lemma dateRange_matches (a b : Z) (r : Database.Row) :
  forallb (Database.matches r)
    (filters (order "created_at" false (dateRange_query (Num a) (Num b))))
  = joined_between a b r.
Proof.
  cbn [order dateRange_query lte gte add_filter select from filters app forallb
       Database.matches].
  unfold joined_between.
  destruct (Database.column (Database.fields r) "created_at"); try reflexivity.
  now rewrite andb_true_r.
Qed.

(** X19.  Against a store, and with room for enough iterations,
    [fetchUsersByDateRange] returns every stored user created between the
    two instants, however many there are, newest first, and stores them in
    [users]; it leaves no error and ends with [loading] false. *)
Theorem fetchUsersByDateRange_returns_range (db : Database.t) (h : State)
  (a b : Z) (extra : nat) :
  let base := order "created_at" false (dateRange_query (Num a) (Num b)) in
  let view := Database.view db base in
  let run := fetchUsersByDateRange Database.remote (Num a) (Num b)
               (Datatypes.S (List.length (db "users") / pageSize) + extra)
               (start db h) in
  fst run = Returned view
  /\ (exists sorted,
        view = map (Database.project (columns base)) sorted
        /\ Permutation sorted (filter (joined_between a b) (db "users"))
        /\ Sorted (fun x y =>
                     Database.key_le (Database.sort_key "created_at" y)
                                     (Database.sort_key "created_at" x) = true)
                  sorted)
  /\ users (hook (snd run)) = view
  /\ error (hook (snd run)) = None
  /\ loading (hook (snd run)) = false
  /\ List.length (requests (snd run)) = (List.length view / pageSize + 1)%nat.
Proof.
  intros base view run.
  assert (Hview :
            view = map (Database.project (columns base))
                       (Database.ordered (Some ("created_at", false))
                          (filter (joined_between a b) (db "users")))).
  { unfold view, Database.view. f_equal.
    change (ordering base) with (Some ("created_at", false)).
    change (table base) with "users".
    f_equal. apply filter_ext. intros r. apply dateRange_matches. }
  assert (Hlen : (List.length view <= List.length (db "users"))%nat).
  { rewrite Hview, length_map. unfold Database.ordered. rewrite sort_length.
    apply filter_length_le. }
  destruct (paging_complete db (dateRange_page (Num a) (Num b))
              "Error fetching users by date range:" view
              (fun o => range_answer db base o eq_refl)
              (Datatypes.S (List.length (db "users") / pageSize) + extra) 0 []
              {| store := db;
                 hook := {| users := users h; loading := true; error := None |};
                 console := []; requests := [] |})
    as (tr & Hrun & Htr).
  { reflexivity. }
  { cbn [skipn]. fold pageSize.
    assert (List.length view / pageSize <= List.length (db "users") / pageSize)%nat
      by (apply Nat.Div0.div_le_mono; exact Hlen).
    lia. }
  cbn [skipn app hook console requests] in Hrun, Htr.
  assert (Hwhole : run = (Returned view,
                          {| store := db;
                             hook := {| users := view; loading := false; error := None |};
                             console := []; requests := tr |})).
  { unfold run, fetchUsersByDateRange, bind, setLoading, setError, setUsers,
      modify_hook, try_finally, try_catch, start, ret.
    cbn [hook store console requests users loading error].
    change (Z.of_nat 0) with 0%Z in Hrun. rewrite Hrun. reflexivity. }
  rewrite Hwhole. cbn [fst snd hook requests users loading error].
  split; [reflexivity|].
  split.
  { eexists. split; [exact Hview|]. split.
    - apply sort_perm.
    - apply (sort_sorted (fun x y =>
               Database.key_le (Database.sort_key "created_at" y)
                               (Database.sort_key "created_at" x))).
      intros x y. apply key_le_total. }
  repeat (split; [reflexivity|]).
  exact Htr.
Qed.
End DateRangeFacts.

Section StatisticsFacts.
Import Js Supabase Effects UseUserData UseUserDataRest Observations.



Section AnyRemote.
Context {S : Type} (remote : Remote S).

(** X21.  Whatever the remote, whenever a request of a run of
    [fetchUsersByDateRange] or of [fetchUserStatistics] was answered with
    an error, the run has ended: the first returns the empty array and the
    second null, the error slot holds the message of the method, [loading]
    is back to false, and [users] is as it was, so the rows of earlier
    pages are dropped. *)
Theorem paged_fetches_discard_on_failure (fuel : nat) (s : S) (h : State)
  (startDate endDate : Value) (monthStart : Z) :
  let range_run := fetchUsersByDateRange remote startDate endDate fuel (start s h) in
  let stats_run := fetchUserStatistics remote monthStart fuel (start s h) in
  (existsb failed (requests (snd range_run)) = true ->
   fst range_run = Returned []
   /\ error (hook (snd range_run)) = Some (dateRange_message startDate endDate)
   /\ loading (hook (snd range_run)) = false
   /\ users (hook (snd range_run)) = users h)
  /\ (existsb failed (requests (snd stats_run)) = true ->
      fst stats_run = Returned None
      /\ error (hook (snd stats_run)) = Some "Failed to fetch user statistics"
      /\ loading (hook (snd stats_run)) = false
      /\ users (hook (snd stats_run)) = users h).
Proof.
  intros range_run stats_run. split.
  - unfold range_run, fetchUsersByDateRange, bind, setLoading, setError, setUsers,
      modify_hook, try_finally, try_catch, console_error, start, ret.
    cbn [hook store console requests users loading error].
    match goal with
    | |- context [paging_loop remote ?rq ?lb fuel [] 0%Z ?w0] =>
        destruct (paging_loop remote rq lb fuel [] 0%Z w0) as [out w'] eqn:Hrun
    end.
    apply paging_failure in Hrun. cbn [hook requests app] in Hrun.
    destruct Hrun as (Hhook & tr & Hreqs & Hfail & _).
    destruct out as [l | e |]; cbn [fst snd hook requests users loading error].
    + intros Hex. rewrite Hreqs in Hex. destruct (Hfail Hex) as [e He]. discriminate.
    + intros _. rewrite Hhook. cbn [users]. repeat split.
    + intros Hex. rewrite Hreqs in Hex. destruct (Hfail Hex) as [e He]. discriminate.
  - unfold stats_run, fetchUserStatistics, bind, setLoading, setError,
      modify_hook, try_finally, try_catch, console_error, start, ret.
    cbn [hook store console requests users loading error].
    match goal with
    | |- context [paging_loop remote statistics_users_page ?lb fuel [] 0%Z ?w0] =>
        destruct (paging_loop remote statistics_users_page lb fuel [] 0%Z w0)
          as [out w'] eqn:Hrun
    end.
    apply paging_failure in Hrun. cbn [hook requests app] in Hrun.
    destruct Hrun as (Hhook & tr & Hreqs & Hfail & Hok).
    destruct out as [l | e |]; cbn [fst snd hook requests users loading error].
    + destruct (paging_loop remote statistics_sessions_page
                  "Error fetching active sessions:" fuel [] 0%Z w')
        as [out2 w''] eqn:Hrun2.
      apply paging_failure in Hrun2.
      destruct Hrun2 as (Hhook2 & tr2 & Hreqs2 & Hfail2 & _).
      assert (Htr : existsb failed tr = false).
      { destruct (existsb failed tr) eqn:E; [|reflexivity].
        destruct (Hfail eq_refl) as [e He]. discriminate. }
      destruct out2 as [l2 | e2 |]; cbn [fst snd hook requests users loading error].
      * intros Hex. rewrite Hreqs2, Hreqs, existsb_app, Htr in Hex.
        destruct (Hfail2 Hex) as [e He]. discriminate.
      * intros _. rewrite Hhook2, Hhook. cbn [users]. repeat split.
      * intros Hex. rewrite Hreqs2, Hreqs, existsb_app, Htr in Hex.
        destruct (Hfail2 Hex) as [e He]. discriminate.
    + intros _. rewrite Hhook. cbn [users]. repeat split.
    + intros Hex. rewrite Hreqs in Hex. destruct (Hfail Hex) as [e He]. discriminate.
Qed.
End AnyRemote.

(** A connection that answers the first page of 1001 users and fails the
    second. *)
Lemma paged_fetches_discard_on_failure_witness :
  let run := fetchUsersByDateRange (Scenarios.faulty Scenarios.only_first_answered)
               (Num 0) (Num 1700000000000) 3
               (start (0%nat, Scenarios.users_db 1001) initial) in
  map page_rows (requests (snd run)) = [Some 1000%nat; None]
  /\ fst run = Returned []
  /\ error (hook (snd run))
     = Some "Failed to fetch users between 0 and 1700000000000"
  /\ users (hook (snd run)) = [].
Proof.
  split; [vm_compute; reflexivity|].
  destruct (paged_fetches_discard_on_failure
              (Scenarios.faulty Scenarios.only_first_answered) 3
              (0%nat, Scenarios.users_db 1001) initial (Num 0) (Num 1700000000000) 0)
    as (Hrange & _).
  destruct Hrange as (Hret & Herr & _ & Husers).
  - vm_compute. reflexivity.
  - split; [exact Hret|]. split; [exact Herr | exact Husers].
Defined.
End StatisticsFacts.


(** ** The pager of [UserAndSessionTable] *)

Section PagerFacts.
Import Js Observations Components Components.UserAndSessionTable.
Context {A : Type}.
Implicit Types (users : list A).

Lemma page_chunk users (i : nat) :
  getPaginatedData users (Z.of_nat (Datatypes.S i))
  = firstn 10 (skipn (10 * i) users).
Proof.
  unfold getPaginatedData, slice, dataLimit.
  replace ((Z.of_nat (Datatypes.S i) - 1) * 10)%Z with (Z.of_nat (10 * i)) by lia.
  replace (Z.of_nat (10 * i) <? 0)%Z with false by (symmetry; apply Z.ltb_ge; lia).
  replace (Z.of_nat (10 * i) + 10 <? 0)%Z with false by (symmetry; apply Z.ltb_ge; lia).
  cbv iota.
  set (len := List.length users).
  destruct (Nat.le_gt_cases len (10 * i)) as [Hout | Hin].
  - replace (Z.min (Z.of_nat (10 * i)) (Z.of_nat len)) with (Z.of_nat len) by lia.
    rewrite Nat2Z.id.
    rewrite (skipn_all2 users (n := len)) by (unfold len; lia).
    rewrite (skipn_all2 users (n := 10 * i)) by (fold len; lia).
    now rewrite !firstn_nil.
  - replace (Z.min (Z.of_nat (10 * i)) (Z.of_nat len)) with (Z.of_nat (10 * i)) by lia.
    rewrite Nat2Z.id.
    destruct (Nat.le_gt_cases (10 * i + 10) len) as [Hfull | Hshort].
    + replace (Z.to_nat (Z.min (Z.of_nat (10 * i) + 10) (Z.of_nat len)
                         - Z.of_nat (10 * i))) with 10%nat by lia.
      reflexivity.
    + replace (Z.to_nat (Z.min (Z.of_nat (10 * i) + 10) (Z.of_nat len)
                         - Z.of_nat (10 * i))) with (len - 10 * i)%nat by lia.
      rewrite !firstn_all2; [reflexivity | |]; rewrite length_skipn; fold len; lia.
Qed.

Lemma firstn_plus (a b : nat) : forall (l : list A),
  firstn (a + b) l = (firstn a l ++ firstn b (skipn a l))%list.
Proof.
  induction a as [|a IH]; intros l; [reflexivity|].
  destruct l as [|x l]; cbn [Nat.add firstn skipn app].
  - now rewrite firstn_nil.
  - now rewrite IH.
Qed.

Lemma chunks_concat users (n : nat) : forall m,
  List.concat (map (fun i => firstn n (skipn (n * i) users)) (seq 0 m))
  = firstn (n * m) users.
Proof.
  induction m as [|m IH].
  - now rewrite Nat.mul_0_r.
  - rewrite seq_S, map_app, concat_app, IH. cbn [map List.concat Nat.add].
    rewrite app_nil_r.
    replace (n * Datatypes.S m)%nat with (n * m + n)%nat by lia.
    rewrite firstn_plus. reflexivity.
Qed.

Lemma totalPages_bounds users :
  let n := Z.to_nat (totalPages users) in
  (totalPages users = Z.of_nat n
   /\ List.length users <= 10 * n
   /\ (users <> [] -> 10 * (n - 1) < List.length users))%nat.
Proof.
  intros n. unfold n, totalPages, dataLimit.
  set (len := Z.of_nat (List.length users)).
  assert (Hlen : (0 <= len)%Z) by (unfold len; lia).
  pose proof (Z.div_mod (len + 10 - 1) 10 ltac:(lia)) as Hdm.
  pose proof (Z.mod_pos_bound (len + 10 - 1) 10 ltac:(lia)) as Hmod.
  assert (Hq : (0 <= (len + 10 - 1) / 10)%Z) by (apply Z.div_pos; lia).
  split; [lia|]. split.
  - apply Nat2Z.inj_le. fold len. rewrite Nat2Z.inj_mul, Z2Nat.id by lia. lia.
  - intros Hne. assert (0 < len)%Z.
    { unfold len. destruct users; [congruence | simpl; lia]. }
    apply Nat2Z.inj_lt. fold len.
    rewrite Nat2Z.inj_mul, Nat2Z.inj_sub, Z2Nat.id by lia. lia.
Qed.

(** X22.  The pages [1 .. totalPages] of [UserAndSessionTable] partition
    the users: laid end to end they are the list of users, each holds at
    least one and at most ten of them, and a page past the last one is
    empty. *)
Theorem UserAndSessionTable_pages_partition users :
  let n := Z.to_nat (totalPages users) in
  List.concat (map (getPaginatedData users) (pages n)) = users
  /\ Forall (fun p => (1 <= List.length (getPaginatedData users p) <= 10)%nat)
            (pages n)
  /\ (forall p, (totalPages users < p)%Z -> getPaginatedData users p = []).
Proof.
  intros n. destruct (totalPages_bounds users) as (Htotal & Hup & Hlow). fold n in Htotal, Hup, Hlow.
  split; [|split].
  - unfold pages. rewrite map_map.
    rewrite (map_ext _ (fun i => firstn 10 (skipn (10 * i) users)))
      by (intros i; apply page_chunk).
    rewrite chunks_concat. apply firstn_all2. exact Hup.
  - unfold pages. apply Forall_forall. intros p Hp.
    apply in_map_iff in Hp. destruct Hp as (i & <- & Hi).
    apply in_seq in Hi. rewrite page_chunk, length_firstn, length_skipn.
    assert (Hne : users <> []).
    { intros ->. cbn in Hup. unfold n in Hi. cbn in Hi. lia. }
    specialize (Hlow Hne). lia.
  - intros p Hp. rewrite Htotal in Hp.
    replace p with (Z.of_nat (Datatypes.S (Z.to_nat (p - 1)))) by lia.
    rewrite page_chunk. rewrite skipn_all2 by lia. apply firstn_nil.
Qed.

(** X23.  Starting from page 1, the Previous and Next buttons of
    [UserAndSessionTable] reach exactly the pages [1 .. totalPages] (page 1
    alone when there is none); so while the users do not change, the page
    shown is never empty unless there is no user. *)
Theorem UserAndSessionTable_pager_stays_in_range users (p : Z) :
  (reachable users p <-> p = 1%Z \/ (1 <= p <= totalPages users)%Z)
  /\ (reachable users p -> users <> [] -> getPaginatedData users p <> []).
Proof.
  assert (Hto : reachable users p -> p = 1%Z \/ (1 <= p <= totalPages users)%Z).
  { induction 1 as [|page page' Hreach IH Hclick]; [now left|].
    destruct Hclick as [page Hmany Hlast | page Hmany Hfirst];
      unfold goToNextPage, goToPreviousPage; right; lia. }
  split; [split; [exact Hto|]|].
  - intros [-> | Hrange]; [constructor|].
    replace p with (Z.of_nat (Z.to_nat (p - 1)) + 1)%Z by lia.
    assert (Hk : (Z.of_nat (Z.to_nat (p - 1)) + 1 <= totalPages users)%Z) by lia.
    induction (Z.to_nat (p - 1)) as [|k IH]; [constructor|].
    replace (Z.of_nat (Datatypes.S k) + 1)%Z with (goToNextPage (Z.of_nat k + 1))
      by (unfold goToNextPage; lia).
    apply reachable_click with (page := (Z.of_nat k + 1)%Z).
    + apply IH. lia.
    + constructor; lia.
  - intros Hreach Hne. apply Hto in Hreach.
    destruct (totalPages_bounds users) as (Htotal & Hup & Hlow).
    specialize (Hlow Hne).
    assert (Hp : (1 <= p <= totalPages users)%Z).
    { destruct Hreach as [-> | Hr]; [|exact Hr].
      destruct users; [congruence|]. cbn [List.length] in Hup. lia. }
    replace p with (Z.of_nat (Datatypes.S (Z.to_nat (p - 1)))) by lia.
    rewrite page_chunk. intros Hnil.
    apply (f_equal (@List.length A)) in Hnil.
    rewrite length_firstn, length_skipn in Hnil. cbn [List.length] in Hnil. lia.
Qed.
End PagerFacts.

(** ** Paging of [fetchAnalyticsEvents] *)

Section WindowFacts.
Import Js Supabase Effects DataFetchers Observations.

Lemma analyticsEvents_query_offset (f : EventFilters) (o : Z) :
  o <> 0%Z ->
  let q := analyticsEvents_query (with_limit (with_offset f None) None) in
  let size := if nonzero (filter_limit f) then number (filter_limit f) else 50%Z in
  analyticsEvents_query (with_offset f (Some o))
  = {| table := table q; columns := columns q; filters := filters q;
       ordering := ordering q;
       offset := Some o; row_limit := Some (o + size - 1 - o + 1)%Z |}.
Proof.
  intros Ho q size. apply Z.eqb_neq in Ho.
  unfold q, size, analyticsEvents_query.
  cbn [with_offset with_limit userId filter_eventType eventCategory eventAction
       startDate endDate filter_limit filter_offset nonzero number].
  rewrite Ho. cbn [negb].
  destruct (given (userId f)), (given (filter_eventType f)),
    (given (eventCategory f)), (given (eventAction f)),
    (truthy (startDate f)), (truthy (endDate f)),
    (nonzero (filter_limit f)); reflexivity.
Qed.

(** X24.  Against a store, [fetchAnalyticsEvents] with a non-zero
    [offset] returns a window of what it returns without [offset] and
    [limit]: the rows from position [offset] on, [limit] of them, and 50
    when [limit] is absent or zero. *)
Theorem fetchAnalyticsEvents_window {H : Type} (db : Database.t) (h : H)
  (f : EventFilters) (o : Z) (all : list Object) :
  (0 < o)%Z ->
  (0 <= number (filter_limit f))%Z ->
  fst (fetchAnalyticsEvents Database.remote
         (with_limit (with_offset f None) None) (start db h)) = Returned all ->
  fst (fetchAnalyticsEvents Database.remote (with_offset f (Some o)) (start db h))
  = Returned
      (firstn (Z.to_nat (if nonzero (filter_limit f)
                         then number (filter_limit f) else 50%Z))
              (skipn (Z.to_nat o) all)).
Proof.
  intros Ho Hl.
  set (q := analyticsEvents_query (with_limit (with_offset f None) None)).
  set (size := if nonzero (filter_limit f) then number (filter_limit f) else 50%Z).
  assert (Hsize : (0 <= size)%Z) by (unfold size; destruct (nonzero _); lia).
  assert (Hnone : offset q = None /\ row_limit q = None).
  { unfold q, analyticsEvents_query.
    cbn [with_offset with_limit userId filter_eventType eventCategory eventAction
         startDate endDate filter_limit filter_offset nonzero number].
    destruct (given (userId f)), (given (filter_eventType f)),
      (given (eventCategory f)), (given (eventAction f)),
      (truthy (startDate f)), (truthy (endDate f)); split; reflexivity. }
  destruct Hnone as [Hoff Hlim].
  unfold fetchAnalyticsEvents, logged, handleSupabaseError, try_catch, bind,
    await_rows, console_error, throw, ret, start.
  cbn [store hook console requests].
  rewrite (analyticsEvents_query_offset f o) by lia. fold q. fold size.
  unfold Database.remote, rows, Database.answer, Database.window, Database.view.
  cbn [table columns filters ordering offset row_limit].
  rewrite Hoff, Hlim.
  destruct (existsb Database.malformed (filters q)); [discriminate|].
  cbn [Database.negative orb].
  replace (o <? 0)%Z with false by (symmetry; apply Z.ltb_ge; lia).
  replace (o + size - 1 - o + 1)%Z with size by lia.
  replace (size <? 0)%Z with false by (symmetry; apply Z.ltb_ge; lia).
  cbn [orb fst or_empty].
  intros Hall. inversion Hall; subst all. reflexivity.
Qed.

(** The second and third of the three sample events, newest first. *)
Lemma fetchAnalyticsEvents_window_witness :
  map (fun e => get e "id")
    (match fst (fetchAnalyticsEvents (H := unit) Database.remote
                  (with_offset (with_limit no_filters (Some 2%Z)) (Some 1%Z))
                  (start Scenarios.sample tt)) with
     | Returned l => l
     | _ => []
     end)
  = [Str "e2"; Str "e1"].
Proof.
  rewrite (fetchAnalyticsEvents_window (H := unit) Scenarios.sample tt
             (with_limit no_filters (Some 2%Z)) 1
             (Database.view Scenarios.sample
                (analyticsEvents_query no_filters))).
  - vm_compute. reflexivity.
  - lia.
  - cbn. lia.
  - vm_compute. reflexivity.
Defined.
End WindowFacts.
